(** * api-documenter: the HTML documenter

    A shallow embedding of [src/html/HtmlEmitter.ts] and of
    [src/documenters/HtmlDocumenter.ts], and the properties of the filename
    resolver, the breadcrumb, the doc-comment renderer and the member tables.

    JavaScript strings are [string]; arrays are lists; [undefined] is a
    constructor of its own wherever the code tests for it.  Console output,
    the files written and thrown errors are threaded through a small
    state-and-exception monad. *)

From Stdlib Require Import String Ascii List Bool Arith Lia.
From Stdlib Require Import DecimalString DecimalNat.
Import ListNotations.

Local Open Scope string_scope.
Local Open Scope list_scope.

Set Warnings "-register-all".

(* ===================================================================== *)
(** ** HtmlEmitter.ts *)
(* ===================================================================== *)

Module HtmlEmitter.

(** [attributes?: {}] : an object literal, as its key/value pairs in the
    order they are written. *)
Definition Attributes := list (string * string).

(** [interface HtmlNode { type; attributes?; content? }].  The three
    constructors are the three interfaces that extend it: [SingleHtmlNode]
    ([content] is absent), [TextHtmlNode] ([content: string]) and
    [BlockHtmlNode] ([content: HtmlNode[]]). *)
Inductive HtmlNode : Type :=
| SingleHtmlNode (type : string) (attributes : option Attributes)
| TextHtmlNode (type : string) (attributes : option Attributes) (content : string)
| BlockHtmlNode (type : string) (attributes : option Attributes) (content : list HtmlNode).

Definition node_type (n : HtmlNode) : string :=
  match n with
  | SingleHtmlNode t _ | TextHtmlNode t _ _ | BlockHtmlNode t _ _ => t
  end.

Definition node_attributes (n : HtmlNode) : option Attributes :=
  match n with
  | SingleHtmlNode _ a | TextHtmlNode _ a _ | BlockHtmlNode _ a _ => a
  end.

(** The values that reach the untyped parameters [arg1?: any] and
    [arg2?: any] of [tag]. *)
Inductive JsArg : Type :=
| JsUndefined
| JsString (s : string)
| JsArray (l : list HtmlNode).

(** JavaScript truthiness: [undefined] and the empty string are falsy, every
    array (the empty one too) is truthy. *)
Definition truthy (v : JsArg) : bool :=
  match v with
  | JsUndefined => false
  | JsString s => negb (s =? "")
  | JsArray _ => true
  end.

Definition truthy_string (s : string) : bool := negb (s =? "").

(** The five declared overloads of [tag], lines 21-25: the argument lists a
    caller can write. *)
Inductive TagArgs : Type :=
| Tag1                                                   (* tag(type) *)
| Tag2s (content : string)                               (* tag(type, content: string) *)
| Tag2b (content : list HtmlNode)                        (* tag(type, content: HtmlNode[]) *)
| Tag3s (className : string) (content : string)          (* tag(type, className, content: string) *)
| Tag3b (className : string) (content : list HtmlNode).  (* tag(type, className, content: HtmlNode[]) *)

(** What the implementation signature [tag(type, arg1?, arg2?)] receives. *)
Definition arg1 (args : TagArgs) : JsArg :=
  match args with
  | Tag1 => JsUndefined
  | Tag2s c => JsString c
  | Tag2b c => JsArray c
  | Tag3s cn _ => JsString cn
  | Tag3b cn _ => JsString cn
  end.

Definition arg2 (args : TagArgs) : JsArg :=
  match args with
  | Tag1 | Tag2s _ | Tag2b _ => JsUndefined
  | Tag3s _ c => JsString c
  | Tag3b _ c => JsArray c
  end.

(** [arg1] read as the [className: string | undefined] parameter of [_tag]:
    in every overload that supplies [arg2], [arg1] is a string. *)
Definition as_className (v : JsArg) : option string :=
  match v with
  | JsString s => Some s
  | _ => None
  end.

(** [function _tag(type, className, content)], lines 47-60. *)
Definition _tag (type : string) (className : option string) (content : JsArg) : HtmlNode :=
  let attributes :=
    match className with
    | Some cn => if truthy_string cn then Some [("class", cn)] else None
    | None => None
    end in
  match content with
  | JsUndefined => SingleHtmlNode type attributes
  | JsString s => TextHtmlNode type attributes s
  | JsArray l => BlockHtmlNode type attributes l
  end.

(** [export function tag(type, arg1?, arg2?)], lines 27-33. *)
Definition tag (type : string) (args : TagArgs) : HtmlNode :=
  if truthy (arg2 args)
  then _tag type (as_className (arg1 args)) (arg2 args)
  else _tag type None (arg1 args).

(** [export function table(headings)], lines 35-41. *)
Definition table (headings : list string) : HtmlNode :=
  tag "table" (Tag2b [
    tag "thead" (Tag2b [
      tag "tr" (Tag2b (map (fun h => tag "th" (Tag2s h)) headings))
    ])
  ]).

(** A cell handed to [tr]: [string | HtmlNode]. *)
Inductive Cell : Type :=
| CellString (s : string)
| CellNode (n : HtmlNode).

(** [export function tr(cells)], lines 43-45. *)
Definition tr (cells : list Cell) : HtmlNode :=
  tag "tr" (Tag2b (map (fun c =>
    match c with
    | CellString s => tag "td" (Tag2s s)
    | CellNode n => tag "td" (Tag2b [n])
    end) cells)).

(** Modelled from the spec: [a], which HtmlDocumenter.ts imports from
    HtmlEmitter.ts but whose definition is not in the source under study.
    The spec gives [a(text, href, className?)] as "an anchor node", and a
    node as an element name, an optional attribute mapping and a content:
    the anchor is the text node of element [a] with the [href] attribute
    and, when a class name is passed, the [class] attribute. *)
Definition a (text href : string) (className : option string) : HtmlNode :=
  TextHtmlNode "a"
    (Some (("href", href) ::
           match className with
           | Some cn => [("class", cn)]
           | None => []
           end))
    text.

(** The stylesheet link that [emit] builds as an object literal,
    lines 65-72. *)
Definition stylesheet_link (s : string) : HtmlNode :=
  SingleHtmlNode "link" (Some [("rel", "stylesheet"); ("type", "text/css"); ("href", s)]).

(** The node list [emit] hands to [new HtmlCreator(...)], lines 63-75. *)
Definition document (styles : list string) (content : list HtmlNode) : list HtmlNode :=
  [ tag "head" (Tag2b (map stylesheet_link styles));
    tag "body" (Tag2b content) ].

(** The [content] array of a [BlockHtmlNode].  [table] is declared to
    return a [BlockHtmlNode], so its callers read [content] as an array; the
    other two shapes have no array and are given the empty one. *)
Definition block_content (n : HtmlNode) : list HtmlNode :=
  match n with
  | BlockHtmlNode _ _ c => c
  | _ => []
  end.

(** [n.content.push(row)]: the caller appends to the [content] array of a
    block node in place. *)
Definition content_push (n : HtmlNode) (row : HtmlNode) : HtmlNode :=
  match n with
  | BlockHtmlNode t at' c => BlockHtmlNode t at' (c ++ [row])
  | _ => n
  end.

(** [n.content.length]. *)
Definition content_length (n : HtmlNode) : nat := length (block_content n).

End HtmlEmitter.

(* ===================================================================== *)
(** ** The API model and the doc-comment tree (read-only inputs) *)
(* ===================================================================== *)

(** [ApiItemKind] of the API model: the kinds the documenter and its
    specification name, and [Other] for every further value of the
    discriminant.  ([Variable_] is [ApiItemKind.Variable].) *)
Module ApiItemKind.
Inductive t : Type :=
| Class | Constructor | ConstructSignature | EntryPoint | Enum | EnumMember
| Function | Interface | Method | MethodSignature | Model | Namespace
| Package | Property | PropertySignature | TypeAlias | Variable_
| Other (name : string).
End ApiItemKind.

(** The string value of the discriminant, as it appears in an error
    message. *)
Definition kind_name (k : ApiItemKind.t) : string :=
  match k with
  | ApiItemKind.Class => "Class"
  | ApiItemKind.Constructor => "Constructor"
  | ApiItemKind.ConstructSignature => "ConstructSignature"
  | ApiItemKind.EntryPoint => "EntryPoint"
  | ApiItemKind.Enum => "Enum"
  | ApiItemKind.EnumMember => "EnumMember"
  | ApiItemKind.Function => "Function"
  | ApiItemKind.Interface => "Interface"
  | ApiItemKind.Method => "Method"
  | ApiItemKind.MethodSignature => "MethodSignature"
  | ApiItemKind.Model => "Model"
  | ApiItemKind.Namespace => "Namespace"
  | ApiItemKind.Package => "Package"
  | ApiItemKind.Property => "Property"
  | ApiItemKind.PropertySignature => "PropertySignature"
  | ApiItemKind.TypeAlias => "TypeAlias"
  | ApiItemKind.Variable_ => "Variable"
  | ApiItemKind.Other name => name
  end.

(** [DocNode] of the doc-comment tree, by [DocNodeKind]: the five kinds the
    renderer has a rule for, with the fields it reads, and [DocOther] for a
    node of any further kind. *)
Inductive DocNode : Type :=
| DocParagraph (nodes : list DocNode)
| DocSoftBreak
| DocCodeSpan (code : string)
| DocLinkTag (linkText : option string) (urlDestination : option string)
| DocPlainText (text : string)
| DocOther (kind : string).

(** [DocComment]: the summary section and the optional [@remarks] block. *)
Record DocComment : Type := mkDocComment {
  summarySection : list DocNode;
  remarksBlock : option (list DocNode)
}.

(** One entry of [ApiParameterListMixin.parameters]. *)
Record ApiParameter : Type := mkApiParameter {
  name : string;
  parameterTypeExcerpt : string      (* parameterTypeExcerpt.text *)
}.

(** What [ApiParameterListMixin] adds to an item. *)
Record ApiParameterListMixin : Type := mkApiParameterListMixin {
  overloadIndex : nat;
  parameters : list ApiParameter
}.

(** What [ApiDeclaredItem] adds to an item. *)
Record ApiDeclaredItem : Type := mkApiDeclaredItem {
  excerpt : string;                  (* excerpt.text *)
  getExcerptWithModifiers : string
}.

(** What [ApiPropertyItem] adds to an item. *)
Record ApiPropertyItem : Type := mkApiPropertyItem {
  isEventProperty : bool;
  propertyTypeExcerpt : string       (* propertyTypeExcerpt.text *)
}.

Inductive ReleaseTag : Type :=
| ReleaseNone | ReleaseInternal | ReleaseAlpha | ReleaseBeta | ReleasePublic.

(** One node of the API tree.  The optional parts are the base classes and
    mixins the documenter tests for at run time: [None] when the item is not
    an instance ([isBaseClassOf] or [instanceof] is false). *)
Inductive ApiNode : Type := mkApiNode {
  kind : ApiItemKind.t;
  displayName : string;
  members : list ApiNode;
  parameterList : option ApiParameterListMixin;   (* ApiParameterListMixin *)
  isStatic : option bool;                         (* ApiStaticMixin *)
  releaseTag : option ReleaseTag;                 (* ApiReleaseTagMixin *)
  tsdocComment : option (option DocComment);      (* ApiDocumentedItem *)
  declaredItem : option ApiDeclaredItem;          (* ApiDeclaredItem *)
  propertyItem : option ApiPropertyItem;          (* ApiPropertyItem *)
  initializerExcerpt : option string              (* ApiEnumMember *)
}.

(** An [ApiItem] is a node of the tree together with its parent chain
    (root first): the object identity of the source, where every item
    carries a [parent] reference. *)
Record ApiItem : Type := mkApiItem {
  ancestors : list ApiNode;
  self : ApiNode
}.

(** [apiItem.getHierarchy()]: the items from the root down to the item
    itself, each with its own parent chain. *)
Fixpoint hierarchy_from (above : list ApiNode) (below : list ApiNode) : list ApiItem :=
  match below with
  | [] => []
  | n :: rest => mkApiItem above n :: hierarchy_from (above ++ [n]) rest
  end.

Definition getHierarchy (apiItem : ApiItem) : list ApiItem :=
  hierarchy_from [] (ancestors apiItem ++ [self apiItem]).

(** [apiItem.members], each member knowing its parent. *)
Definition members_of (apiItem : ApiItem) : list ApiItem :=
  map (mkApiItem (ancestors apiItem ++ [self apiItem])) (members (self apiItem)).

(** The collaborators outside the two source files: [Utilities] (of this
    repository), [PackageName] and [path] (libraries), the scoped name of
    the API model and the serializer of [html-creator]. *)
Class Collaborators : Type := {
  getSafeFilenameForName : string -> string;
  getConciseSignature : ApiItem -> string;
  getUnscopedName : string -> string;
  getScopedNameWithinPackage : ApiItem -> string;
  path_join : string -> string -> string;
  renderHTML : list HtmlEmitter.HtmlNode -> string
}.

(* ===================================================================== *)
(** ** Effects: the console, the output folder, thrown errors *)
(* ===================================================================== *)

Inductive ConsoleLine : Type :=
| ConsoleLog (line : string)
| ConsoleWarn (line : string).

Inductive NewlineKind : Type := CrLf | Lf | OsDefault.

(** What a file of the output folder was made from. *)
Inductive FileContent : Type :=
| CopiedFrom (sourcePath : string)                                (* FileSystem.copyFile *)
| Written (content : string) (convertLineEndings : NewlineKind).  (* FileSystem.writeFile *)

(** The world the documenter acts on: the console lines printed so far and
    the writes into the output folder, both oldest first.  A later write to
    a path replaces the file of an earlier one; the list keeps every
    write.  The calls of [FileSystem] are those of a file system that does
    what it is asked: a disk that fails is not part of the model, so the
    properties below say what a run does up to a failure of the disk. *)
Record World : Type := mkWorld {
  console : list ConsoleLine;
  files : list (string * FileContent)
}.

(** A call either returns a value or throws; both leave a world behind (an
    exception does not undo what was printed or written). *)
Inductive Outcome (A : Type) : Type :=
| Returned (value : A) (w : World)
| Thrown (error : string) (w : World).
Arguments Returned {A} value w.
Arguments Thrown {A} error w.

Definition M (A : Type) : Type := World -> Outcome A.

Definition ret {A : Type} (x : A) : M A := fun w => Returned x w.

Definition bind {A B : Type} (m : M A) (k : A -> M B) : M B :=
  fun w =>
    match m w with
    | Returned x w' => k x w'
    | Thrown e w' => Thrown e w'
    end.

Definition throw {A : Type} (e : string) : M A := fun w => Thrown e w.

Definition console_log (line : string) : M unit :=
  fun w => Returned tt (mkWorld (console w ++ [ConsoleLog line]) (files w)).

Definition console_warn (line : string) : M unit :=
  fun w => Returned tt (mkWorld (console w ++ [ConsoleWarn line]) (files w)).

Definition writeFile (path : string) (content : string) (nl : NewlineKind) : M unit :=
  fun w => Returned tt (mkWorld (console w) (files w ++ [(path, Written content nl)])).

Definition copyFile (sourcePath destinationPath : string) : M unit :=
  fun w => Returned tt (mkWorld (console w) (files w ++ [(destinationPath, CopiedFrom sourcePath)])).

Definition ensureEmptyFolder : M unit :=
  fun w => Returned tt (mkWorld (console w) []).

Declare Scope js_scope.
Delimit Scope js_scope with js.
Notation "x <- m ;; k" := (bind m (fun x => k))
  (at level 61, m at next level, right associativity) : js_scope.
Notation "m ;; k" := (bind m (fun _ => k))
  (at level 61, right associativity) : js_scope.
Local Open Scope js_scope.

Section Loops.
Context {A B S : Type}.

(** [nodes.map(callback)] with a callback that has effects: the elements
    are visited in order and the first throw ends the call. *)
Variable callback : A -> M B.
Fixpoint array_map (l : list A) : M (list B) :=
  match l with
  | [] => ret []
  | x :: rest =>
      y <- callback x ;;
      ys <- array_map rest ;;
      ret (y :: ys)
  end.

(** [for (const x of l) { body }], the variables the body assigns being
    the loop state. *)
Variable body : S -> A -> M S.
Fixpoint for_of (l : list A) (s : S) : M S :=
  match l with
  | [] => ret s
  | x :: rest => s' <- body s x ;; for_of rest s'
  end.
End Loops.

(** [.filter(n => !!n)] on an array of [HtmlNode | undefined]: an object is
    truthy, [undefined] is not. *)
Fixpoint filter_defined {A : Type} (l : list (option A)) : list A :=
  match l with
  | [] => []
  | Some x :: rest => x :: filter_defined rest
  | None :: rest => filter_defined rest
  end.

(** [`${n}`] for a non-negative integer: its decimal digits. *)
Definition string_of_nat (n : nat) : string :=
  NilZero.string_of_uint (Nat.to_uint n).

(** [x || y] on strings that may be [undefined]. *)
Definition or_else (x : option string) (y : string) : string :=
  match x with
  | Some s => if HtmlEmitter.truthy_string s then s else y
  | None => y
  end.

(* ===================================================================== *)
(** ** HtmlDocumenter.ts *)
(* ===================================================================== *)

Module HtmlDocumenter.
Import HtmlEmitter.

Record DocumenterConfig : Type := mkDocumenterConfig {
  newlineKind : NewlineKind
}.

(** The fields of [class HtmlDocumenter] the page generator reads. *)
Record HtmlDocumenter : Type := mkHtmlDocumenter {
  _apiModel : ApiItem;
  _documenterConfig : option DocumenterConfig;
  _outputFolder : string
}.

(** [ApiParameterListMixin.isBaseClassOf(item)] and the like. *)
Definition is_some {A : Type} (o : option A) : bool :=
  match o with Some _ => true | None => false end.

Section Documenter.
Context {collaborators : Collaborators}.
Variable this : HtmlDocumenter.

(** [qualifiedName] in the loop of [_getFilenameForApiItem],
    lines 773-780. *)
Definition qualified_name (hierarchyItem : ApiItem) : string :=
  let qualifiedName := getSafeFilenameForName (displayName (self hierarchyItem)) in
  match parameterList (self hierarchyItem) with
  | Some mixin =>
      if (1 <? overloadIndex mixin)%nat
      then (qualifiedName ++ "_" ++ string_of_nat (overloadIndex mixin - 1))%string
      else qualifiedName
  | None => qualifiedName
  end.

(** One turn of the loop of [_getFilenameForApiItem], lines 771-792. *)
Definition filename_step (baseName : string) (hierarchyItem : ApiItem) : string :=
  let qualifiedName := qualified_name hierarchyItem in
  match kind (self hierarchyItem) with
  | ApiItemKind.Model | ApiItemKind.EntryPoint => baseName
  | ApiItemKind.Package =>
      getSafeFilenameForName (getUnscopedName (displayName (self hierarchyItem)))
  | _ => (baseName ++ "." ++ qualifiedName)%string
  end.

(** [_getFilenameForApiItem], lines 765-794. *)
Definition _getFilenameForApiItem (apiItem : ApiItem) : string :=
  match kind (self apiItem) with
  | ApiItemKind.Model => "index.html"
  | _ => (fold_left filename_step (getHierarchy apiItem) "" ++ ".html")%string
  end.

(** [_getLinkFilenameForApiItem], lines 796-798. *)
Definition _getLinkFilenameForApiItem (apiItem : ApiItem) : string :=
  ("./" ++ _getFilenameForApiItem apiItem)%string.

(** One turn of the loop of [_writeBreadcrumb], lines 708-718. *)
Definition breadcrumb_step (output : list HtmlNode) (hierarchyItem : ApiItem) : list HtmlNode :=
  match kind (self hierarchyItem) with
  | ApiItemKind.Model | ApiItemKind.EntryPoint => output
  | _ =>
      (output ++ [tag "span" (Tag3s "breadcrumb" " / ")])
        ++ [a (displayName (self hierarchyItem))
              (_getLinkFilenameForApiItem hierarchyItem) (Some "breadcrumb")]
  end.

(** [_writeBreadcrumb], lines 704-720. *)
Definition _writeBreadcrumb (output : list HtmlNode) (apiItem : ApiItem) : list HtmlNode :=
  let output :=
    output ++ [a "Home" (_getLinkFilenameForApiItem (_apiModel this)) (Some "breadcrumb")] in
  fold_left breadcrumb_step (getHierarchy apiItem) output.

(** [_writeBetaWarning], lines 722-735: its body is commented out. *)
Definition _writeBetaWarning (output : list HtmlNode) : list HtmlNode := output.

(** The callback of [nodes.map] in [_createDocNodes], lines 738-762. *)
Fixpoint render_node (node : DocNode) : M (option HtmlNode) :=
  match node with
  | DocParagraph nodes =>
      rendered <- array_map render_node nodes ;;
      ret (Some (tag "p" (Tag2b (filter_defined rendered))))
  | DocSoftBreak => ret None
  | DocCodeSpan code => ret (Some (tag "code" (Tag2s code)))
  | DocLinkTag linkText urlDestination =>
      match urlDestination with
      | Some url =>
          if truthy_string url
          then ret (Some (a (or_else linkText url) url None))
          else
            console_warn "DocLinkTag with codeDestination not supported" ;;
            ret (Some (a (or_else linkText "Missing Link") "missing-link" None))
      | None =>
          console_warn "DocLinkTag with codeDestination not supported" ;;
          ret (Some (a (or_else linkText "Missing Link") "missing-link" None))
      end
  | DocPlainText text => ret (Some (tag "span" (Tag2s text)))
  | DocOther kind => throw ("Unsupported DocNode kind: " ++ kind)%string
  end.

(** [_createDocNodes], lines 737-763. *)
Definition _createDocNodes (nodes : list DocNode) : M (list HtmlNode) :=
  rendered <- array_map render_node nodes ;;
  ret (filter_defined rendered).

(** [_createTitleCell], lines 647-653. *)
Definition _createTitleCell (apiItem : ApiItem) : HtmlNode :=
  a (getConciseSignature apiItem) (_getLinkFilenameForApiItem apiItem) (Some "ref").

(** [_createDescriptionCell], lines 662-684. *)
Definition _createDescriptionCell (apiItem : ApiItem) : M HtmlNode :=
  match tsdocComment (self apiItem) with
  | Some (Some comment) =>
      nodes <- _createDocNodes (summarySection comment) ;;
      ret (tag "div" (Tag3b "description" nodes))
  | _ => ret (tag "div" (Tag3b "description" []))
  end.

(** [_createModifiersCell], lines 686-694. *)
Definition _createModifiersCell (apiItem : ApiItem) : HtmlNode :=
  match isStatic (self apiItem) with
  | Some true => tag "code" (Tag3s "modifiers" "static")
  | _ => tag "div" (Tag2s "modifiers")
  end.

(** [_createPropertyTypeCell], lines 696-702. *)
Definition _createPropertyTypeCell (apiItem : ApiItem) : HtmlNode :=
  match propertyItem (self apiItem) with
  | Some property => tag "code" (Tag3s "type" (propertyTypeExcerpt property))
  | None => tag "code" (Tag2s "type")
  end.

(** [_writeRemarksSection], lines 263-292. *)
Definition _writeRemarksSection (output : list HtmlNode) (apiItem : ApiItem) : M (list HtmlNode) :=
  match tsdocComment (self apiItem) with
  | Some (Some comment) =>
      match remarksBlock comment with
      | Some content =>
          let output := output ++ [tag "div" (Tag3s "remarks" "Remarks")] in
          nodes <- _createDocNodes content ;;
          ret (output ++ [tag "div" (Tag2b nodes)])
      | None => ret output
      end
  | _ => ret output
  end.

(** [_writeThrowsSection], lines 294-315: its body is commented out. *)
Definition _writeThrowsSection (output : list HtmlNode) (apiItem : ApiItem) : list HtmlNode :=
  output.

(** [if (t.content.length > k) { output.push(heading); output.push(t); }] *)
Definition push_section (k : nat) (heading : string) (t : HtmlNode) (output : list HtmlNode)
  : list HtmlNode :=
  if (k <? content_length t)%nat
  then (output ++ [tag "h3" (Tag3s "section-heading" heading)]) ++ [t]
  else output.

(** [_writeParameterTables], lines 605-645. *)
Definition _writeParameterTables (output : list HtmlNode)
    (apiParameterListMixin : ApiParameterListMixin) : list HtmlNode :=
  let parametersTable := table ["Parameter"; "Type"; "Description"] in
  let parametersTable :=
    fold_left (fun t apiParameter =>
      content_push t
        (tr [CellString (name apiParameter);
             CellString (parameterTypeExcerpt apiParameter)]))
      (parameters apiParameterListMixin) parametersTable in
  push_section 1 "Parameters" parametersTable output.

(** A member of [apiItem], as the item whose parent is [apiItem]. *)
Definition member_item (apiItem : ApiItem) (member : ApiNode) : ApiItem :=
  mkApiItem (ancestors apiItem ++ [self apiItem]) member.

Section Pages.
(** The recursive call [this._writeApiItemPage(apiMember)]. *)
Variable _writeApiItemPage : ApiItem -> M unit.

(** [_writeModelTable], lines 320-338. *)
Definition _writeModelTable (output : list HtmlNode) (apiModel : ApiItem) : M (list HtmlNode) :=
  let packagesTable := table ["Package"; "Description"] in
  packagesTable <-
    for_of (fun packagesTable member =>
      let apiMember := member_item apiModel member in
      let title := _createTitleCell apiMember in
      description <- _createDescriptionCell apiMember ;;
      let row := tr [CellNode title; CellNode description] in
      match kind member with
      | ApiItemKind.Package =>
          let packagesTable := content_push packagesTable row in
          _writeApiItemPage apiMember ;;
          ret packagesTable
      | _ => ret packagesTable
      end) (members (self apiModel)) packagesTable ;;
  ret (push_section 0 "Packages" packagesTable output).

(** The seven tables of [_writePackageOrNamespaceTables]. *)
Record ContainerTables : Type := mkContainerTables {
  classesTable : HtmlNode;
  enumerationsTable : HtmlNode;
  functionsTable : HtmlNode;
  interfacesTable : HtmlNode;
  namespacesTable : HtmlNode;
  variablesTable : HtmlNode;
  typeAliasesTable : HtmlNode
}.

(** The loop body of [_writePackageOrNamespaceTables], lines 356-399. *)
Definition container_member (parent : ApiItem) (t : ContainerTables) (member : ApiNode)
  : M ContainerTables :=
  let apiMember := member_item parent member in
  let title := _createTitleCell apiMember in
  description <- _createDescriptionCell apiMember ;;
  let row := tr [CellNode title; CellNode description] in
  match kind member with
  | ApiItemKind.Class =>
      let t := mkContainerTables (content_push (classesTable t) row) (enumerationsTable t)
                 (functionsTable t) (interfacesTable t) (namespacesTable t)
                 (variablesTable t) (typeAliasesTable t) in
      _writeApiItemPage apiMember ;; ret t
  | ApiItemKind.Enum =>
      let t := mkContainerTables (classesTable t) (content_push (enumerationsTable t) row)
                 (functionsTable t) (interfacesTable t) (namespacesTable t)
                 (variablesTable t) (typeAliasesTable t) in
      _writeApiItemPage apiMember ;; ret t
  | ApiItemKind.Interface =>
      let t := mkContainerTables (classesTable t) (enumerationsTable t)
                 (functionsTable t) (content_push (interfacesTable t) row) (namespacesTable t)
                 (variablesTable t) (typeAliasesTable t) in
      _writeApiItemPage apiMember ;; ret t
  | ApiItemKind.Namespace =>
      let t := mkContainerTables (classesTable t) (enumerationsTable t)
                 (functionsTable t) (interfacesTable t) (content_push (namespacesTable t) row)
                 (variablesTable t) (typeAliasesTable t) in
      _writeApiItemPage apiMember ;; ret t
  | ApiItemKind.Function =>
      let t := mkContainerTables (classesTable t) (enumerationsTable t)
                 (content_push (functionsTable t) row) (interfacesTable t) (namespacesTable t)
                 (variablesTable t) (typeAliasesTable t) in
      _writeApiItemPage apiMember ;; ret t
  | ApiItemKind.TypeAlias =>
      let t := mkContainerTables (classesTable t) (enumerationsTable t)
                 (functionsTable t) (interfacesTable t) (namespacesTable t)
                 (variablesTable t) (content_push (typeAliasesTable t) row) in
      _writeApiItemPage apiMember ;; ret t
  | ApiItemKind.Variable_ =>
      let t := mkContainerTables (classesTable t) (enumerationsTable t)
                 (functionsTable t) (interfacesTable t) (namespacesTable t)
                 (content_push (variablesTable t) row) (typeAliasesTable t) in
      _writeApiItemPage apiMember ;; ret t
  | _ => ret t
  end.

(** [_writePackageOrNamespaceTables], lines 343-434.  For a package the
    members are those of [entryPoints[0]], the first member of the package;
    a package without an entry point makes [entryPoints[0].members] a
    [TypeError]. *)
Definition _writePackageOrNamespaceTables (output : list HtmlNode) (apiContainer : ApiItem)
  : M (list HtmlNode) :=
  let tables := mkContainerTables
    (table ["Class"; "Description"])
    (table ["Enumeration"; "Description"])
    (table ["Function"; "Description"])
    (table ["Interface"; "Description"])
    (table ["Namespace"; "Description"])
    (table ["Variable"; "Description"])
    (table ["Type Alias"; "Description"]) in
  t <-
    match kind (self apiContainer) with
    | ApiItemKind.Package =>
        match members (self apiContainer) with
        | entryPoint :: _ =>
            for_of (container_member (member_item apiContainer entryPoint))
              (members entryPoint) tables
        | [] => throw "TypeError: Cannot read property 'members' of undefined"
        end
    | _ => for_of (container_member apiContainer) (members (self apiContainer)) tables
    end ;;
  let output := push_section 1 "Classes" (classesTable t) output in
  let output := push_section 1 "Enumerations" (enumerationsTable t) output in
  let output := push_section 1 "Functions" (functionsTable t) output in
  let output := push_section 1 "Interfaces" (interfacesTable t) output in
  let output := push_section 1 "Namespaces" (namespacesTable t) output in
  let output := push_section 1 "Variables" (variablesTable t) output in
  let output := push_section 1 "Types" (typeAliasesTable t) output in
  ret output.

(** The four tables of [_writeClassTables]. *)
Record ClassTables : Type := mkClassTables {
  c_eventsTable : HtmlNode;
  c_constructorsTable : HtmlNode;
  c_propertiesTable : HtmlNode;
  c_methodsTable : HtmlNode
}.

(** [(apiMember as ApiPropertyItem).isEventProperty], read as a
    condition: [undefined] on an item that is no property item. *)
Definition isEventProperty_of (apiMember : ApiItem) : bool :=
  match propertyItem (self apiMember) with
  | Some property => isEventProperty property
  | None => false
  end.

(** The loop body of [_writeClassTables], lines 445-499. *)
Definition class_member (apiClass : ApiItem) (t : ClassTables) (member : ApiNode)
  : M ClassTables :=
  let apiMember := member_item apiClass member in
  match kind member with
  | ApiItemKind.Constructor =>
      let title := _createTitleCell apiMember in
      let modifiers := _createModifiersCell apiMember in
      description <- _createDescriptionCell apiMember ;;
      let row := tr [CellNode title; CellNode modifiers; CellNode description] in
      let t := mkClassTables (c_eventsTable t) (content_push (c_constructorsTable t) row)
                 (c_propertiesTable t) (c_methodsTable t) in
      _writeApiItemPage apiMember ;; ret t
  | ApiItemKind.Method =>
      let title := _createTitleCell apiMember in
      let modifiers := _createModifiersCell apiMember in
      description <- _createDescriptionCell apiMember ;;
      let row := tr [CellNode title; CellNode modifiers; CellNode description] in
      let t := mkClassTables (c_eventsTable t) (c_constructorsTable t)
                 (c_propertiesTable t) (content_push (c_methodsTable t) row) in
      _writeApiItemPage apiMember ;; ret t
  | ApiItemKind.Property =>
      let title := _createTitleCell apiMember in
      let modifiers := _createModifiersCell apiMember in
      let type := _createPropertyTypeCell apiMember in
      description <- _createDescriptionCell apiMember ;;
      let row := tr [CellNode title; CellNode modifiers; CellNode type; CellNode description] in
      let t :=
        if isEventProperty_of apiMember
        then mkClassTables (content_push (c_eventsTable t) row) (c_constructorsTable t)
               (c_propertiesTable t) (c_methodsTable t)
        else mkClassTables (c_eventsTable t) (c_constructorsTable t)
               (content_push (c_propertiesTable t) row) (c_methodsTable t) in
      _writeApiItemPage apiMember ;; ret t
  | _ => ret t
  end.

(** [_writeClassTables], lines 439-520. *)
Definition _writeClassTables (output : list HtmlNode) (apiClass : ApiItem) : M (list HtmlNode) :=
  let tables := mkClassTables
    (table ["Property"; "Modifiers"; "Type"; "Description"])
    (table ["Constructor"; "Modifiers"; "Description"])
    (table ["Property"; "Modifiers"; "Type"; "Description"])
    (table ["Method"; "Modifiers"; "Description"]) in
  t <- for_of (class_member apiClass) (members (self apiClass)) tables ;;
  let output := push_section 0 "Events" (c_eventsTable t) output in
  let output := push_section 1 "Constructors" (c_constructorsTable t) output in
  let output := push_section 1 "Properties" (c_propertiesTable t) output in
  let output := push_section 1 "Methods" (c_methodsTable t) output in
  ret output.

(** [_writeEnumTables], lines 525-540.  The cells of a row are evaluated in
    order: a member without [initializerExcerpt] makes the second one a
    [TypeError]. *)
Definition _writeEnumTables (output : list HtmlNode) (apiEnum : ApiItem) : M (list HtmlNode) :=
  let enumMembersTable := table ["Member"; "Value"; "Description"] in
  enumMembersTable <-
    for_of (fun enumMembersTable member =>
      let apiEnumMember := member_item apiEnum member in
      let signature := getConciseSignature apiEnumMember in
      match initializerExcerpt member with
      | Some initializer =>
          description <- _createDescriptionCell apiEnumMember ;;
          ret (content_push enumMembersTable
                 (tr [CellString signature; CellString initializer; CellNode description]))
      | None => throw "TypeError: Cannot read property 'text' of undefined"
      end) (members (self apiEnum)) enumMembersTable ;;
  ret (push_section 1 "Enumeration Members" enumMembersTable output).

(** The three tables of [_writeInterfaceTables]. *)
Record InterfaceTables : Type := mkInterfaceTables {
  i_eventsTable : HtmlNode;
  i_propertiesTable : HtmlNode;
  i_methodsTable : HtmlNode
}.

(** The loop body of [_writeInterfaceTables], lines 550-584. *)
Definition interface_member (apiClass : ApiItem) (t : InterfaceTables) (member : ApiNode)
  : M InterfaceTables :=
  let apiMember := member_item apiClass member in
  let method_row :=
    let title := _createTitleCell apiMember in
    description <- _createDescriptionCell apiMember ;;
    let row := tr [CellNode title; CellNode description] in
    let t := mkInterfaceTables (i_eventsTable t) (i_propertiesTable t)
               (content_push (i_methodsTable t) row) in
    _writeApiItemPage apiMember ;; ret t in
  match kind member with
  | ApiItemKind.ConstructSignature => method_row
  | ApiItemKind.MethodSignature => method_row
  | ApiItemKind.PropertySignature =>
      let title := _createTitleCell apiMember in
      let type := _createPropertyTypeCell apiMember in
      description <- _createDescriptionCell apiMember ;;
      let row := tr [CellNode title; CellNode type; CellNode description] in
      let t :=
        if isEventProperty_of apiMember
        then mkInterfaceTables (content_push (i_eventsTable t) row) (i_propertiesTable t)
               (i_methodsTable t)
        else mkInterfaceTables (i_eventsTable t) (content_push (i_propertiesTable t) row)
               (i_methodsTable t) in
      _writeApiItemPage apiMember ;; ret t
  | _ => ret t
  end.

(** [_writeInterfaceTables], lines 545-600. *)
Definition _writeInterfaceTables (output : list HtmlNode) (apiClass : ApiItem)
  : M (list HtmlNode) :=
  let tables := mkInterfaceTables
    (table ["Property"; "Type"; "Description"])
    (table ["Property"; "Type"; "Description"])
    (table ["Method"; "Description"]) in
  t <- for_of (interface_member apiClass) (members (self apiClass)) tables ;;
  let output := push_section 1 "Events" (i_eventsTable t) output in
  let output := push_section 1 "Properties" (i_propertiesTable t) output in
  let output := push_section 1 "Methods" (i_methodsTable t) output in
  ret output.

(** The first [switch] of [_writeApiItemPage], lines 108-152: the heading,
    or the throw of the [default] branch. *)
Definition page_heading (output : list HtmlNode) (apiItem : ApiItem) : M (list HtmlNode) :=
  let scopedName := getScopedNameWithinPackage apiItem in
  let h1 (text : string) := ret (output ++ [tag "h1" (Tag3s "page-header" text)]) in
  match kind (self apiItem) with
  | ApiItemKind.Class => h1 (scopedName ++ " class")%string
  | ApiItemKind.Enum => h1 (scopedName ++ " enum")%string
  | ApiItemKind.Interface => h1 (scopedName ++ " interface")%string
  | ApiItemKind.Constructor | ApiItemKind.ConstructSignature => h1 scopedName
  | ApiItemKind.Method | ApiItemKind.MethodSignature => h1 (scopedName ++ " method")%string
  | ApiItemKind.Function => h1 (scopedName ++ " function")%string
  | ApiItemKind.Model => h1 (scopedName ++ " API Reference")%string
  | ApiItemKind.Namespace => h1 (scopedName ++ " namespace")%string
  | ApiItemKind.Package =>
      console_log ("Writing " ++ displayName (self apiItem) ++ " package")%string ;;
      let unscopedPackageName := getUnscopedName (displayName (self apiItem)) in
      h1 (unscopedPackageName ++ " package")%string
  | ApiItemKind.Property | ApiItemKind.PropertySignature => h1 (scopedName ++ " property")%string
  | ApiItemKind.TypeAlias => h1 (scopedName ++ " type")%string
  | ApiItemKind.Variable_ => h1 (scopedName ++ " variable")%string
  | k => throw ("Unsupported API item kind: " ++ kind_name k)%string
  end.

(** Lines 154-192: the beta notice, the summary and the signature. *)
Definition page_summary (output : list HtmlNode) (apiItem : ApiItem) : M (list HtmlNode) :=
  let output :=
    match releaseTag (self apiItem) with
    | Some ReleaseBeta => _writeBetaWarning output
    | _ => output
    end in
  output <-
    match tsdocComment (self apiItem) with
    | Some (Some comment) =>
        nodes <- _createDocNodes (summarySection comment) ;;
        ret (output ++ [tag "div" (Tag3b "summary" nodes)])
    | _ => ret output
    end ;;
  match declaredItem (self apiItem) with
  | Some declared =>
      if (0 <? String.length (excerpt declared))%nat
      then ret ((output ++ [tag "div" (Tag3s "signature-heading" "Signature")])
                  ++ [tag "pre" (Tag3s "signature" (getExcerptWithModifiers declared))])
      else ret output
  | None => ret output
  end.

(** The second [switch], lines 194-203: the kinds whose remarks come before
    the member tables.  Returns the output and [appendRemarks]. *)
Definition page_early_remarks (output : list HtmlNode) (apiItem : ApiItem)
  : M (list HtmlNode * bool) :=
  match kind (self apiItem) with
  | ApiItemKind.Class | ApiItemKind.Interface | ApiItemKind.Namespace | ApiItemKind.Package =>
      output <- _writeRemarksSection output apiItem ;;
      ret (output, false)
  | _ => ret (output, true)
  end.

(** The third [switch], lines 205-241: the body of each kind, or the throw
    of the [default] branch.  [apiItem as ApiParameterListMixin] is a cast:
    on an item without the mixin, iterating [parameters] is a
    [TypeError]. *)
Definition page_tables (output : list HtmlNode) (apiItem : ApiItem) : M (list HtmlNode) :=
  let parameter_tables :=
    match parameterList (self apiItem) with
    | Some mixin =>
        let output := _writeParameterTables output mixin in
        ret (_writeThrowsSection output apiItem)
    | None => throw "TypeError: apiParameterListMixin.parameters is not iterable"
    end in
  match kind (self apiItem) with
  | ApiItemKind.Class => _writeClassTables output apiItem
  | ApiItemKind.Enum => _writeEnumTables output apiItem
  | ApiItemKind.Interface => _writeInterfaceTables output apiItem
  | ApiItemKind.Constructor | ApiItemKind.ConstructSignature
  | ApiItemKind.Method | ApiItemKind.MethodSignature
  | ApiItemKind.Function => parameter_tables
  | ApiItemKind.Namespace => _writePackageOrNamespaceTables output apiItem
  | ApiItemKind.Model => _writeModelTable output apiItem
  | ApiItemKind.Package => _writePackageOrNamespaceTables output apiItem
  | ApiItemKind.Property | ApiItemKind.PropertySignature => ret output
  | ApiItemKind.TypeAlias => ret output
  | ApiItemKind.Variable_ => ret output
  | k => throw ("Unsupported API item kind: " ++ kind_name k)%string
  end.

(** [emit(styles, content)] of HtmlEmitter.ts, lines 62-76. *)
Definition emit (styles : list string) (content : list HtmlNode) : string :=
  renderHTML (document styles content).

(** Lines 247-260: the page shell and the write. *)
Definition page_write (output : list HtmlNode) (apiItem : ApiItem) : M unit :=
  let filename := path_join (_outputFolder this) (_getFilenameForApiItem apiItem) in
  let pageContent := emit ["styles.css"] [
    tag "header" (Tag2b [
      tag "div" (Tag3b "header-top" [
        a "" "https://developers.symphony.com/" (Some "header-logo")
      ]);
      tag "div" (Tag3b "header-bottom" [])
    ]);
    tag "div" (Tag3b "main" output)
  ] in
  writeFile filename pageContent
    match _documenterConfig this with
    | Some config => newlineKind config
    | None => CrLf
    end.

(** The body of [_writeApiItemPage], lines 101-261. *)
Definition page (apiItem : ApiItem) : M unit :=
  let output := _writeBreadcrumb [] apiItem in
  output <- page_heading output apiItem ;;
  output <- page_summary output apiItem ;;
  r <- page_early_remarks output apiItem ;;
  let '(output, appendRemarks) := r in
  output <- page_tables output apiItem ;;
  output <- (if appendRemarks : bool then _writeRemarksSection output apiItem else ret output) ;;
  page_write output apiItem.

End Pages.

(** [_writeApiItemPage], by recursion on the tree under the item. *)
Fixpoint writeApiItemPage (above : list ApiNode) (node : ApiNode) {struct node} : M unit :=
  page (fun apiMember => writeApiItemPage (ancestors apiMember) (self apiMember))
    (mkApiItem above node).

Definition _writeApiItemPage (apiItem : ApiItem) : M unit :=
  writeApiItemPage (ancestors apiItem) (self apiItem).

End Documenter.

(** [MarkdownDocumenterFeatureContext], as [generateFiles] builds it on
    lines 74-82: the API model, the output folder and the accessor whose
    [getLinkForApiItem] is [_getLinkFilenameForApiItem]. *)
Record MarkdownDocumenterFeatureContext : Type := mkMarkdownDocumenterFeatureContext {
  context_apiModel : ApiItem;
  context_outputFolder : string;
  getLinkForApiItem : ApiItem -> string
}.

(** Modelled from the spec: the feature object of a plug-in, declared in
    ../plugin/MarkdownDocumenterFeature, which is not among the source
    files.  The spec gives it as "an optional feature object exposing an
    onFinished callback invoked once after all pages are written"; the
    callback is code of the plug-in, so it may print, touch the output
    folder and throw. *)
Record MarkdownDocumenterFeature : Type := mkMarkdownDocumenterFeature {
  onFinished : M unit
}.

(** Modelled from the spec: [PluginLoader] of ../plugin/PluginLoader, which
    is not among the source files.  The spec: "if a documenter
    configuration is supplied, a plugin-loading collaborator is invoked
    before traversal to obtain an optional feature object".
    [load documenterConfig createContext] is the call of line 73 together
    with the value that [markdownDocumenterFeature] has after it; loading
    runs code of the plug-ins, so it may print, touch the output folder and
    throw.  A loader that was never asked to load has no feature. *)
Class PluginLoader : Type := {
  load : DocumenterConfig -> (unit -> MarkdownDocumenterFeatureContext)
         -> M (option MarkdownDocumenterFeature)
}.

Section Run.
Context {collaborators : Collaborators} {pluginLoader : PluginLoader}.
Variable this : HtmlDocumenter.

(** Lines 72-84 of [generateFiles]: with a configuration the plug-ins are
    loaded.  The value is [this._pluginLoader.markdownDocumenterFeature] as
    line 96 reads it. *)
Definition load_feature : M (option MarkdownDocumenterFeature) :=
  match _documenterConfig this with
  | Some documenterConfig =>
      load documenterConfig (fun _ =>
        mkMarkdownDocumenterFeatureContext (_apiModel this) (_outputFolder this)
          (fun apiItem => _getLinkFilenameForApiItem apiItem))
  | None => ret None
  end.

(** [_deleteOldOutputFiles], lines 800-803. *)
Definition _deleteOldOutputFiles : M unit :=
  console_log ("Deleting old output from " ++ _outputFolder this)%string ;;
  ensureEmptyFolder.

(** Lines 96-98 of [generateFiles]. *)
Definition finish (markdownDocumenterFeature : option MarkdownDocumenterFeature) : M unit :=
  match markdownDocumenterFeature with
  | Some feature => onFinished feature
  | None => ret tt
  end.

End Run.

(** [generateFiles], lines 69-99, for a documenter built from [apiModel] and
    [documenterConfig]. *)
Definition generateFiles {collaborators : Collaborators} {pluginLoader : PluginLoader}
    (apiModel : ApiItem) (documenterConfig : option DocumenterConfig)
    (outputFolder : string) : M unit :=
  let this := mkHtmlDocumenter apiModel documenterConfig outputFolder in
  markdownDocumenterFeature <- load_feature this ;;
  console_log "" ;;
  _deleteOldOutputFiles this ;;
  copyFile "../html/styles.css" (path_join outputFolder "styles.css") ;;
  _writeApiItemPage this (_apiModel this) ;;
  finish markdownDocumenterFeature.

(** Every item of the tree under [apiItem], itself included, parents before
    members. *)
Fixpoint tree_items_from (above : list ApiNode) (node : ApiNode) {struct node} : list ApiItem :=
  mkApiItem above node
    :: flat_map (tree_items_from (above ++ [node])) (members node).

Definition tree_items (apiItem : ApiItem) : list ApiItem :=
  tree_items_from (ancestors apiItem) (self apiItem).

End HtmlDocumenter.

(* ===================================================================== *)
(** ** Concrete inputs *)
(* ===================================================================== *)

Module Examples.
Import HtmlEmitter HtmlDocumenter.

(** An item that is an instance of none of the optional base classes. *)
Definition plain (k : ApiItemKind.t) (displayName : string) (members : list ApiNode) : ApiNode :=
  mkApiNode k displayName members None None None None None None None.

(** A function-like item with an overload index and parameters. *)
Definition parameterized (k : ApiItemKind.t) (displayName : string) (index : nat)
    (params : list ApiParameter) : ApiNode :=
  mkApiNode k displayName [] (Some (mkApiParameterListMixin index params))
    None None None None None None.

(** Collaborators that leave every name as it is; used where a theorem is
    run on a concrete input.  The theorems themselves hold for all
    collaborators. *)
Definition verbatim : Collaborators := {|
  getSafeFilenameForName := fun s => s;
  getConciseSignature := fun apiItem => displayName (self apiItem);
  getUnscopedName := fun s => s;
  getScopedNameWithinPackage := fun apiItem => displayName (self apiItem);
  path_join := fun folder file => (folder ++ "/" ++ file)%string;
  renderHTML := fun _ => ""
|}.

Definition empty_world : World := mkWorld [] [].

(** [function foo(...)] of a package, with overload index [i]. *)
Definition foo (i : nat) : ApiNode := parameterized ApiItemKind.Function "foo" i [].

Definition foo_entryPoint : ApiNode := plain ApiItemKind.EntryPoint "" [foo 1; foo 2].
Definition foo_package : ApiNode := plain ApiItemKind.Package "@scope/widgets" [foo_entryPoint].
Definition foo_model : ApiNode := plain ApiItemKind.Model "" [foo_package].

Definition foo_item (i : nat) : ApiItem :=
  mkApiItem [foo_model; foo_package; foo_entryPoint] (foo i).

(** A class and a namespace merged under one name, [class Foo] and
    [namespace Foo], in one package. *)
Definition merged_class : ApiNode := plain ApiItemKind.Class "Foo" [].
Definition merged_namespace : ApiNode := plain ApiItemKind.Namespace "Foo" [].
Definition merged_entryPoint : ApiNode :=
  plain ApiItemKind.EntryPoint "" [merged_class; merged_namespace].
Definition merged_package : ApiNode := plain ApiItemKind.Package "widgets" [merged_entryPoint].
Definition merged_model : ApiNode := plain ApiItemKind.Model "" [merged_package].

Definition merged_class_item : ApiItem :=
  mkApiItem [merged_model; merged_package; merged_entryPoint] merged_class.
Definition merged_namespace_item : ApiItem :=
  mkApiItem [merged_model; merged_package; merged_entryPoint] merged_namespace.

(** Package, namespace, class, method: [widgets] / [Shapes] / [Circle] /
    [area(x: number)]. *)
Definition deep_method : ApiNode :=
  parameterized ApiItemKind.Method "area" 1 [mkApiParameter "x" "number"].
Definition deep_class : ApiNode := plain ApiItemKind.Class "Circle" [deep_method].
Definition deep_namespace : ApiNode := plain ApiItemKind.Namespace "Shapes" [deep_class].
Definition deep_entryPoint : ApiNode := plain ApiItemKind.EntryPoint "" [deep_namespace].
Definition deep_package : ApiNode := plain ApiItemKind.Package "widgets" [deep_entryPoint].
Definition deep_model : ApiNode := plain ApiItemKind.Model "" [deep_package].

Definition deep_method_item : ApiItem :=
  mkApiItem [deep_model; deep_package; deep_entryPoint; deep_namespace; deep_class] deep_method.

(** An interface with an index signature, [interface Dict { [key: string]:
    number }]: the member's kind is one the documenter has no heading
    for. *)
Definition index_signature : ApiNode := plain (ApiItemKind.Other "IndexSignature") "" [].
Definition dict_interface : ApiNode := plain ApiItemKind.Interface "Dict" [index_signature].
Definition dict_entryPoint : ApiNode := plain ApiItemKind.EntryPoint "" [dict_interface].
Definition dict_package : ApiNode := plain ApiItemKind.Package "widgets" [dict_entryPoint].
Definition dict_model : ApiNode := plain ApiItemKind.Model "" [dict_package].

Definition index_signature_item : ApiItem :=
  mkApiItem [dict_model; dict_package; dict_entryPoint; dict_interface] index_signature.

(** A class without members. *)
Definition empty_class_item : ApiItem :=
  mkApiItem [] (plain ApiItemKind.Class "Widget" []).

(** A class whose summary holds a fenced code block, a doc node of a kind
    the renderer has no rule for. *)
Definition fenced_class_item : ApiItem :=
  mkApiItem []
    (mkApiNode ApiItemKind.Class "Widget" [] None None None
       (Some (Some (mkDocComment [DocPlainText "See:"; DocOther "FencedCode"] None)))
       None None None).

(** The documenter of the [Dict] model, writing to [out]. *)
Definition dict_documenter : HtmlDocumenter :=
  mkHtmlDocumenter (mkApiItem [] dict_model) None "out".

End Examples.

(* ===================================================================== *)
(** ** Vocabulary of the properties *)
(* ===================================================================== *)

Module Vocabulary.
Import HtmlEmitter HtmlDocumenter.

(** The kinds of parameterized declarations: the five [case] labels in
    front of [_writeParameterTables], lines 215-219. *)
Definition is_function_like (k : ApiItemKind.t) : bool :=
  match k with
  | ApiItemKind.Constructor | ApiItemKind.ConstructSignature
  | ApiItemKind.Method | ApiItemKind.MethodSignature
  | ApiItemKind.Function => true
  | _ => false
  end.

(** The levels that neither the filename nor the breadcrumb shows. *)
Definition is_model_or_entryPoint (k : ApiItemKind.t) : bool :=
  match k with
  | ApiItemKind.Model | ApiItemKind.EntryPoint => true
  | _ => false
  end.

Definition shown_level (hierarchyItem : ApiItem) : bool :=
  negb (is_model_or_entryPoint (kind (self hierarchyItem))).

(** The kinds the first [switch] of [_writeApiItemPage] has a [case]
    for, lines 109-148. *)
Definition has_heading (k : ApiItemKind.t) : bool :=
  match k with
  | ApiItemKind.EntryPoint | ApiItemKind.EnumMember | ApiItemKind.Other _ => false
  | _ => true
  end.

(** The base name the loop of [_getFilenameForApiItem] has built when it
    reaches the item itself: the one of the levels above it. *)
Definition parent_name {collaborators : Collaborators} (apiItem : ApiItem) : string :=
  fold_left filename_step (hierarchy_from [] (ancestors apiItem)) "".

(** Strings joined in order. *)
Definition concat_strings (l : list string) : string :=
  fold_right String.append "" l.

(** The text of a text node. *)
Definition node_text (n : HtmlNode) : string :=
  match n with
  | TextHtmlNode _ _ content => content
  | _ => ""
  end.

(** A node of a kind without rendering rule occurs in the list, at the top
    or inside a paragraph. *)
Fixpoint has_unsupported_kind (node : DocNode) : bool :=
  match node with
  | DocParagraph nodes => existsb has_unsupported_kind nodes
  | DocOther _ => true
  | _ => false
  end.

(** Induction on doc nodes that reaches the nodes of a paragraph. *)
Section DocNodeInduction.
Variable P : DocNode -> Prop.
Hypothesis paragraph : forall nodes, Forall P nodes -> P (DocParagraph nodes).
Hypothesis softBreak : P DocSoftBreak.
Hypothesis codeSpan : forall code, P (DocCodeSpan code).
Hypothesis linkTag : forall linkText urlDestination, P (DocLinkTag linkText urlDestination).
Hypothesis plainText : forall text, P (DocPlainText text).
Hypothesis other : forall kind, P (DocOther kind).

Fixpoint DocNode_nested_ind (node : DocNode) : P node :=
  match node with
  | DocParagraph nodes =>
      paragraph nodes
        ((fix all (l : list DocNode) : Forall P l :=
            match l with
            | [] => Forall_nil P
            | n :: rest => Forall_cons n (DocNode_nested_ind n) (all rest)
            end) nodes)
  | DocSoftBreak => softBreak
  | DocCodeSpan code => codeSpan code
  | DocLinkTag linkText urlDestination => linkTag linkText urlDestination
  | DocPlainText text => plainText text
  | DocOther kind => other kind
  end.
End DocNodeInduction.

(** The console after the warning of an unsupported link. *)
Definition warned (w : World) : World :=
  mkWorld (console w ++ [ConsoleWarn "DocLinkTag with codeDestination not supported"])
    (files w).

(** A node is a soft break. *)
Definition is_soft_break (node : DocNode) : bool :=
  match node with
  | DocSoftBreak => true
  | _ => false
  end.

(** The paths written so far. *)
Definition written_paths (w : World) : list string := map fst (files w).

End Vocabulary.

(* ===================================================================== *)
(** ** The command-line action, and further vocabulary *)
(* ===================================================================== *)

Module Coverage.
Import HtmlEmitter HtmlDocumenter Vocabulary.

(** The fields of [class HtmlAction] that [onExecute] reads; [outputFolder]
    is inherited from [BaseAction]. *)
Record HtmlAction : Type := mkHtmlAction {
  outputFolder : string
}.

(** [buildApiModel] of [BaseAction] (./BaseAction, not among the source
    files; the spec counts "the API-model extraction step that produces the
    input tree" and "command-line argument handling" among the external
    collaborators) is taken as a parameter.  It is a method of the action:
    it may print, touch the file system and throw, and it may assign the
    fields of the action, so it yields the API model and the action as it
    is after the call. *)
Class BaseAction : Type := {
  buildApiModel : HtmlAction -> M (ApiItem * HtmlAction)
}.

(** [HtmlAction.onExecute]: the API model is built, then the documenter is
    made from it with [undefined] as configuration and writes to the output
    folder of the action.  The promise it returns is already resolved. *)
Definition onExecute {collaborators : Collaborators} {pluginLoader : PluginLoader}
    {baseAction : BaseAction} (this : HtmlAction) : M unit :=
  built <- buildApiModel this ;;
  let '(apiModel, this) := built in
  generateFiles apiModel None (outputFolder this).

(** The world a call leaves behind, whether it returned or threw. *)
Definition world_of {A : Type} (o : Outcome A) : World :=
  match o with
  | Returned _ w => w
  | Thrown _ w => w
  end.

(** [n] warnings of the unsupported link added to the console. *)
Definition with_warnings (n : nat) (w : World) : World :=
  mkWorld
    (console w ++ repeat (ConsoleWarn "DocLinkTag with codeDestination not supported") n)
    (files w).

(** What a call does in every world: it returns [r] after [n] warnings, or
    throws [e] after [n] warnings. *)
Definition returns_everywhere {A : Type} (m : M A) (r : A) (n : nat) : Prop :=
  forall w, m w = Returned r (with_warnings n w).

Definition throws_everywhere {A : Type} (m : M A) (e : string) (n : nat) : Prop :=
  forall w, m w = Thrown e (with_warnings n w).

(** [if (link.urlDestination)]. *)
Definition has_url (urlDestination : option string) : bool :=
  match urlDestination with
  | Some url => truthy_string url
  | None => false
  end.

(** The link tags without URL in a node, those inside paragraphs
    included. *)
Fixpoint links_without_url (node : DocNode) : nat :=
  match node with
  | DocParagraph nodes => list_sum (map links_without_url nodes)
  | DocLinkTag _ urlDestination => if has_url urlDestination then 0 else 1
  | _ => 0
  end.

(** Induction on the API tree that reaches the members of a node. *)
Section ApiNodeInduction.
Variable P : ApiNode -> Prop.
Hypothesis step : forall node, Forall P (members node) -> P node.

Fixpoint ApiNode_nested_ind (node : ApiNode) : P node :=
  step node
    (match node as n return Forall P (members n) with
     | mkApiNode _ _ ms _ _ _ _ _ _ _ =>
         (fix all (l : list ApiNode) : Forall P l :=
            match l with
            | [] => Forall_nil P
            | n :: rest => Forall_cons n (ApiNode_nested_ind n) (all rest)
            end) ms
     end).
End ApiNodeInduction.

(** A level that adds a segment to the file name: any kind but Model,
    EntryPoint and Package. *)
Definition adds_segment (k : ApiItemKind.t) : bool :=
  match k with
  | ApiItemKind.Model | ApiItemKind.EntryPoint | ApiItemKind.Package => false
  | _ => true
  end.

(** A heading and its table, as [push_section] pushes them. *)
Definition section (heading : string) (t : HtmlNode) : list HtmlNode :=
  [tag "h3" (Tag3s "section-heading" heading); t].

(** [t] is the table of [headings] with [n] rows pushed after the heading
    row. *)
Definition grown (headings : list string) (n : nat) (t : HtmlNode) : Prop :=
  exists rows : list HtmlNode,
    length rows = n
    /\ t = BlockHtmlNode "table" None (block_content (table headings) ++ rows).

(** A section that is pushed when its table has rows. *)
Definition section_if_rows (n : nat) (heading : string) (t : HtmlNode) : list HtmlNode :=
  if (n =? 0)%nat then [] else section heading t.

(** An outcome whose value is what was appended to [output]. *)
Definition appended_to (output : list HtmlNode) (o : Outcome (list HtmlNode))
  : Outcome (list HtmlNode) :=
  match o with
  | Returned suffix w => Returned (output ++ suffix) w
  | Thrown e w => Thrown e w
  end.

(** A step that returns leaves what the output held in front. *)
Definition only_appends (output : list HtmlNode) (m : M (list HtmlNode)) : Prop :=
  forall w out w', m w = Returned out w' -> exists suffix, out = output ++ suffix.

(** The number of members a predicate selects. *)
Definition count (sel : ApiNode -> bool) (l : list ApiNode) : nat :=
  length (filter sel l).

Definition has_kind (k : ApiItemKind.t) (member : ApiNode) : bool :=
  match k, kind member with
  | ApiItemKind.Class, ApiItemKind.Class
  | ApiItemKind.Constructor, ApiItemKind.Constructor
  | ApiItemKind.ConstructSignature, ApiItemKind.ConstructSignature
  | ApiItemKind.EntryPoint, ApiItemKind.EntryPoint
  | ApiItemKind.Enum, ApiItemKind.Enum
  | ApiItemKind.EnumMember, ApiItemKind.EnumMember
  | ApiItemKind.Function, ApiItemKind.Function
  | ApiItemKind.Interface, ApiItemKind.Interface
  | ApiItemKind.Method, ApiItemKind.Method
  | ApiItemKind.MethodSignature, ApiItemKind.MethodSignature
  | ApiItemKind.Model, ApiItemKind.Model
  | ApiItemKind.Namespace, ApiItemKind.Namespace
  | ApiItemKind.Package, ApiItemKind.Package
  | ApiItemKind.Property, ApiItemKind.Property
  | ApiItemKind.PropertySignature, ApiItemKind.PropertySignature
  | ApiItemKind.TypeAlias, ApiItemKind.TypeAlias
  | ApiItemKind.Variable_, ApiItemKind.Variable_ => true
  | _, _ => false
  end.

(** The members [_writePackageOrNamespaceTables] goes through: those of the
    first entry point for a package, its own for a namespace. *)
Definition container_members (container : ApiNode) : list ApiNode :=
  match kind container with
  | ApiItemKind.Package =>
      match members container with
      | entryPoint :: _ => members entryPoint
      | [] => []
      end
  | _ => members container
  end.

(** [isEventProperty] of a member, read as a condition. *)
Definition is_event (member : ApiNode) : bool :=
  match propertyItem member with
  | Some property => isEventProperty property
  | None => false
  end.

(** The members the loops hand to [_writeApiItemPage], by the kind of the
    container: the [case] labels of the five loops. *)
Definition gets_page (container : ApiItemKind.t) (member : ApiItemKind.t) : bool :=
  match container with
  | ApiItemKind.Model =>
      match member with ApiItemKind.Package => true | _ => false end
  | ApiItemKind.Package | ApiItemKind.Namespace =>
      match member with
      | ApiItemKind.Class | ApiItemKind.Enum | ApiItemKind.Interface
      | ApiItemKind.Namespace | ApiItemKind.Function | ApiItemKind.TypeAlias
      | ApiItemKind.Variable_ => true
      | _ => false
      end
  | ApiItemKind.Class =>
      match member with
      | ApiItemKind.Constructor | ApiItemKind.Method | ApiItemKind.Property => true
      | _ => false
      end
  | ApiItemKind.Interface =>
      match member with
      | ApiItemKind.ConstructSignature | ApiItemKind.MethodSignature
      | ApiItemKind.PropertySignature => true
      | _ => false
      end
  | _ => false
  end.

(** The items a call of [_writeApiItemPage] writes a page for, in the order
    of the writes: for every member that gets a page, in member order, the
    pages of that member; then the item itself.  The members of a package
    are those of its first entry point. *)
Fixpoint pages_from (above : list ApiNode) (node : ApiNode) {struct node} : list ApiItem :=
  match kind node with
  | ApiItemKind.Package =>
      match members node with
      | entryPoint :: _ =>
          flat_map (fun member =>
              if gets_page ApiItemKind.Package (kind member)
              then pages_from ((above ++ [node]) ++ [entryPoint]) member
              else [])
            (members entryPoint)
      | [] => []
      end
  | k =>
      flat_map (fun member =>
          if gets_page k (kind member)
          then pages_from (above ++ [node]) member
          else [])
        (members node)
  end ++ [mkApiItem above node].

Definition pages_of (apiItem : ApiItem) : list ApiItem :=
  pages_from (ancestors apiItem) (self apiItem).

(** [entry] is the write of the page of [apiItem]: its path, and the
    newline convention of the configuration, CrLf without one. *)
Definition is_page_write {collaborators : Collaborators} (this : HtmlDocumenter)
    (apiItem : ApiItem) (entry : string * FileContent) : Prop :=
  exists content : string,
    entry = (path_join (_outputFolder this) (_getFilenameForApiItem apiItem),
             Written content
               match _documenterConfig this with
               | Some config => newlineKind config
               | None => CrLf
               end).

(** What a call adds to the output folder: it only appends writes, and when
    it returns the writes it added are the pages of [pages], in order. *)
Definition writes_pages {collaborators : Collaborators} (this : HtmlDocumenter)
    (pages : list ApiItem) {A : Type} (m : M A) : Prop :=
  forall w : World,
    match m w with
    | Returned _ w' =>
        exists new, files w' = files w ++ new /\ Forall2 (is_page_write this) pages new
    | Thrown _ w' => exists new, files w' = files w ++ new
    end.

(** The pages of the members of [parent] that a container of kind [k] hands
    to [_writeApiItemPage]. *)
Definition member_pages (k : ApiItemKind.t) (parent : ApiItem) (ms : list ApiNode)
  : list ApiItem :=
  flat_map (fun member =>
      if gets_page k (kind member)
      then pages_from (ancestors parent ++ [self parent]) member
      else [])
    ms.

(** The pages written while the member tables of [apiItem] are built. *)
Definition table_pages (apiItem : ApiItem) : list ApiItem :=
  match kind (self apiItem) with
  | ApiItemKind.Package =>
      match members (self apiItem) with
      | entryPoint :: _ =>
          member_pages ApiItemKind.Package (member_item apiItem entryPoint)
            (members entryPoint)
      | [] => []
      end
  | k => member_pages k apiItem (members (self apiItem))
  end.

(** The kinds whose page has member tables that write pages. *)
Definition has_member_pages (k : ApiItemKind.t) : bool :=
  match k with
  | ApiItemKind.Model | ApiItemKind.Package | ApiItemKind.Namespace
  | ApiItemKind.Class | ApiItemKind.Interface => true
  | _ => false
  end.

(** The stylesheet in the output folder, as [generateFiles] copies it. *)
Definition stylesheet {collaborators : Collaborators} (outputFolder : string)
  : string * FileContent :=
  (path_join outputFolder "styles.css", CopiedFrom "../html/styles.css").

(** The world in which [generateFiles] starts the page generation: the two
    console lines are printed, the output folder is emptied and holds the
    stylesheet. *)
Definition cleared {collaborators : Collaborators} (outputFolder : string) (w : World)
  : World :=
  mkWorld
    ((console w ++ [ConsoleLog ""])
       ++ [ConsoleLog ("Deleting old output from " ++ outputFolder)%string])
    [stylesheet outputFolder].

(** A call that throws in whatever world it is made. *)
Definition always_throws {A : Type} (m : M A) : Prop :=
  forall w : World, exists (e : string) (w' : World), m w = Thrown e w'.

(** The doc nodes of the summary and of the remarks of an item; an item
    without comment has none. *)
Definition summary_nodes (node : ApiNode) : list DocNode :=
  match tsdocComment node with
  | Some (Some comment) => summarySection comment
  | _ => []
  end.

Definition remarks_nodes (node : ApiNode) : list DocNode :=
  match tsdocComment node with
  | Some (Some comment) =>
      match remarksBlock comment with
      | Some content => content
      | None => []
      end
  | _ => []
  end.

(** The members whose description cell the tables of an item render
    whatever their kind: every member in the loops of [_writeModelTable],
    [_writePackageOrNamespaceTables] and [_writeEnumTables]. *)
Definition described_members (node : ApiNode) : list ApiNode :=
  match kind node with
  | ApiItemKind.Model | ApiItemKind.Package | ApiItemKind.Namespace
  | ApiItemKind.Enum => container_members node
  | _ => []
  end.

(** The doc nodes that the page of an item hands to [_createDocNodes]. *)
Definition doc_nodes (node : ApiNode) : list DocNode :=
  summary_nodes node ++ remarks_nodes node
    ++ flat_map summary_nodes (described_members node).

(** The page of the item meets one of the two [throw]s: its kind has no
    heading, or one of its doc nodes has no rendering rule. *)
Definition cannot_be_rendered (apiItem : ApiItem) : bool :=
  negb (has_heading (kind (self apiItem)))
  || existsb has_unsupported_kind (doc_nodes (self apiItem)).

(** A sequence of doc nodes with the soft breaks taken out, those inside
    paragraphs too. *)
Section SoftBreaks.
Variable inside : DocNode -> DocNode.
Fixpoint drop_soft_breaks (nodes : list DocNode) : list DocNode :=
  match nodes with
  | [] => []
  | DocSoftBreak :: rest => drop_soft_breaks rest
  | node :: rest => inside node :: drop_soft_breaks rest
  end.
End SoftBreaks.

Fixpoint inside_paragraphs (node : DocNode) : DocNode :=
  match node with
  | DocParagraph nodes => DocParagraph (drop_soft_breaks inside_paragraphs nodes)
  | _ => node
  end.

Definition without_soft_breaks (nodes : list DocNode) : list DocNode :=
  drop_soft_breaks inside_paragraphs nodes.

(** The row of a parameter: its name and its type text. *)
Definition parameter_row (apiParameter : ApiParameter) : HtmlNode :=
  tr [CellString (name apiParameter); CellString (parameterTypeExcerpt apiParameter)].

(** The file that is written for a page whose main block holds [main]:
    lines 247-260. *)
Definition page_file {collaborators : Collaborators} (this : HtmlDocumenter)
    (apiItem : ApiItem) (main : list HtmlNode) : string * FileContent :=
  (path_join (_outputFolder this) (_getFilenameForApiItem apiItem),
   Written
     (emit ["styles.css"] [
        tag "header" (Tag2b [
          tag "div" (Tag3b "header-top" [
            a "" "https://developers.symphony.com/" (Some "header-logo")
          ]);
          tag "div" (Tag3b "header-bottom" [])
        ]);
        tag "div" (Tag3b "main" main)
      ])
     match _documenterConfig this with
     | Some config => newlineKind config
     | None => CrLf
     end).

(** A node that opens or is a section of member or parameter tables: a
    section heading or a table. *)
Definition is_section_node (n : HtmlNode) : bool :=
  ((node_type n =? "h3") || (node_type n =? "table"))%string.

End Coverage.

(** Further concrete inputs. *)
Module MoreExamples.
Import HtmlEmitter HtmlDocumenter.

Definition property (displayName type : string) (event : bool) (k : ApiItemKind.t) : ApiNode :=
  mkApiNode k displayName [] None (Some false) None None None
    (Some (mkApiPropertyItem event type)) None.

(** [class Widget] with a constructor, two methods, a property, an event
    property and an index signature. *)
Definition widget_class : ApiNode :=
  Examples.plain ApiItemKind.Class "Widget"
    [ Examples.parameterized ApiItemKind.Constructor "(constructor)" 1 [];
      Examples.parameterized ApiItemKind.Method "render" 1 [];
      Examples.parameterized ApiItemKind.Method "resize" 1 [mkApiParameter "x" "number"];
      property "size" "number" false ApiItemKind.Property;
      property "onClick" "Event" true ApiItemKind.Property;
      Examples.index_signature ].

Definition widget_class_item : ApiItem := mkApiItem [] widget_class.

(** [interface Shape] with a method, a construct signature, a property and
    an index signature. *)
Definition shape_interface : ApiNode :=
  Examples.plain ApiItemKind.Interface "Shape"
    [ Examples.parameterized ApiItemKind.MethodSignature "area" 1 [];
      Examples.parameterized ApiItemKind.ConstructSignature "(new)" 1 [];
      property "name" "string" false ApiItemKind.PropertySignature;
      Examples.index_signature ].

Definition shape_interface_item : ApiItem := mkApiItem [] shape_interface.

(** [enum Color { Red = 0, Green = 1 }]. *)
Definition enum_member (displayName initializer : string) : ApiNode :=
  mkApiNode ApiItemKind.EnumMember displayName [] None None None None None None
    (Some initializer).

Definition color_enum : ApiNode :=
  Examples.plain ApiItemKind.Enum "Color" [enum_member "Red" "0"; enum_member "Green" "1"].

Definition color_enum_item : ApiItem := mkApiItem [] color_enum.

Definition deep_package_item : ApiItem :=
  mkApiItem [Examples.deep_model] Examples.deep_package.

Definition deep_model_item : ApiItem := mkApiItem [] Examples.deep_model.

(** The documenter of the deep model, writing to [out]. *)
Definition deep_documenter : HtmlDocumenter :=
  mkHtmlDocumenter deep_model_item None "out".

(** A member page that is not written. *)
Definition no_page (apiItem : ApiItem) : M unit := ret tt.

(** A configuration without plug-ins, and one whose plug-in cannot be
    loaded. *)
Definition no_plugins : PluginLoader := {|
  load := fun _ _ => ret None
|}.

Definition broken_plugin : PluginLoader := {|
  load := fun _ _ => throw "Error loading plugin"
|}.

(** The command line whose input folder holds the deep model and whose
    output folder is [out], and the one whose input folder is missing. *)
Definition deep_command_line : Coverage.BaseAction := {|
  Coverage.buildApiModel := fun this => ret (deep_model_item, Coverage.mkHtmlAction "out")
|}.

Definition missing_input : Coverage.BaseAction := {|
  Coverage.buildApiModel := fun _ => throw "The input folder does not exist: ./input"
|}.

(** A model whose one class has a fenced code block in its summary. *)
Definition fenced_entryPoint : ApiNode :=
  Examples.plain ApiItemKind.EntryPoint "" [self Examples.fenced_class_item].
Definition fenced_package : ApiNode :=
  Examples.plain ApiItemKind.Package "widgets" [fenced_entryPoint].
Definition fenced_model : ApiNode := Examples.plain ApiItemKind.Model "" [fenced_package].

Definition fenced_model_item : ApiItem := mkApiItem [] fenced_model.

Definition fenced_class_in_model : ApiItem :=
  mkApiItem [fenced_model; fenced_package; fenced_entryPoint]
    (self Examples.fenced_class_item).

End MoreExamples.

(* ===================================================================== *)
(** ** Strings *)
(* ===================================================================== *)

Section StringFacts.

Lemma append_assoc (s t u : string) : ((s ++ t) ++ u = s ++ (t ++ u))%string.
Proof.
  induction s as [|c s IH]; simpl; [reflexivity | now rewrite IH].
Qed.

Lemma append_inv_head (s t u : string) : (s ++ t = s ++ u)%string -> t = u.
Proof.
  induction s as [|c s IH]; simpl; intros H; [exact H | ].
  injection H as H. now apply IH.
Qed.

Lemma append_empty_r (s : string) : (s ++ "")%string = s.
Proof.
  induction s as [|c s IH]; simpl; [reflexivity | now rewrite IH].
Qed.

Lemma append_cons_neq (s t : string) (c : ascii) : (s ++ String c t)%string <> s.
Proof.
  intros H. rewrite <- (append_empty_r s) in H at 2.
  apply append_inv_head in H. discriminate H.
Qed.

Lemma list_ascii_of_string_append (s t : string) :
  list_ascii_of_string (s ++ t) = list_ascii_of_string s ++ list_ascii_of_string t.
Proof.
  induction s as [|c s IH]; simpl; [reflexivity | now rewrite IH].
Qed.

Lemma list_ascii_of_string_inj (s t : string) :
  list_ascii_of_string s = list_ascii_of_string t -> s = t.
Proof.
  intros H.
  rewrite <- (string_of_list_ascii_of_string s), <- (string_of_list_ascii_of_string t).
  now rewrite H.
Qed.

Lemma append_inv_tail (s t u : string) : (s ++ u = t ++ u)%string -> s = t.
Proof.
  intros H. apply list_ascii_of_string_inj.
  apply (f_equal list_ascii_of_string) in H.
  rewrite !list_ascii_of_string_append in H.
  now apply app_inv_tail in H.
Qed.

Lemma app_same_length_prefix {A : Type} (a b x y : list A) :
  length a = length b -> a ++ x = b ++ y -> a = b.
Proof.
  revert b. induction a as [|h a IH]; intros [|k b]; simpl; try discriminate; auto.
  intros Hlen H. injection Hlen as Hlen. injection H as -> H.
  f_equal. now apply IH.
Qed.

(** Two strings that end differently are different: the last [n]
    characters decide. *)
Lemma append_tail_neq (s t u v : string) :
  String.length u = String.length v -> u <> v -> (s ++ u)%string <> (t ++ v)%string.
Proof.
  intros Hlen Hneq H. apply Hneq.
  apply (f_equal list_ascii_of_string) in H.
  rewrite !list_ascii_of_string_append in H.
  apply list_ascii_of_string_inj.
  assert (Hl : length (list_ascii_of_string u) = length (list_ascii_of_string v)).
  { clear -Hlen. revert v Hlen.
    induction u as [|c u IH]; intros [|d v]; simpl; try discriminate; auto. }
  apply (f_equal (@rev ascii)) in H.
  rewrite !rev_app_distr in H.
  assert (Hr : length (rev (list_ascii_of_string u)) = length (rev (list_ascii_of_string v)))
    by now rewrite !length_rev.
  apply (app_same_length_prefix _ _ _ _ Hr) in H.
  apply (f_equal (@rev ascii)) in H. now rewrite !rev_involutive in H.
Qed.

Lemma to_uint_nonnil (n : nat) : Nat.to_uint n <> Decimal.Nil.
Proof.
  intros H.
  assert (Hn : n = 0).
  { rewrite <- (DecimalNat.Unsigned.of_to n), H. reflexivity. }
  subst n. discriminate H.
Qed.

Lemma string_of_nat_inj (n m : nat) : string_of_nat n = string_of_nat m -> n = m.
Proof.
  unfold string_of_nat. intros H.
  apply DecimalNat.Unsigned.to_uint_inj.
  assert (Hs : Some (Nat.to_uint n) = Some (Nat.to_uint m)).
  { rewrite <- (NilZero.usu _ (to_uint_nonnil n)), <- (NilZero.usu _ (to_uint_nonnil m)).
    now rewrite H. }
  now injection Hs.
Qed.

End StringFacts.

(* ===================================================================== *)
(** ** The filename resolver *)
(* ===================================================================== *)

Section FilenameFacts.
Import HtmlEmitter HtmlDocumenter Vocabulary.
Context {collaborators : Collaborators}.

Lemma hierarchy_from_app (above below : list ApiNode) (n : ApiNode) :
  hierarchy_from above (below ++ [n])
  = hierarchy_from above below ++ [mkApiItem (above ++ below) n].
Proof.
  revert above. induction below as [|b below IH]; intros above; simpl.
  - now rewrite app_nil_r.
  - rewrite IH. now rewrite <- app_assoc.
Qed.

Lemma getHierarchy_last (apiItem : ApiItem) :
  getHierarchy apiItem
  = hierarchy_from [] (ancestors apiItem) ++ [apiItem].
Proof.
  unfold getHierarchy. rewrite hierarchy_from_app. simpl. now destruct apiItem.
Qed.

Lemma filename_unfold (apiItem : ApiItem) :
  kind (self apiItem) <> ApiItemKind.Model ->
  _getFilenameForApiItem apiItem
  = (filename_step (parent_name apiItem) apiItem ++ ".html")%string.
Proof.
  intros Hk. unfold _getFilenameForApiItem, parent_name.
  rewrite getHierarchy_last, fold_left_app. simpl.
  destruct (kind (self apiItem)); try reflexivity. now elim Hk.
Qed.

Lemma filename_step_function_like (baseName : string) (hierarchyItem : ApiItem) :
  is_function_like (kind (self hierarchyItem)) = true ->
  filename_step baseName hierarchyItem
  = (baseName ++ "." ++ qualified_name hierarchyItem)%string.
Proof.
  unfold filename_step. destruct (kind (self hierarchyItem)); simpl; try discriminate; reflexivity.
Qed.

Lemma function_like_not_model (k : ApiItemKind.t) :
  is_function_like k = true -> k <> ApiItemKind.Model.
Proof. intros H ->. discriminate H. Qed.

Lemma qualified_name_plain (hierarchyItem : ApiItem) :
  (forall mixin, parameterList (self hierarchyItem) = Some mixin -> overloadIndex mixin <= 1) ->
  qualified_name hierarchyItem = getSafeFilenameForName (displayName (self hierarchyItem)).
Proof.
  intros H. unfold qualified_name.
  destruct (parameterList (self hierarchyItem)) as [mixin|]; [ | reflexivity ].
  specialize (H mixin eq_refl).
  destruct (Nat.ltb_spec 1 (overloadIndex mixin)); [lia | reflexivity].
Qed.

Lemma qualified_name_overloaded (hierarchyItem : ApiItem) (mixin : ApiParameterListMixin) :
  parameterList (self hierarchyItem) = Some mixin -> 1 < overloadIndex mixin ->
  qualified_name hierarchyItem
  = (getSafeFilenameForName (displayName (self hierarchyItem))
       ++ "_" ++ string_of_nat (overloadIndex mixin - 1))%string.
Proof.
  intros Hm Hi. unfold qualified_name. rewrite Hm.
  destruct (Nat.ltb_spec 1 (overloadIndex mixin)); [reflexivity | lia].
Qed.

Lemma fold_filename_below (below : list ApiItem) (baseName : string) :
  Forall (fun h => kind (self h) <> ApiItemKind.Package) below ->
  fold_left filename_step below baseName
  = (baseName
       ++ concat_strings (map (fun h => "." ++ qualified_name h) (filter shown_level below)))%string.
Proof.
  intros H. revert baseName.
  induction H as [|h below Hh _ IH]; intros baseName; simpl.
  - now rewrite append_empty_r.
  - rewrite IH. unfold filename_step at 1, shown_level at 2.
    destruct (kind (self h)); simpl; try reflexivity; try (now rewrite !append_assoc).
    now elim Hh.
Qed.

(** C1, the claim as stated, fails: [class Foo] and [namespace Foo] of one
    package are two items of one model, and whatever the collaborators do
    with names, both are written to the same file name. *)
Lemma merged_declarations_share_filename :
  In Examples.merged_class_item (tree_items (mkApiItem [] Examples.merged_model))
  /\ In Examples.merged_namespace_item (tree_items (mkApiItem [] Examples.merged_model))
  /\ Examples.merged_class_item <> Examples.merged_namespace_item
  /\ ~ (exists collaborators : Collaborators,
          _getFilenameForApiItem Examples.merged_class_item
          <> _getFilenameForApiItem Examples.merged_namespace_item).
Proof.
  repeat split.
  - simpl. auto 10.
  - simpl. auto 10.
  - discriminate.
  - intros [c H]. apply H. reflexivity.
Qed.

(** C1, amended: two parameterized declarations under the same parent with
    the same display name and different overload indices (counted from 1)
    get different file names; the file name does not tell a class from a
    namespace of the same name in the same package. *)
Theorem overloads_have_distinct_filenames :
  (forall (above : list ApiNode) (n1 n2 : ApiNode) (m1 m2 : ApiParameterListMixin),
      is_function_like (kind n1) = true ->
      is_function_like (kind n2) = true ->
      displayName n1 = displayName n2 ->
      parameterList n1 = Some m1 ->
      parameterList n2 = Some m2 ->
      1 <= overloadIndex m1 ->
      1 <= overloadIndex m2 ->
      overloadIndex m1 <> overloadIndex m2 ->
      _getFilenameForApiItem (mkApiItem above n1) <> _getFilenameForApiItem (mkApiItem above n2))
  /\ _getFilenameForApiItem Examples.merged_class_item
      = _getFilenameForApiItem Examples.merged_namespace_item.
Proof.
  split; [ | reflexivity ].
  intros above n1 n2 m1 m2 Hk1 Hk2 Hname Hm1 Hm2 H1 H2 Hneq Heq.
  rewrite !filename_unfold in Heq by (simpl; now apply function_like_not_model).
  apply append_inv_tail in Heq.
  rewrite !filename_step_function_like in Heq by assumption.
  apply append_inv_head in Heq. injection Heq as Heq.
  unfold qualified_name in Heq. simpl in Heq.
  rewrite Hm1, Hm2, Hname in Heq.
  destruct (Nat.ltb_spec 1 (overloadIndex m1)), (Nat.ltb_spec 1 (overloadIndex m2)).
  - apply append_inv_head in Heq. injection Heq as Heq.
    apply string_of_nat_inj in Heq. lia.
  - now apply append_cons_neq in Heq.
  - symmetry in Heq. now apply append_cons_neq in Heq.
  - lia.
Qed.

(** C2, the claim as stated, fails: the second overload of [foo] never gets
    a name ending in [foo_2.html], whatever the package part is. *)
Lemma second_overload_is_not_foo_2 :
  ~ (exists (collaborators : Collaborators) (package : string),
       _getFilenameForApiItem (Examples.foo_item 2) = (package ++ ".foo_2.html")%string).
Proof.
  intros (c & package & H). revert H.
  replace (_getFilenameForApiItem (Examples.foo_item 2))
    with ((getSafeFilenameForName (getUnscopedName "@scope/widgets")
             ++ "." ++ getSafeFilenameForName "foo") ++ "_1.html")%string
    by (cbn; repeat (rewrite !append_assoc; cbn); reflexivity).
  replace (package ++ ".foo_2.html")%string with ((package ++ ".foo") ++ "_2.html")%string
    by (cbn; repeat (rewrite !append_assoc; cbn); reflexivity).
  apply append_tail_neq; [reflexivity | discriminate].
Qed.

(** C2, amended: a parameterized declaration whose overload index exceeds 1
    contributes [.] + safe name + [_] + (index - 1); with an index of at
    most 1 it contributes [.] + safe name alone.  So [foo] with index 1 is
    written to [<Package>.foo.html] and [foo] with index 2 to
    [<Package>.foo_1.html]. *)
Theorem overload_suffix_rule :
  (forall (baseName : string) (hierarchyItem : ApiItem) (mixin : ApiParameterListMixin),
      is_function_like (kind (self hierarchyItem)) = true ->
      parameterList (self hierarchyItem) = Some mixin ->
      1 < overloadIndex mixin ->
      filename_step baseName hierarchyItem
      = (baseName ++ "." ++ getSafeFilenameForName (displayName (self hierarchyItem))
           ++ "_" ++ string_of_nat (overloadIndex mixin - 1))%string)
  /\ (forall (baseName : string) (hierarchyItem : ApiItem) (mixin : ApiParameterListMixin),
      is_function_like (kind (self hierarchyItem)) = true ->
      parameterList (self hierarchyItem) = Some mixin ->
      overloadIndex mixin <= 1 ->
      filename_step baseName hierarchyItem
      = (baseName ++ "." ++ getSafeFilenameForName (displayName (self hierarchyItem)))%string)
  /\ _getFilenameForApiItem (Examples.foo_item 1)
      = (getSafeFilenameForName (getUnscopedName "@scope/widgets")
           ++ "." ++ getSafeFilenameForName "foo" ++ ".html")%string
  /\ _getFilenameForApiItem (Examples.foo_item 2)
      = (getSafeFilenameForName (getUnscopedName "@scope/widgets")
           ++ "." ++ getSafeFilenameForName "foo" ++ "_1" ++ ".html")%string.
Proof.
  split; [ | split; [ | split ] ].
  - intros baseName h mixin Hk Hm Hi.
    rewrite filename_step_function_like by assumption.
    now rewrite (qualified_name_overloaded h mixin).
  - intros baseName h mixin Hk Hm Hi.
    rewrite filename_step_function_like by assumption.
    rewrite qualified_name_plain; [reflexivity | ].
    intros m' Hm'. rewrite Hm in Hm'. now injection Hm' as <-.
  - cbn; repeat (rewrite !append_assoc; cbn); reflexivity.
  - cbn; repeat (rewrite !append_assoc; cbn); reflexivity.
Qed.

(** C3, the claim as stated, fails: for the second overload of [foo] the
    level's part is not [.] + the safe form of its display name. *)
Lemma overloaded_level_is_not_its_safe_name :
  ~ (exists collaborators : Collaborators,
       _getFilenameForApiItem (Examples.foo_item 2)
       = (getSafeFilenameForName (getUnscopedName "@scope/widgets")
            ++ "." ++ getSafeFilenameForName "foo" ++ ".html")%string).
Proof.
  intros (c & H). revert H.
  replace (_getFilenameForApiItem (Examples.foo_item 2))
    with ((getSafeFilenameForName (getUnscopedName "@scope/widgets")
             ++ "." ++ getSafeFilenameForName "foo") ++ "_1.html")%string
    by (cbn; repeat (rewrite !append_assoc; cbn); reflexivity).
  replace (getSafeFilenameForName (getUnscopedName "@scope/widgets")
             ++ "." ++ getSafeFilenameForName "foo" ++ ".html")%string
    with ((getSafeFilenameForName (getUnscopedName "@scope/widgets")
             ++ "." ++ getSafeFilenameForName "foo") ++ ".html")%string
    by (cbn; repeat (rewrite !append_assoc; cbn); reflexivity).
  intros H. apply append_inv_head in H. discriminate H.
Qed.

(** C3, amended: the Model maps to [index.html]; for any other item, the
    last Package level of its hierarchy gives the base, the safe form of the
    unscoped package name; every level after it other than Model and
    EntryPoint adds [.] + its qualified name; [.html] ends the name.  The
    qualified name is the safe form of the display name, unless the level is
    a declaration with an overload index above 1 (then C2's suffix
    follows). *)
Theorem filename_shape :
  (forall apiItem : ApiItem,
      kind (self apiItem) = ApiItemKind.Model ->
      _getFilenameForApiItem apiItem = "index.html")
  /\ (forall (apiItem : ApiItem) (above : list ApiItem) (package : ApiItem) (below : list ApiItem),
      kind (self apiItem) <> ApiItemKind.Model ->
      getHierarchy apiItem = above ++ package :: below ->
      kind (self package) = ApiItemKind.Package ->
      Forall (fun h => kind (self h) <> ApiItemKind.Package) below ->
      _getFilenameForApiItem apiItem
      = (getSafeFilenameForName (getUnscopedName (displayName (self package)))
           ++ concat_strings (map (fun h => "." ++ qualified_name h) (filter shown_level below))
           ++ ".html")%string)
  /\ (forall hierarchyItem : ApiItem,
      (forall mixin, parameterList (self hierarchyItem) = Some mixin ->
                     overloadIndex mixin <= 1) ->
      qualified_name hierarchyItem
      = getSafeFilenameForName (displayName (self hierarchyItem))).
Proof.
  split; [ | split ].
  - intros apiItem Hk. unfold _getFilenameForApiItem. now rewrite Hk.
  - intros apiItem above package below Hk Hh Hp Hbelow.
    unfold _getFilenameForApiItem.
    replace (fold_left filename_step (getHierarchy apiItem) "")
      with (getSafeFilenameForName (getUnscopedName (displayName (self package)))
              ++ concat_strings
                   (map (fun h => "." ++ qualified_name h) (filter shown_level below)))%string.
    + rewrite append_assoc. destruct (kind (self apiItem)); try reflexivity. now elim Hk.
    + rewrite Hh, fold_left_app. simpl.
      rewrite fold_filename_below by assumption.
      unfold filename_step at 1. now rewrite Hp.
  - apply qualified_name_plain.
Qed.

End FilenameFacts.

(* ===================================================================== *)
(** ** The breadcrumb *)
(* ===================================================================== *)

Section BreadcrumbFacts.
Import HtmlEmitter HtmlDocumenter Vocabulary.
Context {collaborators : Collaborators}.

Lemma fold_breadcrumb (levels : list ApiItem) (output : list HtmlNode) :
  fold_left breadcrumb_step levels output
  = output
      ++ flat_map (fun h =>
           [ tag "span" (Tag3s "breadcrumb" " / ");
             a (displayName (self h)) (_getLinkFilenameForApiItem h) (Some "breadcrumb") ])
         (filter shown_level levels).
Proof.
  revert output. induction levels as [|h levels IH]; intros output; simpl.
  - now rewrite app_nil_r.
  - rewrite IH. unfold breadcrumb_step at 1, shown_level at 2.
    destruct (kind (self h)); simpl; try reflexivity;
      now rewrite <- !app_assoc.
Qed.

(** C4, the claim as stated, fails: under Package / Namespace / Class /
    Method the trail is not "Home / Namespace / Class / Method". *)
Lemma breadcrumb_is_not_without_package :
  ~ (exists (collaborators : Collaborators) (this : HtmlDocumenter),
       map node_text (_writeBreadcrumb this [] Examples.deep_method_item)
       = ["Home"; " / "; "Shapes"; " / "; "Circle"; " / "; "area"]).
Proof.
  intros (c & this & H). cbn in H. discriminate H.
Qed.

(** C4, amended: the breadcrumb is a Home link, then for every level of the
    hierarchy other than Model and EntryPoint, the Package level included,
    a separator and a link to that level's page.  Under Package / Namespace
    / Class / Method it reads "Home / Package / Namespace / Class /
    Method". *)
Theorem breadcrumb_shape (this : HtmlDocumenter) :
  (forall (output : list HtmlNode) (apiItem : ApiItem),
      _writeBreadcrumb this output apiItem
      = (output ++ [a "Home" (_getLinkFilenameForApiItem (_apiModel this)) (Some "breadcrumb")])
          ++ flat_map (fun h =>
               [ tag "span" (Tag3s "breadcrumb" " / ");
                 a (displayName (self h)) (_getLinkFilenameForApiItem h) (Some "breadcrumb") ])
             (filter shown_level (getHierarchy apiItem)))
  /\ map node_text (_writeBreadcrumb this [] Examples.deep_method_item)
     = ["Home"; " / "; "widgets"; " / "; "Shapes"; " / "; "Circle"; " / "; "area"]
  /\ map shown_level (getHierarchy Examples.deep_method_item)
     = [false; true; false; true; true; true].
Proof.
  split; [ | split ].
  - intros output apiItem. unfold _writeBreadcrumb. apply fold_breadcrumb.
  - reflexivity.
  - reflexivity.
Qed.

End BreadcrumbFacts.

(* ===================================================================== *)
(** ** The doc-comment renderer *)
(* ===================================================================== *)

Section RendererFacts.
Import HtmlEmitter HtmlDocumenter Vocabulary.

Lemma bind_returned {A B : Type} (m : M A) (k : A -> M B) (w w' : World) (x : A) :
  m w = Returned x w' -> bind m k w = k x w'.
Proof. unfold bind. now intros ->. Qed.

Lemma bind_thrown {A B : Type} (m : M A) (k : A -> M B) (w w' : World) (e : string) :
  m w = Thrown e w' -> bind m k w = Thrown e w'.
Proof. unfold bind. now intros ->. Qed.

Lemma array_map_app {A B : Type} (f : A -> M B) (l1 l2 : list A) (w : World) :
  array_map f (l1 ++ l2) w
  = match array_map f l1 w with
    | Returned r1 w1 =>
        match array_map f l2 w1 with
        | Returned r2 w2 => Returned (r1 ++ r2) w2
        | Thrown e w2 => Thrown e w2
        end
    | Thrown e w1 => Thrown e w1
    end.
Proof.
  revert w. induction l1 as [|x l1 IH]; intros w; simpl.
  - unfold ret. now destruct (array_map f l2 w).
  - unfold bind, ret. destruct (f x w) as [y w1|e w1]; [ | reflexivity ].
    rewrite IH.
    destruct (array_map f l1 w1) as [r1 w2|e w2]; [ | reflexivity ].
    now destruct (array_map f l2 w2).
Qed.

Lemma filter_defined_app {A : Type} (l1 l2 : list (option A)) :
  filter_defined (l1 ++ l2) = filter_defined l1 ++ filter_defined l2.
Proof.
  induction l1 as [|[x|] l1 IH]; simpl; [reflexivity | now rewrite IH | exact IH].
Qed.

(** What [_createDocNodes] returns, in terms of the callback. *)
Lemma createDocNodes_returned (nodes : list DocNode) (w w' : World) (r : list HtmlNode) :
  _createDocNodes nodes w = Returned r w' <->
  exists rendered, array_map render_node nodes w = Returned rendered w'
                   /\ r = filter_defined rendered.
Proof.
  unfold _createDocNodes, bind, ret. destruct (array_map render_node nodes w) as [x w1|e w1].
  - split.
    + intros [= <- <-]. now exists x.
    + intros (rendered & [= <- <-] & ->). reflexivity.
  - split; [discriminate | intros (rendered & H & _); discriminate H].
Qed.

Lemma createDocNodes_app (nodes1 nodes2 : list DocNode) (w w1 w2 : World)
    (r1 r2 : list HtmlNode) :
  _createDocNodes nodes1 w = Returned r1 w1 ->
  _createDocNodes nodes2 w1 = Returned r2 w2 ->
  _createDocNodes (nodes1 ++ nodes2) w = Returned (r1 ++ r2) w2.
Proof.
  intros H1 H2.
  apply createDocNodes_returned in H1 as (x1 & H1 & ->).
  apply createDocNodes_returned in H2 as (x2 & H2 & ->).
  apply createDocNodes_returned. exists (x1 ++ x2). split.
  - now rewrite array_map_app, H1, H2.
  - now rewrite filter_defined_app.
Qed.

(** A node other than a soft break that renders, renders to a node. *)
Lemma render_node_defined (node : DocNode) (w w' : World) (r : option HtmlNode) :
  is_soft_break node = false -> render_node node w = Returned r w' -> r <> None.
Proof.
  destruct node as [nodes| |code|linkText [url|]|text|kind]; simpl; try discriminate; intros _.
  - unfold bind, ret. destruct (array_map render_node nodes w); [intros [= <- _] | ]; discriminate.
  - intros [= <- _]. discriminate.
  - destruct (truthy_string url); [intros [= <- _]; discriminate | ].
    unfold bind, console_warn, ret. intros [= <- _]. discriminate.
  - unfold bind, console_warn, ret. intros [= <- _]. discriminate.
  - intros [= <- _]. discriminate.
Qed.

Lemma createDocNodes_length (nodes : list DocNode) (w w' : World) (r : list HtmlNode) :
  _createDocNodes nodes w = Returned r w' ->
  length r = length (filter (fun node => negb (is_soft_break node)) nodes).
Proof.
  intros H. apply createDocNodes_returned in H as (rendered & H & ->).
  revert w rendered H. induction nodes as [|node nodes IH]; intros w rendered; simpl.
  - intros [= <-]. reflexivity.
  - unfold bind at 1. destruct (render_node node w) as [y w1|e w1] eqn:Hy; [ | discriminate ].
    unfold bind at 1. destruct (array_map render_node nodes w1) as [ys w2|e w2] eqn:Hys;
      [ | discriminate ].
    intros [= <- Hw]. subst w2. specialize (IH _ _ Hys).
    destruct (is_soft_break node) eqn:Hs; simpl.
    + destruct node; try discriminate Hs. simpl in Hy. injection Hy as <- _. exact IH.
    + pose proof (render_node_defined _ _ _ _ Hs Hy) as Hd.
      destruct y as [y|]; [simpl; now rewrite IH | now elim Hd].
Qed.

Lemma array_map_throws (nodes : list DocNode) :
  Forall (fun node => has_unsupported_kind node = true ->
                      forall w, exists e w', render_node node w = Thrown e w') nodes ->
  existsb has_unsupported_kind nodes = true ->
  forall w, exists e w', array_map render_node nodes w = Thrown e w'.
Proof.
  induction 1 as [|node nodes Hnode _ IH]; simpl; [discriminate | ].
  intros Hex w. unfold bind at 1.
  destruct (render_node node w) as [y w1|e w1] eqn:Hy; [ | now exists e, w1 ].
  destruct (has_unsupported_kind node) eqn:Hu.
  - destruct (Hnode eq_refl w) as (e & w' & Hthrow). congruence.
  - destruct (IH Hex w1) as (e & w' & Hthrow).
    exists e, w'. unfold bind. now rewrite Hthrow.
Qed.

Lemma render_node_throws (node : DocNode) :
  has_unsupported_kind node = true ->
  forall w, exists e w', render_node node w = Thrown e w'.
Proof.
  induction node as [nodes IH| | | | |kind] using DocNode_nested_ind;
    simpl; try discriminate; intros Hu w.
  - destruct (array_map_throws nodes IH Hu w) as (e & w' & H).
    exists e, w'. unfold bind. now rewrite H.
  - now exists ("Unsupported DocNode kind: " ++ kind)%string, w.
Qed.

Lemma createDocNodes_throws (nodes : list DocNode) (w : World) :
  existsb has_unsupported_kind nodes = true ->
  exists e w', _createDocNodes nodes w = Thrown e w'.
Proof.
  intros Hu.
  destruct (array_map_throws nodes) with (w := w) as (e & w' & H); [ | exact Hu | ].
  - apply Forall_forall. intros node _. apply render_node_throws.
  - exists e, w'. unfold _createDocNodes, bind. now rewrite H.
Qed.

Lemma array_map_returns (nodes : list DocNode) :
  Forall (fun node => has_unsupported_kind node = false ->
                      forall w, exists r w', render_node node w = Returned r w') nodes ->
  existsb has_unsupported_kind nodes = false ->
  forall w, exists rendered w', array_map render_node nodes w = Returned rendered w'.
Proof.
  induction 1 as [|node nodes Hnode _ IH]; simpl.
  - intros _ w. now exists [], w.
  - intros Hex w. apply orb_false_iff in Hex as [Hu Hex].
    destruct (Hnode Hu w) as (y & w1 & Hy).
    destruct (IH Hex w1) as (ys & w2 & Hys).
    exists (y :: ys), w2. unfold bind. now rewrite Hy, Hys.
Qed.

Lemma render_node_returns (node : DocNode) :
  has_unsupported_kind node = false ->
  forall w, exists r w', render_node node w = Returned r w'.
Proof.
  induction node as [nodes IH| |code|linkText urlDestination|text|kind]
    using DocNode_nested_ind; simpl; try discriminate; intros Hu w.
  - destruct (array_map_returns nodes IH Hu w) as (rendered & w' & H).
    eexists _, w'. unfold bind. rewrite H. reflexivity.
  - now eexists _, w.
  - now eexists _, w.
  - destruct urlDestination as [url|]; [destruct (truthy_string url) | ];
      eexists _, _; reflexivity.
  - now eexists _, w.
Qed.

Lemma createDocNodes_returns (nodes : list DocNode) (w : World) :
  existsb has_unsupported_kind nodes = false ->
  exists r w', _createDocNodes nodes w = Returned r w'.
Proof.
  intros Hu.
  destruct (array_map_returns nodes) with (w := w) as (rendered & w' & H); [ | exact Hu | ].
  - apply Forall_forall. intros node _. apply render_node_returns.
  - exists (filter_defined rendered), w'. unfold _createDocNodes, bind. now rewrite H.
Qed.

Lemma render_paragraph (nodes : list DocNode) (w : World) :
  render_node (DocParagraph nodes) w
  = match _createDocNodes nodes w with
    | Returned r w' => Returned (Some (BlockHtmlNode "p" None r)) w'
    | Thrown e w' => Thrown e w'
    end.
Proof.
  simpl. unfold _createDocNodes, bind, ret.
  now destruct (array_map render_node nodes w).
Qed.

Lemma createDocNodes_cons (node : DocNode) (rest : list DocNode) (w : World) :
  _createDocNodes (node :: rest) w
  = match render_node node w with
    | Returned x w1 =>
        match _createDocNodes rest w1 with
        | Returned r w2 => Returned (match x with Some h => h :: r | None => r end) w2
        | Thrown e w2 => Thrown e w2
        end
    | Thrown e w1 => Thrown e w1
    end.
Proof.
  unfold _createDocNodes. simpl array_map. unfold bind, ret.
  destruct (render_node node w) as [x w1|e w1]; [ | reflexivity ].
  destruct (array_map render_node rest w1) as [xs w2|e w2]; [ | reflexivity ].
  now destruct x.
Qed.

Lemma createDocNodes_drops_soft_breaks (nodes : list DocNode) :
  Forall (fun node =>
            forall w, render_node node w = render_node (Coverage.inside_paragraphs node) w)
    nodes ->
  forall w, _createDocNodes nodes w = _createDocNodes (Coverage.without_soft_breaks nodes) w.
Proof.
  unfold Coverage.without_soft_breaks.
  induction 1 as [|node rest Hnode _ IH]; intros w; [reflexivity | ].
  rewrite createDocNodes_cons.
  assert (Hkeep : Coverage.drop_soft_breaks Coverage.inside_paragraphs (node :: rest)
                  = Coverage.inside_paragraphs node
                      :: Coverage.drop_soft_breaks Coverage.inside_paragraphs rest
                  -> _createDocNodes
                       (Coverage.drop_soft_breaks Coverage.inside_paragraphs (node :: rest)) w
                     = match render_node node w with
                       | Returned x w1 =>
                           match _createDocNodes rest w1 with
                           | Returned r w2 =>
                               Returned (match x with Some h => h :: r | None => r end) w2
                           | Thrown e w2 => Thrown e w2
                           end
                       | Thrown e w1 => Thrown e w1
                       end).
  { intros ->. rewrite createDocNodes_cons, <- Hnode.
    destruct (render_node node w) as [x w1|e w1]; [ | reflexivity ].
    now rewrite <- IH. }
  destruct node; try (symmetry; apply Hkeep; reflexivity).
  simpl. destruct (_createDocNodes rest w) eqn:Hrest; rewrite <- IH, Hrest; reflexivity.
Qed.

Lemma render_node_inside_paragraphs (node : DocNode) (w : World) :
  render_node node w = render_node (Coverage.inside_paragraphs node) w.
Proof.
  revert w. induction node as [nodes IH| | | | | ] using DocNode_nested_ind;
    intros w; try reflexivity.
  change (Coverage.inside_paragraphs (DocParagraph nodes))
    with (DocParagraph (Coverage.without_soft_breaks nodes)).
  rewrite !render_paragraph. now rewrite <- createDocNodes_drops_soft_breaks.
Qed.

(** C9: rendering keeps the order of the nodes and leaves soft breaks out.
    A sequence without a node of an unsupported kind renders; the result of
    a concatenation is the concatenation of the results; a soft break gives
    nothing and every other node exactly one node, so a result has as many
    nodes as the sequence has nodes other than soft breaks; PlainText,
    SoftBreak, PlainText gives the two spans.  The same holds inside a
    paragraph: it renders to the one [p] whose content is the rendering of
    its nodes, with as many nodes as the paragraph has nodes other than
    soft breaks; at every depth, a sequence renders as the sequence without
    its soft breaks does. *)
Theorem rendering_keeps_order_and_drops_soft_breaks :
  (forall (nodes : list DocNode) (w : World),
      existsb has_unsupported_kind nodes = false ->
      exists r w', _createDocNodes nodes w = Returned r w')
  /\ (forall (nodes1 nodes2 : list DocNode) (w w1 w2 : World) (r1 r2 : list HtmlNode),
      _createDocNodes nodes1 w = Returned r1 w1 ->
      _createDocNodes nodes2 w1 = Returned r2 w2 ->
      _createDocNodes (nodes1 ++ nodes2) w = Returned (r1 ++ r2) w2)
  /\ (forall w : World, _createDocNodes [DocSoftBreak] w = Returned [] w)
  /\ (forall (nodes : list DocNode) (w w' : World) (r : list HtmlNode),
      _createDocNodes nodes w = Returned r w' ->
      length r = length (filter (fun node => negb (is_soft_break node)) nodes))
  /\ (forall (text1 text2 : string) (w : World),
      _createDocNodes [DocPlainText text1; DocSoftBreak; DocPlainText text2] w
      = Returned [tag "span" (Tag2s text1); tag "span" (Tag2s text2)] w)
  /\ (forall (nodes : list DocNode) (w w' : World) (x : option HtmlNode),
      render_node (DocParagraph nodes) w = Returned x w' ->
      exists r : list HtmlNode,
        x = Some (BlockHtmlNode "p" None r)
        /\ _createDocNodes nodes w = Returned r w'
        /\ length r = length (filter (fun node => negb (is_soft_break node)) nodes))
  /\ (forall (nodes : list DocNode) (w : World),
      _createDocNodes nodes w = _createDocNodes (Coverage.without_soft_breaks nodes) w)
  /\ (forall (text1 text2 : string) (w : World),
      _createDocNodes [DocParagraph [DocPlainText text1; DocSoftBreak; DocPlainText text2]] w
      = Returned [ BlockHtmlNode "p" None
                     [tag "span" (Tag2s text1); tag "span" (Tag2s text2)] ] w).
Proof.
  repeat split.
  - intros nodes w. apply createDocNodes_returns.
  - apply createDocNodes_app.
  - apply createDocNodes_length.
  - intros nodes w w' x. rewrite render_paragraph.
    destruct (_createDocNodes nodes w) as [r w1|e w1] eqn:Hr; [ | discriminate ].
    intros [= <- <-]. exists r. split; [reflexivity | split; [reflexivity | ] ].
    exact (createDocNodes_length _ _ _ _ Hr).
  - intros nodes w. apply createDocNodes_drops_soft_breaks.
    apply Forall_forall. intros node _ w0. apply render_node_inside_paragraphs.
Qed.

(** C8: a link tag without a URL destination logs a warning and renders to
    the anchor with href [missing-link] whose text is the link text, or
    [Missing Link] when there is none; the nodes after it are rendered as
    usual. *)
Theorem code_destination_link_falls_back
    (linkText urlDestination : option string) :
  urlDestination = None \/ urlDestination = Some "" ->
  (forall w : World,
      render_node (DocLinkTag linkText urlDestination) w
      = Returned (Some (a (or_else linkText "Missing Link") "missing-link" None)) (warned w))
  /\ a (or_else linkText "Missing Link") "missing-link" None
      = TextHtmlNode "a" (Some [("href", "missing-link")]) (or_else linkText "Missing Link")
  /\ (forall text : string, text <> "" -> or_else (Some text) "Missing Link" = text)
  /\ or_else None "Missing Link" = "Missing Link"
  /\ (forall (before after : list DocNode) (w w1 w2 : World) (r1 r2 : list HtmlNode),
      _createDocNodes before w = Returned r1 w1 ->
      _createDocNodes after (warned w1) = Returned r2 w2 ->
      _createDocNodes (before ++ DocLinkTag linkText urlDestination :: after) w
      = Returned (r1 ++ a (or_else linkText "Missing Link") "missing-link" None :: r2) w2).
Proof.
  intros Hurl.
  assert (Hlink : forall w : World,
      render_node (DocLinkTag linkText urlDestination) w
      = Returned (Some (a (or_else linkText "Missing Link") "missing-link" None)) (warned w)).
  { intros w. destruct Hurl as [-> | ->]; reflexivity. }
  repeat split.
  - exact Hlink.
  - intros text Htext. unfold or_else, truthy_string.
    destruct (String.eqb_spec text ""); [contradiction | reflexivity].
  - intros before after w w1 w2 r1 r2 H1 H2.
    apply (createDocNodes_app before (DocLinkTag linkText urlDestination :: after)
             w w1 w2 r1 (_ :: r2) H1).
    apply createDocNodes_returned in H2 as (rendered & H2 & ->).
    apply createDocNodes_returned.
    exists (Some (a (or_else linkText "Missing Link") "missing-link" None) :: rendered).
    split; [ | reflexivity ].
    simpl array_map. unfold bind at 1. rewrite Hlink.
    unfold bind. now rewrite H2.
Qed.

End RendererFacts.

(* ===================================================================== *)
(** ** Cells and tables *)
(* ===================================================================== *)

Section TableFacts.
Import HtmlEmitter HtmlDocumenter Vocabulary.
Context {collaborators : Collaborators}.

(** C10: for an item that is not static the Modifiers cell, and for an item
    that is no property item the Type cell, comes from the two-argument
    call of [tag]: the text node with the content [modifiers] (or [type])
    and without attributes, not a node of that class. *)
Theorem fallback_cells_show_the_class_name_as_text :
  (forall apiItem : ApiItem,
      isStatic (self apiItem) <> Some true ->
      _createModifiersCell apiItem = tag "div" (Tag2s "modifiers")
      /\ _createModifiersCell apiItem = TextHtmlNode "div" None "modifiers"
      /\ node_text (_createModifiersCell apiItem) = "modifiers"
      /\ node_attributes (_createModifiersCell apiItem) = None)
  /\ (forall apiItem : ApiItem,
      propertyItem (self apiItem) = None ->
      _createPropertyTypeCell apiItem = tag "code" (Tag2s "type")
      /\ _createPropertyTypeCell apiItem = TextHtmlNode "code" None "type"
      /\ node_text (_createPropertyTypeCell apiItem) = "type"
      /\ node_attributes (_createPropertyTypeCell apiItem) = None).
Proof.
  split.
  - intros apiItem Hs. unfold _createModifiersCell.
    destruct (isStatic (self apiItem)) as [[|]|]; [now elim Hs | | ]; repeat split.
  - intros apiItem Hp. unfold _createPropertyTypeCell. rewrite Hp. repeat split.
Qed.

Lemma fold_content_push {A : Type} (row : A -> HtmlNode) (l : list A)
    (type : string) (attributes : option Attributes) (content : list HtmlNode) :
  fold_left (fun t x => content_push t (row x)) l (BlockHtmlNode type attributes content)
  = BlockHtmlNode type attributes (content ++ map row l).
Proof.
  revert content. induction l as [|x l IH]; intros content; simpl.
  - now rewrite app_nil_r.
  - rewrite IH. now rewrite <- app_assoc.
Qed.

End TableFacts.

(* ===================================================================== *)
(** ** Pages *)
(* ===================================================================== *)

Section PageFacts.
Import HtmlEmitter HtmlDocumenter Vocabulary.
Context {collaborators : Collaborators}.

Lemma writeApiItemPage_unfold (this : HtmlDocumenter) (apiItem : ApiItem) :
  _writeApiItemPage this apiItem = page this (_writeApiItemPage this) apiItem.
Proof.
  destruct apiItem as [above node]. unfold _writeApiItemPage at 1. simpl.
  destruct node. reflexivity.
Qed.

Lemma class_member_keeps_constructors (rec : ApiItem -> M unit) (apiClass : ApiItem)
    (t t' : ClassTables) (member : ApiNode) (w w' : World) :
  kind member <> ApiItemKind.Constructor ->
  class_member rec apiClass t member w = Returned t' w' ->
  c_constructorsTable t' = c_constructorsTable t.
Proof.
  intros Hk. unfold class_member.
  destruct (kind member); try (now elim Hk); try (now intros [= <- _]);
    unfold bind, ret;
    destruct (_createDescriptionCell (member_item apiClass member) w); try discriminate;
    destruct (rec (member_item apiClass member) _); try discriminate;
    intros [= <- _]; try reflexivity.
  now destruct (isEventProperty_of (member_item apiClass member)).
Qed.

Lemma class_loop_keeps_constructors (rec : ApiItem -> M unit) (apiClass : ApiItem)
    (members : list ApiNode) (t t' : ClassTables) (w w' : World) :
  Forall (fun member => kind member <> ApiItemKind.Constructor) members ->
  for_of (class_member rec apiClass) members t w = Returned t' w' ->
  c_constructorsTable t' = c_constructorsTable t.
Proof.
  intros H. revert t w. induction H as [|member members Hk _ IH]; intros t w; simpl.
  - now intros [= <- _].
  - unfold bind. destruct (class_member rec apiClass t member w) as [t1 w1|] eqn:H1;
      [ | discriminate ].
    intros H2. rewrite (IH _ _ H2). now apply class_member_keeps_constructors in H1.
Qed.

(** A class without constructors gets neither the Constructors heading nor
    the Constructors table: only the three other sections can be pushed. *)
Lemma class_without_constructors (rec : ApiItem -> M unit) (output out : list HtmlNode)
    (apiClass : ApiItem) (w w' : World) :
  Forall (fun member => kind member <> ApiItemKind.Constructor) (members (self apiClass)) ->
  _writeClassTables rec output apiClass w = Returned out w' ->
  exists t : ClassTables,
    out = push_section 1 "Methods" (c_methodsTable t)
            (push_section 1 "Properties" (c_propertiesTable t)
               (push_section 0 "Events" (c_eventsTable t) output)).
Proof.
  intros Hmembers. unfold _writeClassTables, bind, ret.
  destruct (for_of _ _ _ w) as [t w1|] eqn:Hloop; [ | discriminate ].
  intros [= <- _]. exists t.
  apply class_loop_keeps_constructors in Hloop; [ | exact Hmembers ].
  rewrite Hloop. reflexivity.
Qed.

(** C5, where the code departs from the claim: for a class without members
    the Events heading and the Events table are pushed although the table
    holds its heading row only, and the page written for the class carries
    them. *)
Theorem class_events_table_is_emitted_without_rows :
  content_length (table ["Property"; "Modifiers"; "Type"; "Description"]) = 1
  /\ (forall (rec : ApiItem -> M unit) (output : list HtmlNode) (w : World),
      _writeClassTables rec output Examples.empty_class_item w
      = Returned
          (output ++ [ tag "h3" (Tag3s "section-heading" "Events");
                       table ["Property"; "Modifiers"; "Type"; "Description"] ]) w)
  /\ (forall (this : HtmlDocumenter) (w : World),
      exists pageContent : list HtmlNode,
        _writeApiItemPage this Examples.empty_class_item w
        = Returned tt
            (mkWorld (console w)
               (files w
                  ++ [ (path_join (_outputFolder this)
                          (_getFilenameForApiItem Examples.empty_class_item),
                        Written
                          (emit ["styles.css"]
                             [ tag "header" (Tag2b [
                                 tag "div" (Tag3b "header-top" [
                                   a "" "https://developers.symphony.com/" (Some "header-logo")
                                 ]);
                                 tag "div" (Tag3b "header-bottom" [])
                               ]);
                               tag "div" (Tag3b "main" pageContent) ])
                          match _documenterConfig this with
                          | Some config => newlineKind config
                          | None => CrLf
                          end) ]))
        /\ In (tag "h3" (Tag3s "section-heading" "Events")) pageContent
        /\ In (table ["Property"; "Modifiers"; "Type"; "Description"]) pageContent).
Proof.
  split; [reflexivity | split ].
  - intros rec output w. unfold _writeClassTables, bind, ret. simpl.
    unfold push_section. simpl. now rewrite <- app_assoc.
  - intros this w. eexists. split; [ | split ].
    + rewrite writeApiItemPage_unfold. cbv [page bind ret]. cbn. reflexivity.
    + cbn. auto 10.
    + cbn. auto 10.
Qed.

Lemma page_heading_returns (output : list HtmlNode) (apiItem : ApiItem) (w : World) :
  has_heading (kind (self apiItem)) = true ->
  exists out w', page_heading output apiItem w = Returned out w'.
Proof.
  intros Hk. unfold page_heading.
  destruct (kind (self apiItem)); try discriminate Hk;
    try (eexists _, w; reflexivity).
  eexists _, _. reflexivity.
Qed.

Lemma page_heading_throws (output : list HtmlNode) (apiItem : ApiItem) (w : World) :
  has_heading (kind (self apiItem)) = false ->
  page_heading output apiItem w
  = Thrown ("Unsupported API item kind: " ++ kind_name (kind (self apiItem)))%string w.
Proof.
  intros Hk. unfold page_heading.
  destruct (kind (self apiItem)); try discriminate Hk; reflexivity.
Qed.

Lemma page_summary_throws (output : list HtmlNode) (apiItem : ApiItem)
    (comment : DocComment) (w : World) :
  tsdocComment (self apiItem) = Some (Some comment) ->
  existsb has_unsupported_kind (summarySection comment) = true ->
  exists e w', page_summary output apiItem w = Thrown e w'.
Proof.
  intros Hc Hu. unfold page_summary. rewrite Hc.
  destruct (createDocNodes_throws (summarySection comment) w Hu) as (e & w' & H).
  exists e, w'. unfold bind at 1. unfold bind at 1. now rewrite H.
Qed.

(** C7, the claim as stated, fails: the index signature of [interface Dict]
    is an item of the model whose kind has no heading, and no run over that
    model without a configuration, as the command line starts it, throws;
    the tables of the interface pass the member over. *)
Lemma unlisted_member_is_passed_over :
  In Examples.index_signature_item (tree_items (mkApiItem [] Examples.dict_model))
  /\ has_heading (kind (self Examples.index_signature_item)) = false
  /\ ~ (exists (collaborators : Collaborators) (pluginLoader : PluginLoader)
                (outputFolder : string) (w : World) (e : string) (w' : World),
          generateFiles (mkApiItem [] Examples.dict_model) None outputFolder w
          = Thrown e w').
Proof.
  split; [ | split ].
  - simpl. auto 10.
  - reflexivity.
  - intros (c & p & folder & w & e & w' & H). cbv in H. discriminate H.
Qed.

End PageFacts.

(* ===================================================================== *)
(** ** Runs on the concrete models *)
(* ===================================================================== *)

Section Runs.
Import HtmlEmitter HtmlDocumenter Vocabulary.
Context {collaborators : Collaborators} {pluginLoader : PluginLoader}.

(** The run over [class Foo] + [namespace Foo] without a configuration
    writes the same path twice: the page of the namespace replaces the page
    of the class. *)
Lemma merged_declarations_overwrite (outputFolder : string) (w : World) :
  exists w',
    generateFiles (mkApiItem [] Examples.merged_model) None outputFolder w
    = Returned tt w'
    /\ written_paths w'
       = [ path_join outputFolder "styles.css";
           path_join outputFolder (_getFilenameForApiItem Examples.merged_class_item);
           path_join outputFolder (_getFilenameForApiItem Examples.merged_namespace_item);
           path_join outputFolder (_getFilenameForApiItem
                                     (mkApiItem [Examples.merged_model] Examples.merged_package));
           path_join outputFolder "index.html" ]
    /\ _getFilenameForApiItem Examples.merged_class_item
       = _getFilenameForApiItem Examples.merged_namespace_item.
Proof.
  eexists. split; [ | split ].
  - cbv [generateFiles load_feature _deleteOldOutputFiles finish
         bind ret console_log ensureEmptyFolder copyFile].
    cbn. reflexivity.
  - reflexivity.
  - reflexivity.
Qed.

(** The run over [interface Dict] without a configuration writes the
    stylesheet and three pages; none is the page of the index signature. *)
Lemma dict_run (outputFolder : string) (w : World) :
  exists w',
    generateFiles (mkApiItem [] Examples.dict_model) None outputFolder w
    = Returned tt w'
    /\ written_paths w'
       = [ path_join outputFolder "styles.css";
           path_join outputFolder
             (_getFilenameForApiItem
                (mkApiItem [Examples.dict_model; Examples.dict_package; Examples.dict_entryPoint]
                   Examples.dict_interface));
           path_join outputFolder (_getFilenameForApiItem
                                     (mkApiItem [Examples.dict_model] Examples.dict_package));
           path_join outputFolder "index.html" ].
Proof.
  eexists. split.
  - cbv [generateFiles load_feature _deleteOldOutputFiles finish
         bind ret console_log ensureEmptyFolder copyFile].
    cbn. reflexivity.
  - reflexivity.
Qed.

End Runs.

(* ===================================================================== *)
(** ** The theorems at concrete inputs *)
(* ===================================================================== *)

Section Witnesses.
Import HtmlEmitter HtmlDocumenter Vocabulary.

Lemma overloads_have_distinct_filenames_witness :
  is_function_like (kind (Examples.foo 1)) = true
  /\ is_function_like (kind (Examples.foo 2)) = true
  /\ displayName (Examples.foo 1) = displayName (Examples.foo 2)
  /\ 1 <= 1 /\ 1 <= 2 /\ 1 <> 2
  /\ @_getFilenameForApiItem Examples.verbatim (Examples.foo_item 1)
     <> @_getFilenameForApiItem Examples.verbatim (Examples.foo_item 2).
Proof.
  assert (H12 : 1 <> 2) by discriminate.
  refine (conj eq_refl (conj eq_refl (conj eq_refl
            (conj (le_n 1) (conj (le_S 1 1 (le_n 1)) (conj H12 _)))))).
  exact (proj1 (@overloads_have_distinct_filenames Examples.verbatim)
           [Examples.foo_model; Examples.foo_package; Examples.foo_entryPoint]
           (Examples.foo 1) (Examples.foo 2)
           (mkApiParameterListMixin 1 []) (mkApiParameterListMixin 2 [])
           eq_refl eq_refl eq_refl eq_refl eq_refl (le_n 1) (le_S 1 1 (le_n 1)) H12).
Defined.

Lemma overload_suffix_rule_witness :
  is_function_like (kind (self (Examples.foo_item 2))) = true
  /\ parameterList (self (Examples.foo_item 2)) = Some (mkApiParameterListMixin 2 [])
  /\ 1 < 2
  /\ @filename_step Examples.verbatim "widgets" (Examples.foo_item 2) = "widgets.foo_1"
  /\ @filename_step Examples.verbatim "widgets" (Examples.foo_item 1) = "widgets.foo".
Proof.
  refine (conj eq_refl (conj eq_refl (conj (le_n 2) (conj _ _)))).
  - exact (proj1 (@overload_suffix_rule Examples.verbatim) "widgets" (Examples.foo_item 2)
             (mkApiParameterListMixin 2 []) eq_refl eq_refl (le_n 2)).
  - exact (proj1 (proj2 (@overload_suffix_rule Examples.verbatim)) "widgets"
             (Examples.foo_item 1) (mkApiParameterListMixin 1 []) eq_refl eq_refl (le_n 1)).
Defined.

Lemma filename_shape_witness :
  kind (self Examples.deep_method_item) <> ApiItemKind.Model
  /\ kind Examples.deep_package = ApiItemKind.Package
  /\ @_getFilenameForApiItem Examples.verbatim Examples.deep_method_item
     = "widgets.Shapes.Circle.area.html"
  /\ @_getFilenameForApiItem Examples.verbatim (mkApiItem [] Examples.deep_model)
     = "index.html".
Proof.
  assert (Hk : kind (self Examples.deep_method_item) <> ApiItemKind.Model) by discriminate.
  split; [exact Hk | split; [reflexivity | split ] ].
  - refine (proj1 (proj2 (@filename_shape Examples.verbatim))
              Examples.deep_method_item
              [mkApiItem [] Examples.deep_model]
              (mkApiItem [Examples.deep_model] Examples.deep_package)
              (tl (tl (getHierarchy Examples.deep_method_item)))
              Hk eq_refl eq_refl _).
    repeat constructor; discriminate.
  - exact (proj1 (@filename_shape Examples.verbatim) (mkApiItem [] Examples.deep_model) eq_refl).
Defined.

Lemma code_destination_link_falls_back_witness :
  (@None string = None \/ @None string = Some "")
  /\ render_node (DocLinkTag (Some "the docs") None) Examples.empty_world
      = Returned (Some (TextHtmlNode "a" (Some [("href", "missing-link")]) "the docs"))
          (warned Examples.empty_world)
  /\ _createDocNodes [DocPlainText "See "; DocLinkTag (Some "the docs") None; DocPlainText "."]
        Examples.empty_world
      = Returned [ tag "span" (Tag2s "See ");
                   TextHtmlNode "a" (Some [("href", "missing-link")]) "the docs";
                   tag "span" (Tag2s ".") ]
          (warned Examples.empty_world).
Proof.
  pose (T := code_destination_link_falls_back (Some "the docs") None (or_introl eq_refl)).
  refine (conj (or_introl eq_refl) (conj _ _)).
  - exact (proj1 T Examples.empty_world).
  - exact (proj2 (proj2 (proj2 (proj2 T)))
             [DocPlainText "See "] [DocPlainText "."]
             Examples.empty_world Examples.empty_world (warned Examples.empty_world)
             [tag "span" (Tag2s "See ")] [tag "span" (Tag2s ".")] eq_refl eq_refl).
Defined.

Lemma rendering_keeps_order_and_drops_soft_breaks_witness :
  existsb has_unsupported_kind [DocPlainText "a"; DocSoftBreak; DocPlainText "b"] = false
  /\ (exists r w',
        _createDocNodes [DocPlainText "a"; DocSoftBreak; DocPlainText "b"] Examples.empty_world
        = Returned r w')
  /\ _createDocNodes ([DocPlainText "a"] ++ [DocSoftBreak; DocPlainText "b"])
        Examples.empty_world
      = Returned ([tag "span" (Tag2s "a")] ++ [tag "span" (Tag2s "b")]) Examples.empty_world
  /\ length [tag "span" (Tag2s "a"); tag "span" (Tag2s "b")] = 2
  /\ (exists r : list HtmlNode,
        Some (BlockHtmlNode "p" None [tag "span" (Tag2s "a"); tag "span" (Tag2s "b")])
        = Some (BlockHtmlNode "p" None r)
        /\ _createDocNodes [DocPlainText "a"; DocSoftBreak; DocPlainText "b"]
             Examples.empty_world
           = Returned r Examples.empty_world
        /\ length r = 2)
  /\ _createDocNodes [DocParagraph [DocPlainText "a"; DocSoftBreak; DocPlainText "b"]]
        Examples.empty_world
      = _createDocNodes [DocParagraph [DocPlainText "a"; DocPlainText "b"]]
          Examples.empty_world.
Proof.
  pose (T := rendering_keeps_order_and_drops_soft_breaks).
  refine (conj eq_refl (conj _ (conj _ (conj _ (conj _ _))))).
  - exact (proj1 T [DocPlainText "a"; DocSoftBreak; DocPlainText "b"]
             Examples.empty_world eq_refl).
  - exact (proj1 (proj2 T) [DocPlainText "a"] [DocSoftBreak; DocPlainText "b"]
             Examples.empty_world Examples.empty_world Examples.empty_world
             [tag "span" (Tag2s "a")] [tag "span" (Tag2s "b")] eq_refl eq_refl).
  - exact (proj1 (proj2 (proj2 (proj2 T)))
             [DocPlainText "a"; DocSoftBreak; DocPlainText "b"]
             Examples.empty_world Examples.empty_world
             [tag "span" (Tag2s "a"); tag "span" (Tag2s "b")] eq_refl).
  - exact (proj1 (proj2 (proj2 (proj2 (proj2 (proj2 T)))))
             [DocPlainText "a"; DocSoftBreak; DocPlainText "b"]
             Examples.empty_world Examples.empty_world
             (Some (BlockHtmlNode "p" None [tag "span" (Tag2s "a"); tag "span" (Tag2s "b")]))
             eq_refl).
  - exact (proj1 (proj2 (proj2 (proj2 (proj2 (proj2 (proj2 T))))))
             [DocParagraph [DocPlainText "a"; DocSoftBreak; DocPlainText "b"]]
             Examples.empty_world).
Defined.

Lemma fallback_cells_show_the_class_name_as_text_witness :
  isStatic (self Examples.deep_method_item) <> Some true
  /\ propertyItem (self Examples.deep_method_item) = None
  /\ _createModifiersCell Examples.deep_method_item = TextHtmlNode "div" None "modifiers"
  /\ _createPropertyTypeCell Examples.deep_method_item = TextHtmlNode "code" None "type".
Proof.
  assert (Hs : isStatic (self Examples.deep_method_item) <> Some true) by discriminate.
  refine (conj Hs (conj eq_refl (conj _ _))).
  - exact (proj1 (proj2 (proj1 fallback_cells_show_the_class_name_as_text
                           Examples.deep_method_item Hs))).
  - exact (proj1 (proj2 (proj2 fallback_cells_show_the_class_name_as_text
                           Examples.deep_method_item eq_refl))).
Defined.

End Witnesses.

(* ===================================================================== *)
(** ** The HTML tree builder *)
(* ===================================================================== *)

Section BuilderFacts.
Import HtmlEmitter HtmlDocumenter Vocabulary Coverage.

(** X1: a call of [tag] with a class name and the empty string as content
    is read as the two-argument call: the class name becomes the content
    and no class is set.  With a content that is not empty the class is set
    when the class name is not empty; an empty array is a content that is
    not empty. *)
Theorem tag_with_empty_text_loses_the_class :
  (forall type className : string,
      tag type (Tag3s className "") = TextHtmlNode type None className)
  /\ (forall type className content : string,
      className <> "" -> content <> "" ->
      tag type (Tag3s className content)
      = TextHtmlNode type (Some [("class", className)]) content)
  /\ (forall (type className : string) (content : list HtmlNode),
      className <> "" ->
      tag type (Tag3b className content)
      = BlockHtmlNode type (Some [("class", className)]) content).
Proof.
  split; [ | split ].
  - intros type className. reflexivity.
  - intros type className content Hc Ht. unfold tag, _tag. simpl. unfold truthy_string.
    destruct (String.eqb_spec content ""); [contradiction | ]. simpl.
    destruct (String.eqb_spec className ""); [contradiction | reflexivity].
  - intros type className content Hc. unfold tag, _tag. simpl. unfold truthy_string.
    destruct (String.eqb_spec className ""); [contradiction | reflexivity].
Qed.

(** X2: whatever the arguments, [tag] keeps the element name, and the only
    attribute it ever sets is [class], to a class name that is not empty. *)
Theorem tag_sets_at_most_a_nonempty_class (type : string) (args : TagArgs) :
  node_type (tag type args) = type
  /\ (node_attributes (tag type args) = None
      \/ exists className : string,
           className <> ""
           /\ arg1 args = JsString className
           /\ truthy (arg2 args) = true
           /\ node_attributes (tag type args) = Some [("class", className)]).
Proof.
  unfold tag, _tag.
  destruct args as [|c|c|cn c|cn c]; simpl; try (split; [reflexivity | now left]).
  - unfold truthy_string.
    destruct (String.eqb_spec c ""); simpl; [split; [reflexivity | now left] | ].
    destruct (String.eqb_spec cn ""); simpl; split; try reflexivity; [now left | ].
    right. exists cn. repeat split; assumption.
  - unfold truthy_string.
    destruct (String.eqb_spec cn ""); simpl; split; try reflexivity; [now left | ].
    right. now exists cn.
Qed.

Lemma fold_content_push_rows (rows : list HtmlNode)
    (type : string) (attributes : option Attributes) (content : list HtmlNode) :
  fold_left content_push rows (BlockHtmlNode type attributes content)
  = BlockHtmlNode type attributes (content ++ rows).
Proof.
  revert content. induction rows as [|r rows IH]; intros content; simpl.
  - now rewrite app_nil_r.
  - rewrite IH. now rewrite <- app_assoc.
Qed.

(** X3: a table starts with one element, the heading row with one [th] per
    heading, and every pushed row adds one: after [n] rows the length of
    the content is [1 + n].  So [length > 1] says that a row was pushed,
    and [length > 0] always holds. *)
Theorem table_length_counts_the_heading_row (headings : list string) (rows : list HtmlNode) :
  content_length (fold_left content_push rows (table headings)) = 1 + length rows
  /\ block_content (fold_left content_push rows (table headings))
     = BlockHtmlNode "thead" None
         [BlockHtmlNode "tr" None (map (fun h => TextHtmlNode "th" None h) headings)]
       :: rows
  /\ ((1 <? content_length (fold_left content_push rows (table headings)))%nat
      = negb (length rows =? 0)%nat)
  /\ (0 <? content_length (fold_left content_push rows (table headings)))%nat = true.
Proof.
  change (table headings)
    with (BlockHtmlNode "table" None
            [BlockHtmlNode "thead" None
               [BlockHtmlNode "tr" None (map (fun h => tag "th" (Tag2s h)) headings)]]).
  rewrite fold_content_push_rows. unfold content_length. simpl.
  repeat split. now destruct rows.
Qed.

End BuilderFacts.

(* ===================================================================== *)
(** ** More on file names and the breadcrumb *)
(* ===================================================================== *)

Section NamingFacts.
Import HtmlEmitter HtmlDocumenter Vocabulary Coverage.
Context {collaborators : Collaborators}.

Lemma parent_name_of_member (above : list ApiNode) (parent member : ApiNode) :
  parent_name (mkApiItem (above ++ [parent]) member)
  = filename_step (parent_name (mkApiItem above parent)) (mkApiItem above parent).
Proof.
  unfold parent_name. simpl. rewrite hierarchy_from_app, fold_left_app. reflexivity.
Qed.

(** X4: an entry point has the file name of its package: the entry point
    level adds nothing to the name of the level above it. *)
Theorem entry_point_has_the_filename_of_its_parent
    (above : list ApiNode) (parent entryPoint : ApiNode) :
  kind entryPoint = ApiItemKind.EntryPoint ->
  kind parent <> ApiItemKind.Model ->
  _getFilenameForApiItem (mkApiItem (above ++ [parent]) entryPoint)
  = _getFilenameForApiItem (mkApiItem above parent).
Proof.
  intros He Hp.
  rewrite (filename_unfold (mkApiItem (above ++ [parent]) entryPoint))
    by (simpl; rewrite He; discriminate).
  rewrite (filename_unfold (mkApiItem above parent)) by exact Hp.
  rewrite parent_name_of_member.
  unfold filename_step at 1. simpl. now rewrite He.
Qed.

(** X5: the file name of a declaration is made of names only: two items
    under the same parent with the same display name and the same parameter
    list get the same file name, whatever their kinds (other than Model,
    EntryPoint and Package), members and comments are. *)
Theorem filename_is_blind_to_the_kind (above : list ApiNode) (n1 n2 : ApiNode) :
  adds_segment (kind n1) = true ->
  adds_segment (kind n2) = true ->
  displayName n1 = displayName n2 ->
  parameterList n1 = parameterList n2 ->
  _getFilenameForApiItem (mkApiItem above n1) = _getFilenameForApiItem (mkApiItem above n2).
Proof.
  intros H1 H2 Hname Hparams.
  rewrite !filename_unfold by (simpl; intros E; rewrite E in *; discriminate).
  f_equal. unfold parent_name, filename_step, qualified_name. simpl.
  rewrite Hname, Hparams.
  destruct (kind n1); try discriminate H1; destruct (kind n2); try discriminate H2; reflexivity.
Qed.

(** X6: the breadcrumb adds to the output the Home link and two nodes per
    shown level; on the page of an item that is neither the Model nor an
    entry point the last two are the separator and the link to the page
    itself; on the page of a Model without parent it is the Home link
    alone. *)
Theorem breadcrumb_ends_at_the_page (this : HtmlDocumenter) (output : list HtmlNode) :
  (forall apiItem : ApiItem,
      length (_writeBreadcrumb this output apiItem)
      = length output + 1 + 2 * length (filter shown_level (getHierarchy apiItem)))
  /\ (forall apiItem : ApiItem,
      shown_level apiItem = true ->
      exists before : list HtmlNode,
        _writeBreadcrumb this output apiItem
        = before ++ [ tag "span" (Tag3s "breadcrumb" " / ");
                      a (displayName (self apiItem)) (_getLinkFilenameForApiItem apiItem)
                        (Some "breadcrumb") ])
  /\ (forall model : ApiNode,
      kind model = ApiItemKind.Model ->
      _writeBreadcrumb this output (mkApiItem [] model)
      = output ++ [a "Home" (_getLinkFilenameForApiItem (_apiModel this)) (Some "breadcrumb")]).
Proof.
  split; [ | split ].
  - intros apiItem. unfold _writeBreadcrumb. rewrite fold_breadcrumb.
    rewrite !length_app. simpl.
    generalize (filter shown_level (getHierarchy apiItem)) as levels.
    induction levels as [|h levels IH]; simpl; lia.
  - intros apiItem Hs. unfold _writeBreadcrumb. rewrite fold_breadcrumb.
    rewrite getHierarchy_last, filter_app. simpl. rewrite Hs.
    rewrite flat_map_app. simpl. rewrite app_assoc.
    eexists. reflexivity.
  - intros model Hk. unfold _writeBreadcrumb, getHierarchy. simpl.
    unfold breadcrumb_step. simpl. now rewrite Hk.
Qed.

End NamingFacts.

(* ===================================================================== *)
(** ** More on the doc-comment renderer *)
(* ===================================================================== *)

Section RendererEffects.
Import HtmlEmitter HtmlDocumenter Vocabulary Coverage.

Lemma with_warnings_0 (w : World) : with_warnings 0 w = w.
Proof. destruct w as [c f]. unfold with_warnings. simpl. now rewrite app_nil_r. Qed.

Lemma with_warnings_add (n m : nat) (w : World) :
  with_warnings m (with_warnings n w) = with_warnings (n + m) w.
Proof.
  unfold with_warnings. simpl. now rewrite repeat_app, app_assoc.
Qed.

Lemma warned_is_one_warning (w : World) : warned w = with_warnings 1 w.
Proof. reflexivity. Qed.

Lemma array_map_uniform (nodes : list DocNode) :
  Forall (fun node =>
            (exists r, returns_everywhere (render_node node) r (links_without_url node))
            \/ (exists e n, n <= links_without_url node
                            /\ throws_everywhere (render_node node) e n)) nodes ->
  (exists rs, returns_everywhere (array_map render_node nodes) rs
                (list_sum (map links_without_url nodes)))
  \/ (exists e n, n <= list_sum (map links_without_url nodes)
                  /\ throws_everywhere (array_map render_node nodes) e n).
Proof.
  induction 1 as [|node nodes Hnode _ IH]; simpl.
  - left. exists []. intros w. unfold ret. now rewrite with_warnings_0.
  - destruct Hnode as [(r & Hr) | (e & n & Hn & He)].
    + destruct IH as [(rs & Hrs) | (e & n & Hn & He)].
      * left. exists (r :: rs). intros w. unfold bind, ret.
        rewrite Hr, Hrs. now rewrite with_warnings_add.
      * right. exists e, (links_without_url node + n). split; [lia | ].
        intros w. unfold bind. rewrite Hr, He. now rewrite with_warnings_add.
    + right. exists e, n. split; [lia | ]. intros w. unfold bind. now rewrite He.
Qed.

Lemma render_node_uniform (node : DocNode) :
  (exists r, returns_everywhere (render_node node) r (links_without_url node))
  \/ (exists e n, n <= links_without_url node /\ throws_everywhere (render_node node) e n).
Proof.
  induction node as [nodes IH| |code|linkText urlDestination|text|kind]
    using DocNode_nested_ind.
  - destruct (array_map_uniform nodes IH) as [(rs & Hrs) | (e & n & Hn & He)].
    + left. eexists. intros w. simpl. unfold bind, ret. now rewrite Hrs.
    + right. exists e, n. split; [exact Hn | ]. intros w. simpl. unfold bind. now rewrite He.
  - left. eexists. intros w. simpl. unfold ret. now rewrite with_warnings_0.
  - left. eexists. intros w. simpl. unfold ret. now rewrite with_warnings_0.
  - left. unfold returns_everywhere.
    destruct urlDestination as [url|]; [ | eexists; intros w; reflexivity ].
    cbn [links_without_url has_url render_node].
    destruct (truthy_string url); eexists; intros w;
      [unfold ret; now rewrite with_warnings_0 | reflexivity].
  - left. eexists. intros w. simpl. unfold ret. now rewrite with_warnings_0.
  - right. eexists _, 0. split; [simpl; lia | ]. intros w. simpl. unfold throw.
    now rewrite with_warnings_0.
Qed.

Lemma createDocNodes_uniform (nodes : list DocNode) :
  (exists rs, returns_everywhere (array_map render_node nodes) rs
                (list_sum (map links_without_url nodes)))
  \/ (exists e n, n <= list_sum (map links_without_url nodes)
                  /\ throws_everywhere (array_map render_node nodes) e n).
Proof.
  apply array_map_uniform. apply Forall_forall. intros node _. apply render_node_uniform.
Qed.

Lemma createDocNodes_keeps_files (nodes : list DocNode) (w : World) :
  files (world_of (_createDocNodes nodes w)) = files w.
Proof.
  unfold _createDocNodes, bind, ret.
  destruct (createDocNodes_uniform nodes) as [(rs & Hrs) | (e & n & Hn & He)];
    [rewrite Hrs | rewrite He]; reflexivity.
Qed.

(** X7: rendering depends on the nodes alone and its only effect is the
    warning of a link without URL.  A sequence without a node of an
    unsupported kind returns the same nodes in every world, after one
    warning per link tag without URL, those inside paragraphs included; a
    sequence with such a node throws the same error in every world, after
    at most that many warnings.  No file is ever touched. *)
Theorem rendering_only_warns (nodes : list DocNode) :
  (if existsb has_unsupported_kind nodes
   then exists e n, n <= list_sum (map links_without_url nodes)
                    /\ forall w, _createDocNodes nodes w = Thrown e (with_warnings n w)
   else exists r, forall w,
          _createDocNodes nodes w
          = Returned r (with_warnings (list_sum (map links_without_url nodes)) w))
  /\ (forall w, files (world_of (_createDocNodes nodes w)) = files w).
Proof.
  pose proof (createDocNodes_uniform nodes) as Hu.
  split.
  - destruct (existsb has_unsupported_kind nodes) eqn:Hk.
    + destruct (createDocNodes_throws nodes (mkWorld [] []) Hk) as (e0 & w0 & H0).
      destruct Hu as [(rs & Hrs) | (e & n & Hn & He)].
      * unfold _createDocNodes, bind in H0. rewrite Hrs in H0. discriminate H0.
      * exists e, n. split; [exact Hn | ]. intros w. unfold _createDocNodes, bind.
        now rewrite He.
    + destruct (createDocNodes_returns nodes (mkWorld [] []) Hk) as (r0 & w0 & H0).
      destruct Hu as [(rs & Hrs) | (e & n & Hn & He)].
      * exists (filter_defined rs). intros w. unfold _createDocNodes, bind, ret.
        now rewrite Hrs.
      * unfold _createDocNodes, bind in H0. rewrite He in H0. discriminate H0.
  - apply createDocNodes_keeps_files.
Qed.

(** X8: a paragraph renders to a [p] around the rendering of its nodes, in
    the world that rendering leaves; an error inside the paragraph is the
    error of the paragraph. *)
Theorem paragraph_wraps_its_nodes (nodes : list DocNode) (w : World) :
  _createDocNodes [DocParagraph nodes] w
  = match _createDocNodes nodes w with
    | Returned r w' => Returned [BlockHtmlNode "p" None r] w'
    | Thrown e w' => Thrown e w'
    end.
Proof.
  unfold _createDocNodes. simpl. unfold bind, ret.
  now destruct (array_map render_node nodes w).
Qed.

(** X9: a link tag with a URL renders, without a warning, to the anchor to
    that URL whose text is the link text, or the URL itself when there is
    no link text or an empty one. *)
Theorem url_link_renders_to_an_anchor (linkText : option string) (url : string) :
  url <> "" ->
  (forall w : World,
      _createDocNodes [DocLinkTag linkText (Some url)] w
      = Returned [a (or_else linkText url) url None] w)
  /\ or_else None url = url
  /\ or_else (Some "") url = url
  /\ (forall text : string, text <> "" -> or_else (Some text) url = text).
Proof.
  intros Hu. repeat split.
  - intros w. unfold _createDocNodes. simpl. unfold truthy_string.
    destruct (String.eqb_spec url ""); [contradiction | reflexivity].
  - intros text Ht. unfold or_else, truthy_string.
    destruct (String.eqb_spec text ""); [contradiction | reflexivity].
Qed.

(** X10: the first node of an unsupported kind ends the rendering: the
    error names its kind, and the warnings of the nodes before it stay on
    the console. *)
Theorem first_unsupported_node_is_the_error
    (before after : list DocNode) (kind : string) (w w1 : World) (r1 : list HtmlNode) :
  _createDocNodes before w = Returned r1 w1 ->
  _createDocNodes (before ++ DocOther kind :: after) w
  = Thrown ("Unsupported DocNode kind: " ++ kind)%string w1.
Proof.
  intros H. apply createDocNodes_returned in H as (rendered & H & _).
  unfold _createDocNodes, bind. rewrite array_map_app, H. reflexivity.
Qed.

End RendererEffects.

(* ===================================================================== *)
(** ** The member tables *)
(* ===================================================================== *)

Section MemberTables.
Import HtmlEmitter HtmlDocumenter Vocabulary Coverage.
Context {collaborators : Collaborators}.

Lemma push_section_app (k : nat) (heading : string) (t : HtmlNode) (output : list HtmlNode) :
  push_section k heading t output = output ++ push_section k heading t [].
Proof.
  unfold push_section. destruct (k <? content_length t)%nat; simpl.
  - now rewrite <- app_assoc.
  - now rewrite app_nil_r.
Qed.

Lemma push_section_grown (headings : list string) (n : nat) (heading : string) (t : HtmlNode) :
  grown headings n t ->
  push_section 1 heading t [] = section_if_rows n heading t
  /\ push_section 0 heading t [] = section heading t.
Proof.
  intros (rows & Hlen & ->). unfold push_section, section_if_rows, content_length.
  simpl. subst n. now destruct rows.
Qed.

(** A loop that pushes a row to a table for the members [sel] selects, and
    leaves it alone for the others, grows it by the number of selected
    members. *)
Lemma for_of_pushes {T : Type} (body : T -> ApiNode -> M T) (proj : T -> HtmlNode)
    (sel : ApiNode -> bool) :
  (forall t m w t' w',
      body t m w = Returned t' w' ->
      if sel m then exists row, proj t' = content_push (proj t) row
      else proj t' = proj t) ->
  forall (ms : list ApiNode) (t t' : T) (w w' : World) (headings : list string) (n : nat),
    for_of body ms t w = Returned t' w' ->
    grown headings n (proj t) ->
    grown headings (n + count sel ms) (proj t').
Proof.
  intros Hbody ms. unfold count.
  induction ms as [|m ms IH]; intros t t' w w' headings n; simpl.
  - intros [= <- _] Hg. now rewrite Nat.add_0_r.
  - unfold bind. destruct (body t m w) as [t1 w1|] eqn:Hb; [ | discriminate ].
    intros Hloop Hg. specialize (Hbody _ _ _ _ _ Hb).
    destruct (sel m); simpl.
    + destruct Hbody as (row & Hrow).
      replace (n + S (length (filter sel ms))) with (S n + length (filter sel ms)) by lia.
      apply (IH _ _ _ _ _ _ Hloop).
      destruct Hg as (rows & Hlen & Ht). exists (rows ++ [row]). split.
      * rewrite length_app. simpl. lia.
      * rewrite Hrow, Ht. unfold content_push. now rewrite <- app_assoc.
    + apply (IH _ _ _ _ _ _ Hloop). now rewrite Hbody.
Qed.

Lemma table_grown_0 (headings : list string) : grown headings 0 (table headings).
Proof. exists []. split; [reflexivity | ]. now rewrite app_nil_r. Qed.

Ltac loop_body :=
  let t := fresh "t" in let m := fresh "m" in let w := fresh "w" in
  let t' := fresh "t'" in let w' := fresh "w'" in let H := fresh "H" in
  intros t m w t' w';
  unfold class_member, interface_member, container_member, has_kind, is_event,
    isEventProperty_of, bind, ret;
  cbv zeta;
  repeat match goal with
         | |- context [self (member_item ?a ?b)] => change (self (member_item a b)) with b
         end;
  simpl;
  destruct (kind m); simpl; cbv [negb andb];
  repeat match goal with
         | |- context [match ?x with _ => _ end] =>
             lazymatch x with
             | context [match _ with _ => _ end] => fail
             | _ => destruct x; cbn beta iota
             end
         end;
  simpl; intros H; try discriminate H;
  injection H as <- _; simpl; eauto.

(** X11: the tables of a class page.  After the loop the Events table holds
    one row per event property, the Constructors table one per constructor,
    the Properties table one per other property and the Methods table one
    per method; members of other kinds add no row.  The Events section is
    always pushed, each of the three others when its table has a row, in
    this order, after what the output held. *)
Theorem class_tables_shape (rec : ApiItem -> M unit) (output out : list HtmlNode)
    (apiClass : ApiItem) (w w' : World) :
  _writeClassTables rec output apiClass w = Returned out w' ->
  let ms := members (self apiClass) in
  let events := count (fun m => has_kind ApiItemKind.Property m && is_event m) ms in
  let constructors := count (has_kind ApiItemKind.Constructor) ms in
  let properties := count (fun m => has_kind ApiItemKind.Property m && negb (is_event m)) ms in
  let methods := count (has_kind ApiItemKind.Method) ms in
  exists e c p m : HtmlNode,
    grown ["Property"; "Modifiers"; "Type"; "Description"] events e
    /\ grown ["Constructor"; "Modifiers"; "Description"] constructors c
    /\ grown ["Property"; "Modifiers"; "Type"; "Description"] properties p
    /\ grown ["Method"; "Modifiers"; "Description"] methods m
    /\ out = output
              ++ section "Events" e
              ++ section_if_rows constructors "Constructors" c
              ++ section_if_rows properties "Properties" p
              ++ section_if_rows methods "Methods" m.
Proof.
  unfold _writeClassTables, bind, ret.
  destruct (for_of _ _ _ w) as [t w1|] eqn:Hloop; [ | discriminate ].
  intros [= <- _]. cbv zeta.
  pose proof (for_of_pushes (class_member rec apiClass) c_eventsTable
                (fun m => has_kind ApiItemKind.Property m && is_event m)
                ltac:(loop_body) _ _ _ _ _ _ 0 Hloop (table_grown_0 _)) as He.
  pose proof (for_of_pushes (class_member rec apiClass) c_constructorsTable (has_kind ApiItemKind.Constructor)
                ltac:(loop_body) _ _ _ _ _ _ 0 Hloop (table_grown_0 _)) as Hc.
  pose proof (for_of_pushes (class_member rec apiClass) c_propertiesTable
                (fun m => has_kind ApiItemKind.Property m && negb (is_event m))
                ltac:(loop_body) _ _ _ _ _ _ 0 Hloop (table_grown_0 _)) as Hp.
  pose proof (for_of_pushes (class_member rec apiClass) c_methodsTable (has_kind ApiItemKind.Method)
                ltac:(loop_body) _ _ _ _ _ _ 0 Hloop (table_grown_0 _)) as Hm.
  simpl plus in He, Hc, Hp, Hm.
  exists (c_eventsTable t), (c_constructorsTable t), (c_propertiesTable t), (c_methodsTable t).
  repeat (split; [assumption | ]).
  rewrite (push_section_app 1 "Methods"), (push_section_app 1 "Properties"),
    (push_section_app 1 "Constructors"), (push_section_app 0 "Events").
  rewrite (proj2 (push_section_grown _ _ "Events" _ He)).
  rewrite (proj1 (push_section_grown _ _ "Constructors" _ Hc)).
  rewrite (proj1 (push_section_grown _ _ "Properties" _ Hp)).
  rewrite (proj1 (push_section_grown _ _ "Methods" _ Hm)).
  now rewrite <- !app_assoc.
Qed.

(** X12: the tables of an interface page.  Construct signatures and method
    signatures make the rows of the Methods table, property signatures
    those of the Events table (event properties) or of the Properties
    table; each of the three sections is pushed when its table has a row. *)
Theorem interface_tables_shape (rec : ApiItem -> M unit) (output out : list HtmlNode)
    (apiInterface : ApiItem) (w w' : World) :
  _writeInterfaceTables rec output apiInterface w = Returned out w' ->
  let ms := members (self apiInterface) in
  let events := count (fun m => has_kind ApiItemKind.PropertySignature m && is_event m) ms in
  let properties :=
    count (fun m => has_kind ApiItemKind.PropertySignature m && negb (is_event m)) ms in
  let methods :=
    count (fun m => has_kind ApiItemKind.ConstructSignature m
                    || has_kind ApiItemKind.MethodSignature m) ms in
  exists e p m : HtmlNode,
    grown ["Property"; "Type"; "Description"] events e
    /\ grown ["Property"; "Type"; "Description"] properties p
    /\ grown ["Method"; "Description"] methods m
    /\ out = output
              ++ section_if_rows events "Events" e
              ++ section_if_rows properties "Properties" p
              ++ section_if_rows methods "Methods" m.
Proof.
  unfold _writeInterfaceTables, bind, ret.
  destruct (for_of _ _ _ w) as [t w1|] eqn:Hloop; [ | discriminate ].
  intros [= <- _]. cbv zeta.
  pose proof (for_of_pushes (interface_member rec apiInterface) i_eventsTable
                (fun m => has_kind ApiItemKind.PropertySignature m && is_event m)
                ltac:(loop_body) _ _ _ _ _ _ 0 Hloop (table_grown_0 _)) as He.
  pose proof (for_of_pushes (interface_member rec apiInterface) i_propertiesTable
                (fun m => has_kind ApiItemKind.PropertySignature m && negb (is_event m))
                ltac:(loop_body) _ _ _ _ _ _ 0 Hloop (table_grown_0 _)) as Hp.
  pose proof (for_of_pushes (interface_member rec apiInterface) i_methodsTable
                (fun m => has_kind ApiItemKind.ConstructSignature m
                          || has_kind ApiItemKind.MethodSignature m)
                ltac:(loop_body) _ _ _ _ _ _ 0 Hloop (table_grown_0 _)) as Hm.
  simpl plus in He, Hp, Hm.
  exists (i_eventsTable t), (i_propertiesTable t), (i_methodsTable t).
  repeat (split; [assumption | ]).
  rewrite (push_section_app 1 "Methods"), (push_section_app 1 "Properties"),
    (push_section_app 1 "Events").
  rewrite (proj1 (push_section_grown _ _ "Events" _ He)).
  rewrite (proj1 (push_section_grown _ _ "Properties" _ Hp)).
  rewrite (proj1 (push_section_grown _ _ "Methods" _ Hm)).
  now rewrite <- !app_assoc.
Qed.

Lemma container_loop (rec : ApiItem -> M unit) (parent : ApiItem) (ms : list ApiNode)
    (t0 t : ContainerTables) (w w1 : World) (n : ApiItemKind.t)
    (proj : ContainerTables -> HtmlNode) (headings : list string) :
  for_of (container_member rec parent) ms t0 w = Returned t w1 ->
  grown headings 0 (proj t0) ->
  (forall t m w t' w',
      container_member rec parent t m w = Returned t' w' ->
      if has_kind n m then exists row, proj t' = content_push (proj t) row
      else proj t' = proj t) ->
  grown headings (count (has_kind n) ms) (proj t).
Proof.
  intros Hloop Hg Hbody.
  exact (for_of_pushes _ proj (has_kind n) Hbody _ _ _ _ _ _ 0 Hloop Hg).
Qed.

(** X13: the tables of a package or namespace page.  The members are those
    of the first entry point for a package and the own members for a
    namespace; each of the seven tables holds one row per member of its
    kind, and each section is pushed when its table has a row, in the order
    Classes, Enumerations, Functions, Interfaces, Namespaces, Variables,
    Types. *)
Theorem container_tables_shape (rec : ApiItem -> M unit) (output out : list HtmlNode)
    (apiContainer : ApiItem) (w w' : World) :
  _writePackageOrNamespaceTables rec output apiContainer w = Returned out w' ->
  let ms := container_members (self apiContainer) in
  exists c e f i n v t : HtmlNode,
    grown ["Class"; "Description"] (count (has_kind ApiItemKind.Class) ms) c
    /\ grown ["Enumeration"; "Description"] (count (has_kind ApiItemKind.Enum) ms) e
    /\ grown ["Function"; "Description"] (count (has_kind ApiItemKind.Function) ms) f
    /\ grown ["Interface"; "Description"] (count (has_kind ApiItemKind.Interface) ms) i
    /\ grown ["Namespace"; "Description"] (count (has_kind ApiItemKind.Namespace) ms) n
    /\ grown ["Variable"; "Description"] (count (has_kind ApiItemKind.Variable_) ms) v
    /\ grown ["Type Alias"; "Description"] (count (has_kind ApiItemKind.TypeAlias) ms) t
    /\ out = output
              ++ section_if_rows (count (has_kind ApiItemKind.Class) ms) "Classes" c
              ++ section_if_rows (count (has_kind ApiItemKind.Enum) ms) "Enumerations" e
              ++ section_if_rows (count (has_kind ApiItemKind.Function) ms) "Functions" f
              ++ section_if_rows (count (has_kind ApiItemKind.Interface) ms) "Interfaces" i
              ++ section_if_rows (count (has_kind ApiItemKind.Namespace) ms) "Namespaces" n
              ++ section_if_rows (count (has_kind ApiItemKind.Variable_) ms) "Variables" v
              ++ section_if_rows (count (has_kind ApiItemKind.TypeAlias) ms) "Types" t.
Proof.
  unfold _writePackageOrNamespaceTables, bind, ret. cbv zeta.
  match goal with
  | |- match ?loop with _ => _ end = _ -> _ =>
      destruct loop as [t w1|] eqn:Hloop; [ | discriminate ]
  end.
  intros [= <- _].
  assert (Hfor : exists parent,
             for_of (container_member rec parent) (container_members (self apiContainer))
               (mkContainerTables
                  (table ["Class"; "Description"])
                  (table ["Enumeration"; "Description"])
                  (table ["Function"; "Description"])
                  (table ["Interface"; "Description"])
                  (table ["Namespace"; "Description"])
                  (table ["Variable"; "Description"])
                  (table ["Type Alias"; "Description"])) w
             = Returned t w1).
  { unfold container_members.
    destruct (kind (self apiContainer)); try (now exists apiContainer).
    destruct (members (self apiContainer)) as [|entryPoint rest]; [discriminate Hloop | ].
    now exists (member_item apiContainer entryPoint). }
  destruct Hfor as (parent & Hfor). clear Hloop.
  pose proof (container_loop rec parent _ _ _ _ _ ApiItemKind.Class classesTable _
                Hfor (table_grown_0 _) ltac:(loop_body)) as Hc.
  pose proof (container_loop rec parent _ _ _ _ _ ApiItemKind.Enum enumerationsTable _
                Hfor (table_grown_0 _) ltac:(loop_body)) as He.
  pose proof (container_loop rec parent _ _ _ _ _ ApiItemKind.Function functionsTable _
                Hfor (table_grown_0 _) ltac:(loop_body)) as Hf.
  pose proof (container_loop rec parent _ _ _ _ _ ApiItemKind.Interface interfacesTable _
                Hfor (table_grown_0 _) ltac:(loop_body)) as Hi.
  pose proof (container_loop rec parent _ _ _ _ _ ApiItemKind.Namespace namespacesTable _
                Hfor (table_grown_0 _) ltac:(loop_body)) as Hn.
  pose proof (container_loop rec parent _ _ _ _ _ ApiItemKind.Variable_ variablesTable _
                Hfor (table_grown_0 _) ltac:(loop_body)) as Hv.
  pose proof (container_loop rec parent _ _ _ _ _ ApiItemKind.TypeAlias typeAliasesTable _
                Hfor (table_grown_0 _) ltac:(loop_body)) as Ht.
  exists (classesTable t), (enumerationsTable t), (functionsTable t), (interfacesTable t),
    (namespacesTable t), (variablesTable t), (typeAliasesTable t).
  repeat (split; [assumption | ]).
  rewrite (push_section_app 1 "Types"), (push_section_app 1 "Variables"),
    (push_section_app 1 "Namespaces"), (push_section_app 1 "Interfaces"),
    (push_section_app 1 "Functions"), (push_section_app 1 "Enumerations"),
    (push_section_app 1 "Classes").
  rewrite (proj1 (push_section_grown _ _ "Classes" _ Hc)).
  rewrite (proj1 (push_section_grown _ _ "Enumerations" _ He)).
  rewrite (proj1 (push_section_grown _ _ "Functions" _ Hf)).
  rewrite (proj1 (push_section_grown _ _ "Interfaces" _ Hi)).
  rewrite (proj1 (push_section_grown _ _ "Namespaces" _ Hn)).
  rewrite (proj1 (push_section_grown _ _ "Variables" _ Hv)).
  rewrite (proj1 (push_section_grown _ _ "Types" _ Ht)).
  now rewrite <- !app_assoc.
Qed.

Lemma description_cell_keeps_files (apiItem : ApiItem) (w : World) :
  files (world_of (_createDescriptionCell apiItem w)) = files w.
Proof.
  unfold _createDescriptionCell.
  destruct (tsdocComment (self apiItem)) as [[comment|]|]; try reflexivity.
  unfold bind, ret.
  pose proof (createDocNodes_keeps_files (summarySection comment) w) as H.
  now destruct (_createDocNodes (summarySection comment) w).
Qed.

Lemma count_all (ms : list ApiNode) : count (fun _ => true) ms = length ms.
Proof. unfold count. induction ms; simpl; congruence. Qed.

(** X14: the table of an enum page.  The call returns only when every
    member has an initializer; the table then holds one row per member, the
    section is pushed when there is a member, and no file is written: enum
    members get no page. *)
Theorem enum_table_shape (output out : list HtmlNode) (apiEnum : ApiItem) (w w' : World) :
  _writeEnumTables output apiEnum w = Returned out w' ->
  let ms := members (self apiEnum) in
  Forall (fun m => initializerExcerpt m <> None) ms
  /\ files w' = files w
  /\ exists t : HtmlNode,
       grown ["Member"; "Value"; "Description"] (length ms) t
       /\ out = output ++ section_if_rows (length ms) "Enumeration Members" t.
Proof.
  unfold _writeEnumTables, bind, ret. cbv zeta.
  match goal with
  | |- match for_of ?body _ _ _ with _ => _ end = _ -> _ =>
      set (loop_body := body);
      destruct (for_of loop_body (members (self apiEnum))
                  (table ["Member"; "Value"; "Description"]) w) as [t w1|] eqn:Hloop;
      [ | discriminate ]
  end.
  intros [= <- <-]. split; [ | split ].
  - clear -Hloop. revert Hloop.
    generalize (table ["Member"; "Value"; "Description"]) as t0. revert w.
    induction (members (self apiEnum)) as [|m ms IH]; intros w t0; simpl; [constructor | ].
    unfold bind. destruct (loop_body t0 m w) as [t1 w2|] eqn:Hb; [ | discriminate ].
    intros Hloop. constructor; [ | exact (IH _ _ Hloop) ].
    unfold loop_body in Hb. now destruct (initializerExcerpt m).
  - clear -Hloop. revert Hloop.
    generalize (table ["Member"; "Value"; "Description"]) as t0. revert w.
    induction (members (self apiEnum)) as [|m ms IH]; intros w t0; simpl.
    + now intros [= _ <-].
    + unfold bind. destruct (loop_body t0 m w) as [t1 w2|] eqn:Hb; [ | discriminate ].
      intros Hloop. rewrite (IH _ _ Hloop).
      unfold loop_body in Hb.
      destruct (initializerExcerpt m); [ | discriminate Hb ].
      unfold bind, ret in Hb.
      pose proof (description_cell_keeps_files (member_item apiEnum m) w) as Hf.
      destruct (_createDescriptionCell (member_item apiEnum m) w); [ | discriminate Hb ].
      injection Hb as _ <-. exact Hf.
  - exists t.
    assert (Hg : grown ["Member"; "Value"; "Description"] (length (members (self apiEnum))) t).
    { rewrite <- count_all.
      refine (for_of_pushes loop_body (fun t => t) (fun _ => true) _ _ _ _ _ _ _ 0 Hloop
                (table_grown_0 _)).
      intros t0 m w0 t' w0'. unfold loop_body.
      destruct (initializerExcerpt m); [ | discriminate ].
      unfold bind, ret.
      destruct (_createDescriptionCell (member_item apiEnum m) w0); [ | discriminate ].
      intros [= <- _]. eauto. }
    split; [exact Hg | ].
    rewrite push_section_app. now rewrite (proj1 (push_section_grown _ _ _ _ Hg)).
Qed.

(** X15: the table of the Model page holds one row per package member; the
    Packages heading and the table are pushed whether there is a package or
    not. *)
Theorem model_table_shape (rec : ApiItem -> M unit) (output out : list HtmlNode)
    (apiModel : ApiItem) (w w' : World) :
  _writeModelTable rec output apiModel w = Returned out w' ->
  exists t : HtmlNode,
    grown ["Package"; "Description"]
      (count (has_kind ApiItemKind.Package) (members (self apiModel))) t
    /\ out = output ++ section "Packages" t.
Proof.
  unfold _writeModelTable, bind, ret. cbv zeta.
  match goal with
  | |- match for_of ?body _ _ _ with _ => _ end = _ -> _ =>
      set (loop_body := body);
      destruct (for_of loop_body (members (self apiModel))
                  (table ["Package"; "Description"]) w) as [t w1|] eqn:Hloop;
      [ | discriminate ]
  end.
  intros [= <- _]. exists t.
  assert (Hg : grown ["Package"; "Description"]
                 (count (has_kind ApiItemKind.Package) (members (self apiModel))) t).
  { refine (for_of_pushes loop_body (fun t => t) (has_kind ApiItemKind.Package) _
              _ _ _ _ _ _ 0 Hloop (table_grown_0 _)).
    intros t0 m w0 t' w0'. unfold loop_body, has_kind, bind, ret.
    destruct (_createDescriptionCell (member_item apiModel m) w0); [ | discriminate ].
    destruct (kind m); try (intros [= <- _]; reflexivity).
    destruct (rec (member_item apiModel m) _); [ | discriminate ].
    intros [= <- _]. eauto. }
  split; [exact Hg | ].
  rewrite push_section_app. now rewrite (proj2 (push_section_grown _ _ _ _ Hg)).
Qed.

End MemberTables.

(* ===================================================================== *)
(** ** The files a run writes *)
(* ===================================================================== *)

Section WrittenFiles.
Import HtmlEmitter HtmlDocumenter Vocabulary Coverage.
Context {collaborators : Collaborators}.
Variable this : HtmlDocumenter.

Lemma keeps_files_writes_nothing {A : Type} (m : M A) :
  (forall w, files (world_of (m w)) = files w) -> writes_pages this [] m.
Proof.
  intros H w. specialize (H w). destruct (m w) as [x w'|e w']; simpl in H; exists [].
  - rewrite H, app_nil_r. split; [reflexivity | constructor].
  - now rewrite H, app_nil_r.
Qed.

Lemma writes_ret {A : Type} (x : A) : writes_pages this [] (ret x).
Proof. apply keeps_files_writes_nothing. reflexivity. Qed.

Lemma writes_throw {A : Type} (pages : list ApiItem) (e : string) :
  writes_pages this pages (throw e : M A).
Proof. intros w. exists []. simpl. now rewrite app_nil_r. Qed.

Lemma writes_bind {A B : Type} (p1 p2 : list ApiItem) (m : M A) (k : A -> M B) :
  writes_pages this p1 m ->
  (forall x, writes_pages this p2 (k x)) ->
  writes_pages this (p1 ++ p2) (bind m k).
Proof.
  intros Hm Hk w. unfold bind. specialize (Hm w).
  destruct (m w) as [x w1|e w1].
  - destruct Hm as (new1 & Hf1 & Hp1). specialize (Hk x w1).
    destruct (k x w1) as [y w2|e w2].
    + destruct Hk as (new2 & Hf2 & Hp2). exists (new1 ++ new2). split.
      * now rewrite Hf2, Hf1, app_assoc.
      * now apply Forall2_app.
    + destruct Hk as (new2 & Hf2). exists (new1 ++ new2). now rewrite Hf2, Hf1, app_assoc.
  - exact Hm.
Qed.

Lemma writes_bind_after_nothing {A B : Type} (pages : list ApiItem) (m : M A) (k : A -> M B) :
  writes_pages this [] m ->
  (forall x, writes_pages this pages (k x)) ->
  writes_pages this pages (bind m k).
Proof. intros Hm Hk. exact (writes_bind [] pages m k Hm Hk). Qed.

Lemma writes_bind_then_nothing {A B : Type} (pages : list ApiItem) (m : M A) (k : A -> M B) :
  writes_pages this pages m ->
  (forall x, writes_pages this [] (k x)) ->
  writes_pages this pages (bind m k).
Proof.
  intros Hm Hk. rewrite <- (app_nil_r pages). exact (writes_bind pages [] m k Hm Hk).
Qed.

Lemma writes_for_of {S : Type} (body : S -> ApiNode -> M S) (P : ApiNode -> list ApiItem)
    (l : list ApiNode) :
  (forall s x, In x l -> writes_pages this (P x) (body s x)) ->
  forall s, writes_pages this (flat_map P l) (for_of body l s).
Proof.
  induction l as [|x l IH]; intros Hbody s; simpl.
  - apply writes_ret.
  - apply writes_bind.
    + apply Hbody. now left.
    + intros s'. apply IH. intros s0 y Hy. apply Hbody. now right.
Qed.

Lemma writes_description_cell (apiItem : ApiItem) :
  writes_pages this [] (_createDescriptionCell apiItem).
Proof.
  apply keeps_files_writes_nothing. intros w. apply description_cell_keeps_files.
Qed.

Lemma writes_createDocNodes (nodes : list DocNode) :
  writes_pages this [] (_createDocNodes nodes).
Proof.
  apply keeps_files_writes_nothing. intros w. apply createDocNodes_keeps_files.
Qed.

Lemma writes_remarks (output : list HtmlNode) (apiItem : ApiItem) :
  writes_pages this [] (_writeRemarksSection output apiItem).
Proof.
  unfold _writeRemarksSection.
  destruct (tsdocComment (self apiItem)) as [[comment|]|]; try apply writes_ret.
  destruct (remarksBlock comment); [ | apply writes_ret ].
  apply writes_bind_after_nothing; [apply writes_createDocNodes | intros; apply writes_ret].
Qed.

Lemma writes_heading (output : list HtmlNode) (apiItem : ApiItem) :
  writes_pages this [] (page_heading output apiItem).
Proof.
  unfold page_heading.
  destruct (kind (self apiItem)); try apply writes_ret; try apply writes_throw.
  apply writes_bind_after_nothing; [ | intros; apply writes_ret ].
  apply keeps_files_writes_nothing. reflexivity.
Qed.

Lemma writes_summary (output : list HtmlNode) (apiItem : ApiItem) :
  writes_pages this [] (page_summary output apiItem).
Proof.
  unfold page_summary. apply writes_bind_after_nothing.
  - destruct (tsdocComment (self apiItem)) as [[comment|]|]; try apply writes_ret.
    apply writes_bind_after_nothing; [apply writes_createDocNodes | intros; apply writes_ret].
  - intros out. destruct (declaredItem (self apiItem)) as [declared|]; [ | apply writes_ret ].
    destruct (0 <? String.length (excerpt declared))%nat; apply writes_ret.
Qed.

Lemma writes_early_remarks (output : list HtmlNode) (apiItem : ApiItem) :
  writes_pages this [] (page_early_remarks output apiItem).
Proof.
  unfold page_early_remarks.
  destruct (kind (self apiItem)); try apply writes_ret;
    (apply writes_bind_after_nothing; [apply writes_remarks | intros; apply writes_ret]).
Qed.

Lemma writes_page_write (output : list HtmlNode) (apiItem : ApiItem) :
  writes_pages this [apiItem] (page_write this output apiItem).
Proof.
  intros w. unfold page_write, writeFile. simpl.
  eexists. split; [reflexivity | ]. repeat constructor. eexists. reflexivity.
Qed.

Lemma flat_map_nothing {A B : Type} (l : list A) : flat_map (fun _ : A => @nil B) l = [].
Proof. induction l; simpl; auto. Qed.

Lemma pages_of_unfold (apiItem : ApiItem) :
  pages_of apiItem = table_pages apiItem ++ [apiItem].
Proof.
  destruct apiItem as [above node]. unfold pages_of, table_pages. simpl.
  destruct node as [k name ms pl st rt doc decl prop init]. simpl.
  destruct k; try reflexivity.
Qed.

Section Writers.
Variable rec : ApiItem -> M unit.

Ltac member_case Hrec Hin :=
  cbv zeta; simpl gets_page; try apply writes_ret;
  repeat (apply writes_bind_after_nothing; [apply writes_description_cell | intros ?]);
  try apply writes_ret;
  try (apply writes_bind_then_nothing; [apply Hrec; exact Hin | intros ?; apply writes_ret]).

Lemma writes_class_tables (output : list HtmlNode) (apiClass : ApiItem) :
  (forall m, In m (members (self apiClass)) ->
             writes_pages this (pages_from (ancestors apiClass ++ [self apiClass]) m)
               (rec (member_item apiClass m))) ->
  writes_pages this (member_pages ApiItemKind.Class apiClass (members (self apiClass)))
    (_writeClassTables rec output apiClass).
Proof.
  intros Hrec. unfold _writeClassTables.
  apply writes_bind_then_nothing; [ | intros; apply writes_ret ].
  unfold member_pages. apply writes_for_of. intros t m Hin.
  unfold class_member. destruct (kind m); member_case Hrec Hin.
Qed.

Lemma writes_interface_tables (output : list HtmlNode) (apiInterface : ApiItem) :
  (forall m, In m (members (self apiInterface)) ->
             writes_pages this (pages_from (ancestors apiInterface ++ [self apiInterface]) m)
               (rec (member_item apiInterface m))) ->
  writes_pages this
    (member_pages ApiItemKind.Interface apiInterface (members (self apiInterface)))
    (_writeInterfaceTables rec output apiInterface).
Proof.
  intros Hrec. unfold _writeInterfaceTables.
  apply writes_bind_then_nothing; [ | intros; apply writes_ret ].
  unfold member_pages. apply writes_for_of. intros t m Hin.
  unfold interface_member. destruct (kind m); member_case Hrec Hin.
Qed.

Lemma writes_container_loop (parent : ApiItem) (ms : list ApiNode) (t : ContainerTables) :
  (forall m, In m ms ->
             writes_pages this (pages_from (ancestors parent ++ [self parent]) m)
               (rec (member_item parent m))) ->
  writes_pages this (member_pages ApiItemKind.Package parent ms)
    (for_of (container_member rec parent) ms t).
Proof.
  intros Hrec. unfold member_pages. apply writes_for_of. intros t0 m Hin.
  unfold container_member. cbv zeta.
  apply writes_bind_after_nothing; [apply writes_description_cell | intros d].
  destruct (kind m); member_case Hrec Hin.
Qed.

Lemma writes_model_table (output : list HtmlNode) (apiModel : ApiItem) :
  (forall m, In m (members (self apiModel)) ->
             writes_pages this (pages_from (ancestors apiModel ++ [self apiModel]) m)
               (rec (member_item apiModel m))) ->
  writes_pages this (member_pages ApiItemKind.Model apiModel (members (self apiModel)))
    (_writeModelTable rec output apiModel).
Proof.
  intros Hrec. unfold _writeModelTable. cbv zeta.
  apply writes_bind_then_nothing; [ | intros; apply writes_ret ].
  unfold member_pages. apply writes_for_of. intros t m Hin. cbv beta zeta.
  apply writes_bind_after_nothing; [apply writes_description_cell | intros d].
  destruct (kind m); member_case Hrec Hin.
Qed.

Lemma writes_enum_tables (output : list HtmlNode) (apiEnum : ApiItem) :
  writes_pages this [] (_writeEnumTables output apiEnum).
Proof.
  unfold _writeEnumTables. cbv zeta.
  apply writes_bind_then_nothing; [ | intros; apply writes_ret ].
  rewrite <- (flat_map_nothing (members (self apiEnum))).
  apply writes_for_of. intros t m Hin. cbv beta zeta.
  destruct (initializerExcerpt m); [ | apply writes_throw ].
  apply writes_bind_after_nothing; [apply writes_description_cell | intros; apply writes_ret].
Qed.

Lemma no_member_pages (k : ApiItemKind.t) (parent : ApiItem) (ms : list ApiNode) :
  has_member_pages k = false -> member_pages k parent ms = [].
Proof.
  intros Hk. unfold member_pages.
  destruct k; try discriminate Hk; apply flat_map_nothing.
Qed.

Lemma writes_page_tables (output : list HtmlNode) (apiItem : ApiItem) :
  (forall m, In m (members (self apiItem)) ->
             writes_pages this (pages_from (ancestors apiItem ++ [self apiItem]) m)
               (rec (member_item apiItem m))) ->
  (forall entryPoint rest m,
      members (self apiItem) = entryPoint :: rest ->
      In m (members entryPoint) ->
      writes_pages this
        (pages_from ((ancestors apiItem ++ [self apiItem]) ++ [entryPoint]) m)
        (rec (member_item (member_item apiItem entryPoint) m))) ->
  writes_pages this (table_pages apiItem) (page_tables rec output apiItem).
Proof.
  intros Hchildren Hgrand. unfold page_tables, table_pages. cbv zeta.
  destruct (kind (self apiItem)) eqn:Hk;
    try (rewrite no_member_pages by reflexivity);
    try apply writes_ret; try apply writes_throw;
    try (destruct (parameterList (self apiItem)); [apply writes_ret | apply writes_throw]).
  - now apply writes_class_tables.
  - apply writes_enum_tables.
  - now apply writes_interface_tables.
  - now apply writes_model_table.
  - unfold _writePackageOrNamespaceTables. rewrite Hk. cbv zeta.
    apply writes_bind_then_nothing; [ | intros; apply writes_ret ].
    now apply writes_container_loop.
  - unfold _writePackageOrNamespaceTables. rewrite Hk. cbv zeta.
    apply writes_bind_then_nothing; [ | intros; apply writes_ret ].
    destruct (members (self apiItem)) as [|entryPoint rest] eqn:Hm; [apply writes_throw | ].
    apply writes_container_loop. intros m Hin.
    exact (Hgrand entryPoint rest m eq_refl Hin).
Qed.

Lemma writes_page (apiItem : ApiItem) :
  (forall m, In m (members (self apiItem)) ->
             writes_pages this (pages_from (ancestors apiItem ++ [self apiItem]) m)
               (rec (member_item apiItem m))) ->
  (forall entryPoint rest m,
      members (self apiItem) = entryPoint :: rest ->
      In m (members entryPoint) ->
      writes_pages this
        (pages_from ((ancestors apiItem ++ [self apiItem]) ++ [entryPoint]) m)
        (rec (member_item (member_item apiItem entryPoint) m))) ->
  writes_pages this (pages_of apiItem) (page this rec apiItem).
Proof.
  intros Hchildren Hgrand. rewrite pages_of_unfold. unfold page. cbv zeta.
  apply writes_bind_after_nothing; [apply writes_heading | intros out1].
  apply writes_bind_after_nothing; [apply writes_summary | intros out2].
  apply writes_bind_after_nothing; [apply writes_early_remarks | intros [out3 appendRemarks]].
  apply writes_bind; [now apply writes_page_tables | intros out4].
  apply writes_bind_after_nothing; [ | intros out5; apply writes_page_write ].
  destruct appendRemarks; [apply writes_remarks | apply writes_ret].
Qed.

End Writers.

Lemma writes_writeApiItemPage (node : ApiNode) :
  (forall above, writes_pages this (pages_from above node)
                   (_writeApiItemPage this (mkApiItem above node)))
  /\ Forall (fun member =>
               forall above, writes_pages this (pages_from above member)
                               (_writeApiItemPage this (mkApiItem above member)))
       (members node).
Proof.
  induction node as [node IH] using ApiNode_nested_ind.
  assert (Hmembers : Forall (fun member =>
               forall above, writes_pages this (pages_from above member)
                               (_writeApiItemPage this (mkApiItem above member)))
            (members node)).
  { apply Forall_forall. intros m Hm.
    rewrite Forall_forall in IH. exact (proj1 (IH m Hm)). }
  split; [ | exact Hmembers ].
  intros above. rewrite writeApiItemPage_unfold.
  change (pages_from above node) with (pages_of (mkApiItem above node)).
  apply writes_page.
  - intros m Hm. rewrite Forall_forall in Hmembers. exact (Hmembers m Hm _).
  - intros entryPoint rest m Hms Hm. simpl in Hms.
    rewrite Forall_forall in IH.
    assert (He : In entryPoint (members node)) by (rewrite Hms; now left).
    pose proof (proj2 (IH entryPoint He)) as Hgrand.
    rewrite Forall_forall in Hgrand. exact (Hgrand m Hm _).
Qed.

Lemma no_table_pages (apiItem : ApiItem) :
  has_member_pages (kind (self apiItem)) = false -> pages_of apiItem = [apiItem].
Proof.
  intros Hk. rewrite pages_of_unfold. unfold table_pages.
  destruct (kind (self apiItem)); try discriminate Hk;
    now rewrite no_member_pages by reflexivity.
Qed.

Lemma page_generation_lemma (apiItem : ApiItem) (w : World) :
  match _writeApiItemPage this apiItem w with
  | Returned _ w' =>
      exists new,
        files w' = files w ++ new
        /\ Forall2 (is_page_write this) (pages_of apiItem) new
  | Thrown _ w' => exists new, files w' = files w ++ new
  end
  /\ pages_of apiItem = table_pages apiItem ++ [apiItem].
Proof.
  split; [ | apply pages_of_unfold ].
  destruct apiItem as [above node].
  exact (proj1 (writes_writeApiItemPage node) above w).
Qed.

(** X16: page generation only appends to the output folder, whether it
    returns or throws.  When it returns, the files it added are, in order,
    the pages of the members that the member tables hand on (members of
    other kinds and enum members get none), each before the page of its
    container, and last the page of the item itself; each is written to the
    output folder under the item's file name, with the newline convention
    of the configuration, CrLf without one. *)
Theorem page_generation_writes_the_pages (apiItem : ApiItem) (w : World) :
  match _writeApiItemPage this apiItem w with
  | Returned _ w' =>
      exists new,
        files w' = files w ++ new
        /\ Forall2 (is_page_write this) (pages_of apiItem) new
  | Thrown _ w' => exists new, files w' = files w ++ new
  end
  /\ pages_of apiItem = table_pages apiItem ++ [apiItem].
Proof.
  apply page_generation_lemma.
Qed.

(** X17: the page of an item that is not a model, a package, a namespace, a
    class or an interface adds exactly one file when it returns: its
    own. *)
Theorem leaf_page_writes_one_file (apiItem : ApiItem) (w : World) :
  has_member_pages (kind (self apiItem)) = false ->
  match _writeApiItemPage this apiItem w with
  | Returned _ w' =>
      exists content : string,
        files w'
        = files w
            ++ [ (path_join (_outputFolder this) (_getFilenameForApiItem apiItem),
                  Written content
                    match _documenterConfig this with
                    | Some config => newlineKind config
                    | None => CrLf
                    end) ]
  | Thrown _ w' => exists new, files w' = files w ++ new
  end.
Proof.
  intros Hk. destruct apiItem as [above node].
  pose proof (proj1 (writes_writeApiItemPage node) above w) as H.
  change (pages_from above node) with (pages_of (mkApiItem above node)) in H.
  rewrite (no_table_pages _ Hk) in H.
  destruct (_writeApiItemPage this (mkApiItem above node) w) as [x w'|e w']; [ | exact H ].
  destruct H as (new & Hf & Hp).
  inversion Hp as [|x0 entry l l' Hentry Hrest]; subst. inversion Hrest; subst.
  destruct Hentry as (content & ->). now exists content.
Qed.

End WrittenFiles.

Section RunFacts.
Import HtmlEmitter HtmlDocumenter Vocabulary Coverage.
Context {collaborators : Collaborators} {pluginLoader : PluginLoader}.

Lemma generateFiles_steps (apiModel : ApiItem)
    (documenterConfig : option DocumenterConfig) (outputFolder : string) (w : World) :
  generateFiles apiModel documenterConfig outputFolder w
  = match load_feature (mkHtmlDocumenter apiModel documenterConfig outputFolder) w with
    | Returned feature w1 =>
        match _writeApiItemPage (mkHtmlDocumenter apiModel documenterConfig outputFolder)
                apiModel (cleared outputFolder w1) with
        | Returned _ w2 => finish feature w2
        | Thrown e w2 => Thrown e w2
        end
    | Thrown e w1 => Thrown e w1
    end.
Proof.
  unfold generateFiles. cbv zeta. unfold bind at 1.
  destruct (load_feature _ w) as [feature w1|e w1]; reflexivity.
Qed.

Lemma load_feature_without_configuration (apiModel : ApiItem) (outputFolder : string)
    (w : World) :
  load_feature (mkHtmlDocumenter apiModel None outputFolder) w = Returned None w.
Proof. reflexivity. Qed.

Lemma run_lemma (apiModel : ApiItem)
    (documenterConfig : option DocumenterConfig) (outputFolder : string) (w w' : World) :
  generateFiles apiModel documenterConfig outputFolder w = Returned tt w' ->
  exists feature w1 w2 new,
    load_feature (mkHtmlDocumenter apiModel documenterConfig outputFolder) w
    = Returned feature w1
    /\ files w2 = stylesheet outputFolder :: new
    /\ Forall2 (is_page_write (mkHtmlDocumenter apiModel documenterConfig outputFolder))
         (pages_of apiModel) new
    /\ finish feature w2 = Returned tt w'.
Proof.
  rewrite generateFiles_steps.
  destruct (load_feature _ w) as [feature w1|e w1]; [ | discriminate ].
  match goal with
  | |- match _writeApiItemPage ?t ?i ?w0 with _ => _ end = _ -> _ =>
      pose proof (proj1 (page_generation_lemma t i w0)) as H;
      destruct (_writeApiItemPage t i w0) as [x w2|e w2]; [ | discriminate ]
  end.
  intros Hfinish. destruct H as (new & Hf & Hp).
  exists feature, w1, w2, new. repeat split; assumption.
Qed.

Lemma last_page_is_the_item (this : HtmlDocumenter) (apiItem : ApiItem)
    (new : list (string * FileContent)) :
  Forall2 (is_page_write this) (pages_of apiItem) new ->
  exists before content,
    new = before
            ++ [ (path_join (_outputFolder this) (_getFilenameForApiItem apiItem),
                  Written content
                    match _documenterConfig this with
                    | Some config => newlineKind config
                    | None => CrLf
                    end) ].
Proof.
  intros Hp. rewrite pages_of_unfold in Hp.
  apply Forall2_app_inv_l in Hp as (before & last & _ & Hlast & ->).
  inversion Hlast as [|x0 entry l l' Hentry Hrest]; subst. inversion Hrest; subst.
  destruct Hentry as (content & ->). now exists before, content.
Qed.

(** X18: a run replaces the output folder.  When loading the plug-ins
    throws, the run throws that error in the world the loader left: nothing
    was deleted yet.  When the run returns, the plug-ins were loaded, and
    when the last page was written the folder held the copied stylesheet
    followed by the pages of the model and nothing else, whatever it held
    before; the pages of members come before those of their containers, and
    the last one is [index.html] when the model item has kind Model; what
    [onFinished] of the plug-in does comes after.  Without a configuration
    no plug-in runs, and that is the folder after the run. *)
Theorem run_replaces_the_output_folder (apiModel : ApiItem)
    (documenterConfig : option DocumenterConfig) (outputFolder : string) (w : World) :
  let this := mkHtmlDocumenter apiModel documenterConfig outputFolder in
  (forall (e : string) (w1 : World),
      load_feature this w = Thrown e w1 ->
      generateFiles apiModel documenterConfig outputFolder w = Thrown e w1)
  /\ (forall w' : World,
      generateFiles apiModel documenterConfig outputFolder w = Returned tt w' ->
      exists feature w1 w2 new,
        load_feature this w = Returned feature w1
        /\ files w2 = stylesheet outputFolder :: new
        /\ Forall2 (is_page_write this) (pages_of apiModel) new
        /\ finish feature w2 = Returned tt w'
        /\ (documenterConfig = None -> feature = None /\ w' = w2)
        /\ (kind (self apiModel) = ApiItemKind.Model ->
            exists before content,
              new = before
                      ++ [ (path_join outputFolder "index.html",
                            Written content
                              match documenterConfig with
                              | Some config => newlineKind config
                              | None => CrLf
                              end) ])).
Proof.
  intros this. split.
  - intros e w1 Hload. rewrite generateFiles_steps. fold this. now rewrite Hload.
  - intros w' Hrun.
    destruct (run_lemma _ _ _ _ _ Hrun) as (feature & w1 & w2 & new & Hload & Hf & Hp & Hfin).
    exists feature, w1, w2, new. fold this in Hload, Hp.
    split; [exact Hload | split; [exact Hf | split; [exact Hp | split; [exact Hfin | split ] ] ] ].
    + intros ->. unfold this in Hload. rewrite load_feature_without_configuration in Hload.
      injection Hload as <- <-. split; [reflexivity | ].
      now injection Hfin as <-.
    + intros Hk. destruct (last_page_is_the_item _ _ _ Hp) as (before & content & ->).
      exists before, content. unfold _getFilenameForApiItem. simpl. now rewrite Hk.
Qed.

End RunFacts.

Section CommandLine.
Import HtmlEmitter HtmlDocumenter Vocabulary Coverage.
Context {collaborators : Collaborators} {baseAction : BaseAction}.

Lemma pages_without_configuration_use_CrLf (apiModel : ApiItem) (folder : string)
    (pages : list ApiItem) (new : list (string * FileContent)) :
  Forall2 (is_page_write (mkHtmlDocumenter apiModel None folder)) pages new ->
  Forall (fun entry => exists content, snd entry = Written content CrLf) new.
Proof.
  intros Hp. induction Hp as [|i entry is' new' (content & ->) _ IH]; constructor.
  - now exists content.
  - exact IH.
Qed.

Lemma command_line_lemma {pluginLoader : PluginLoader} (this : HtmlAction) (w w' : World) :
  onExecute this w = Returned tt w' ->
  exists apiModel this' w1 new,
    buildApiModel this w = Returned (apiModel, this') w1
    /\ files w' = stylesheet (outputFolder this') :: new
    /\ Forall2 (is_page_write (mkHtmlDocumenter apiModel None (outputFolder this')))
         (pages_of apiModel) new.
Proof.
  unfold onExecute, bind.
  destruct (buildApiModel this w) as [[apiModel this'] w1|e w1]; [ | discriminate ].
  intros Hrun.
  destruct (run_lemma _ _ _ _ _ Hrun) as (feature & w1' & w2 & new & Hload & Hf & Hp & Hfin).
  rewrite load_feature_without_configuration in Hload. injection Hload as <- <-.
  injection Hfin as <-.
  now exists apiModel, this', w1, new.
Qed.

(** X19: the command-line action.  When the API model cannot be built the
    action throws that error in the world [buildApiModel] left, the output
    folder untouched by the documenter.  The documenter is made without a
    configuration, so no plug-in is loaded, whatever plug-ins there are;
    and after an action that returns the output folder holds the copied
    stylesheet followed by one file per page of the model, each written
    with CrLf line endings. *)
Theorem command_line_pages_use_CrLf (this : HtmlAction) (w : World) :
  (forall (pluginLoader : PluginLoader) (e : string) (w1 : World),
      buildApiModel this w = Thrown e w1 -> onExecute this w = Thrown e w1)
  /\ (forall pluginLoader1 pluginLoader2 : PluginLoader,
      @onExecute collaborators pluginLoader1 baseAction this w
      = @onExecute collaborators pluginLoader2 baseAction this w)
  /\ (forall (pluginLoader : PluginLoader) (w' : World),
      onExecute this w = Returned tt w' ->
      exists apiModel this' w1 new,
        buildApiModel this w = Returned (apiModel, this') w1
        /\ files w' = stylesheet (outputFolder this') :: new
        /\ Forall2 (is_page_write (mkHtmlDocumenter apiModel None (outputFolder this')))
             (pages_of apiModel) new
        /\ Forall (fun entry => exists content, snd entry = Written content CrLf) new).
Proof.
  split; [ | split ].
  - intros pluginLoader e w1 Hbuild. unfold onExecute, bind. now rewrite Hbuild.
  - intros pluginLoader1 pluginLoader2. unfold onExecute, bind.
    destruct (buildApiModel this w) as [[apiModel this'] w1|e w1]; reflexivity.
  - intros pluginLoader w' Hrun.
    destruct (command_line_lemma this w w' Hrun) as (apiModel & this' & w1 & new & Hb & Hf & Hp).
    exists apiModel, this', w1, new.
    split; [exact Hb | split; [exact Hf | split; [exact Hp | ] ] ].
    exact (pages_without_configuration_use_CrLf _ _ _ _ Hp).
Qed.

End CommandLine.

(* ===================================================================== *)
(** ** Throws reach the caller of the run *)
(* ===================================================================== *)

Section Aborts.
Import HtmlEmitter HtmlDocumenter Vocabulary Coverage.
Context {collaborators : Collaborators}.

Lemma throws_bind_l {A B : Type} (m : M A) (k : A -> M B) :
  always_throws m -> always_throws (bind m k).
Proof.
  intros H w. destruct (H w) as (e & w' & Hm). exists e, w'. unfold bind. now rewrite Hm.
Qed.

Lemma throws_bind_r {A B : Type} (m : M A) (k : A -> M B) :
  (forall w x w', m w = Returned x w' -> exists e w'', k x w' = Thrown e w'') ->
  always_throws (bind m k).
Proof.
  intros H w. unfold bind. destruct (m w) as [x w1|e w1] eqn:Hm.
  - exact (H w x w1 Hm).
  - now exists e, w1.
Qed.

Lemma throws_bind_k {A B : Type} (m : M A) (k : A -> M B) :
  (forall x, always_throws (k x)) -> always_throws (bind m k).
Proof. intros H. apply throws_bind_r. intros w x w' _. apply H. Qed.

Lemma throws_throw {A : Type} (e : string) : always_throws (throw e : M A).
Proof. intros w. now exists e, w. Qed.

Lemma throws_for_of {S : Type} (body : S -> ApiNode -> M S) (l : list ApiNode) (x : ApiNode) :
  In x l -> (forall s, always_throws (body s x)) ->
  forall s, always_throws (for_of body l s).
Proof.
  induction l as [|y l IH]; intros Hin Hx s; [destruct Hin | ].
  simpl. destruct Hin as [-> | Hin].
  - apply throws_bind_l, Hx.
  - apply throws_bind_k. intros s'. now apply IH.
Qed.

Lemma throws_createDocNodes (nodes : list DocNode) :
  existsb has_unsupported_kind nodes = true -> always_throws (_createDocNodes nodes).
Proof. intros H w. now apply createDocNodes_throws. Qed.

Lemma throws_description_cell (apiItem : ApiItem) :
  existsb has_unsupported_kind (summary_nodes (self apiItem)) = true ->
  always_throws (_createDescriptionCell apiItem).
Proof.
  unfold summary_nodes, _createDescriptionCell.
  destruct (tsdocComment (self apiItem)) as [[comment|]|]; try discriminate.
  intros H. apply throws_bind_l. now apply throws_createDocNodes.
Qed.

Lemma throws_summary (output : list HtmlNode) (apiItem : ApiItem) :
  existsb has_unsupported_kind (summary_nodes (self apiItem)) = true ->
  always_throws (page_summary output apiItem).
Proof.
  unfold summary_nodes, page_summary.
  destruct (tsdocComment (self apiItem)) as [[comment|]|]; try discriminate.
  intros H. apply throws_bind_l, throws_bind_l. now apply throws_createDocNodes.
Qed.

Lemma throws_remarks (output : list HtmlNode) (apiItem : ApiItem) :
  existsb has_unsupported_kind (remarks_nodes (self apiItem)) = true ->
  always_throws (_writeRemarksSection output apiItem).
Proof.
  unfold remarks_nodes, _writeRemarksSection.
  destruct (tsdocComment (self apiItem)) as [[comment|]|]; try discriminate.
  destruct (remarksBlock comment); try discriminate.
  intros H. apply throws_bind_l. now apply throws_createDocNodes.
Qed.

Lemma existsb_flat_map {A B : Type} (f : B -> bool) (g : A -> list B) (l : list A) :
  existsb f (flat_map g l) = true -> exists x, In x l /\ existsb f (g x) = true.
Proof.
  induction l as [|y l IH]; simpl; [discriminate | ].
  rewrite existsb_app. intros H. apply orb_true_iff in H as [H | H].
  - exists y. now split; [left | ].
  - destruct (IH H) as (x & Hin & Hx). exists x. now split; [right | ].
Qed.

Section Members.
Variable this : HtmlDocumenter.
Variable rec : ApiItem -> M unit.

Lemma throws_class_member (parent : ApiItem) (t : ClassTables) (m : ApiNode) :
  gets_page ApiItemKind.Class (kind m) = true ->
  always_throws (rec (member_item parent m)) ->
  always_throws (class_member rec parent t m).
Proof.
  intros Hk Hrec. unfold class_member.
  destruct (kind m); try discriminate Hk; cbv zeta;
    apply throws_bind_k; intros d; apply throws_bind_l; exact Hrec.
Qed.

Lemma throws_interface_member (parent : ApiItem) (t : InterfaceTables) (m : ApiNode) :
  gets_page ApiItemKind.Interface (kind m) = true ->
  always_throws (rec (member_item parent m)) ->
  always_throws (interface_member rec parent t m).
Proof.
  intros Hk Hrec. unfold interface_member.
  destruct (kind m); try discriminate Hk; cbv zeta;
    apply throws_bind_k; intros d; apply throws_bind_l; exact Hrec.
Qed.

Lemma throws_container_member (parent : ApiItem) (t : ContainerTables) (m : ApiNode) :
  gets_page ApiItemKind.Package (kind m) = true ->
  always_throws (rec (member_item parent m)) ->
  always_throws (container_member rec parent t m).
Proof.
  intros Hk Hrec. unfold container_member. cbv zeta.
  apply throws_bind_k; intros d.
  destruct (kind m); try discriminate Hk; apply throws_bind_l; exact Hrec.
Qed.

Lemma throws_container_description (parent : ApiItem) (t : ContainerTables) (m : ApiNode) :
  existsb has_unsupported_kind (summary_nodes m) = true ->
  always_throws (container_member rec parent t m).
Proof.
  intros Hm. unfold container_member. cbv zeta.
  apply throws_bind_l. now apply throws_description_cell.
Qed.

(** The member loop of a page that is no package throws when the page of
    one of the members it hands on does. *)
Lemma throws_tables_member (output : list HtmlNode) (apiItem : ApiItem) (m : ApiNode) :
  kind (self apiItem) <> ApiItemKind.Package ->
  In m (members (self apiItem)) ->
  gets_page (kind (self apiItem)) (kind m) = true ->
  always_throws (rec (member_item apiItem m)) ->
  always_throws (page_tables rec output apiItem).
Proof.
  intros Hp Hin Hk Hrec. unfold page_tables. cbv zeta.
  destruct (kind (self apiItem)) eqn:Hkind; try discriminate Hk; try (now elim Hp).
  - unfold _writeClassTables. cbv zeta. apply throws_bind_l.
    apply throws_for_of with (x := m); [exact Hin | ].
    intros t. now apply throws_class_member.
  - unfold _writeInterfaceTables. cbv zeta. apply throws_bind_l.
    apply throws_for_of with (x := m); [exact Hin | ].
    intros t. now apply throws_interface_member.
  - unfold _writeModelTable. cbv zeta. apply throws_bind_l.
    apply throws_for_of with (x := m); [exact Hin | ].
    intros t. cbv beta zeta. apply throws_bind_k. intros d.
    destruct (kind m); try discriminate Hk. apply throws_bind_l. exact Hrec.
  - unfold _writePackageOrNamespaceTables. rewrite Hkind. cbv zeta. apply throws_bind_l.
    apply throws_for_of with (x := m); [exact Hin | ].
    intros t. now apply throws_container_member.
Qed.

(** The same for a package, whose loop runs over the members of its first
    entry point. *)
Lemma throws_tables_package (output : list HtmlNode) (apiItem : ApiItem)
    (entryPoint : ApiNode) (rest : list ApiNode) (m : ApiNode) :
  kind (self apiItem) = ApiItemKind.Package ->
  members (self apiItem) = entryPoint :: rest ->
  In m (members entryPoint) ->
  gets_page ApiItemKind.Package (kind m) = true ->
  always_throws (rec (member_item (member_item apiItem entryPoint) m)) ->
  always_throws (page_tables rec output apiItem).
Proof.
  intros Hkind Hms Hin Hk Hrec. unfold page_tables. cbv zeta. rewrite Hkind.
  unfold _writePackageOrNamespaceTables. rewrite Hkind, Hms. cbv zeta. apply throws_bind_l.
  apply throws_for_of with (x := m); [exact Hin | ].
  intros t. now apply throws_container_member.
Qed.

(** The tables throw when the summary of a member they describe holds a
    node without rendering rule. *)
Lemma throws_tables_described (output : list HtmlNode) (apiItem : ApiItem) (m : ApiNode) :
  In m (described_members (self apiItem)) ->
  existsb has_unsupported_kind (summary_nodes m) = true ->
  always_throws (page_tables rec output apiItem).
Proof.
  unfold described_members, container_members, page_tables. cbv zeta.
  intros Hin Hm.
  destruct (kind (self apiItem)) eqn:Hkind; try (now destruct Hin).
  - unfold _writeEnumTables. cbv zeta. apply throws_bind_l.
    apply throws_for_of with (x := m); [exact Hin | ].
    intros t. cbv beta zeta.
    destruct (initializerExcerpt m); [ | apply throws_throw ].
    apply throws_bind_l. now apply throws_description_cell.
  - unfold _writeModelTable. cbv zeta. apply throws_bind_l.
    apply throws_for_of with (x := m); [exact Hin | ].
    intros t. cbv beta zeta. apply throws_bind_l. now apply throws_description_cell.
  - unfold _writePackageOrNamespaceTables. rewrite Hkind. cbv zeta. apply throws_bind_l.
    apply throws_for_of with (x := m); [exact Hin | ].
    intros t. now apply throws_container_description.
  - unfold _writePackageOrNamespaceTables. rewrite Hkind. cbv zeta. apply throws_bind_l.
    destruct (members (self apiItem)) as [|entryPoint rest]; [apply throws_throw | ].
    apply throws_for_of with (x := m); [exact Hin | ].
    intros t. now apply throws_container_description.
Qed.

Lemma throws_page_of_tables (apiItem : ApiItem) :
  (forall output, always_throws (page_tables rec output apiItem)) ->
  always_throws (page this rec apiItem).
Proof.
  intros H. unfold page. cbv zeta.
  apply throws_bind_k. intros out1. apply throws_bind_k. intros out2.
  apply throws_bind_k. intros [out3 appendRemarks]. apply throws_bind_l, H.
Qed.

Lemma throws_page_self (apiItem : ApiItem) :
  cannot_be_rendered apiItem = true -> always_throws (page this rec apiItem).
Proof.
  unfold cannot_be_rendered, doc_nodes. rewrite !existsb_app.
  intros H. apply orb_true_iff in H as [H | H].
  - unfold page. cbv zeta. apply throws_bind_l. intros w.
    eexists _, w. apply page_heading_throws. now destruct (has_heading _).
  - apply orb_true_iff in H as [H | H]; [ | apply orb_true_iff in H as [H | H] ].
    + unfold page. cbv zeta. apply throws_bind_k. intros out1.
      apply throws_bind_l. now apply throws_summary.
    + unfold page. cbv zeta. apply throws_bind_k. intros out1.
      apply throws_bind_k. intros out2.
      apply throws_bind_r. intros w [out3 appendRemarks] w' Hearly.
      assert (Hlate : appendRemarks = true).
      { unfold page_early_remarks in Hearly.
        destruct (kind (self apiItem));
          try (now injection Hearly as _ <- _);
          destruct (throws_bind_l _ (fun output => ret (output, false))
                      (throws_remarks out2 apiItem H) w) as (e & w0 & Hthrown);
          rewrite Hthrown in Hearly; discriminate Hearly. }
      subst appendRemarks.
      refine (throws_bind_k _ _ _ w'). intros out4.
      apply throws_bind_l. now apply throws_remarks.
    + apply existsb_flat_map in H as (m & Hin & Hm).
      apply throws_page_of_tables. intros output.
      now apply throws_tables_described with (m := m).
Qed.

End Members.

Lemma ApiItemKind_is_package (k : ApiItemKind.t) :
  k = ApiItemKind.Package \/ k <> ApiItemKind.Package.
Proof. destruct k; try (right; discriminate). now left. Qed.

Lemma throws_writeApiItemPage (this : HtmlDocumenter) (node : ApiNode) :
  (forall above apiItem,
      In apiItem (pages_from above node) -> cannot_be_rendered apiItem = true ->
      always_throws (_writeApiItemPage this (mkApiItem above node)))
  /\ Forall (fun member =>
               forall above apiItem,
                 In apiItem (pages_from above member) -> cannot_be_rendered apiItem = true ->
                 always_throws (_writeApiItemPage this (mkApiItem above member)))
       (members node).
Proof.
  induction node as [node IH] using ApiNode_nested_ind.
  assert (Hmembers : Forall (fun member =>
               forall above apiItem,
                 In apiItem (pages_from above member) -> cannot_be_rendered apiItem = true ->
                 always_throws (_writeApiItemPage this (mkApiItem above member)))
            (members node)).
  { apply Forall_forall. intros m Hm.
    rewrite Forall_forall in IH. exact (proj1 (IH m Hm)). }
  split; [ | exact Hmembers ].
  intros above apiItem Hin Hbad. rewrite writeApiItemPage_unfold.
  change (pages_from above node) with (pages_of (mkApiItem above node)) in Hin.
  rewrite pages_of_unfold in Hin. apply in_app_or in Hin as [Hin | [<- | []]];
    [ | now apply throws_page_self ].
  apply throws_page_of_tables. intros output.
  unfold table_pages in Hin. simpl self in Hin. simpl ancestors in Hin.
  destruct (ApiItemKind_is_package (kind node)) as [Hkind | Hkind].
  - rewrite Hkind in Hin.
    destruct (members node) as [|entryPoint rest] eqn:Hms; [destruct Hin | ].
    unfold member_pages in Hin. apply in_flat_map in Hin as (m & Hm & Hin).
    destruct (gets_page ApiItemKind.Package (kind m)) eqn:Hk; [ | destruct Hin ].
    apply throws_tables_package with (entryPoint := entryPoint) (rest := rest) (m := m);
      try assumption.
    rewrite Forall_forall in IH.
    assert (He : In entryPoint (entryPoint :: rest)) by now left.
    pose proof (proj2 (IH entryPoint He)) as Hgrand.
    rewrite Forall_forall in Hgrand. exact (Hgrand m Hm _ _ Hin Hbad).
  - assert (Hin' : In apiItem (member_pages (kind node) (mkApiItem above node) (members node))).
    { destruct (kind node); try exact Hin. now elim Hkind. }
    unfold member_pages in Hin'. apply in_flat_map in Hin' as (m & Hm & Hin').
    destruct (gets_page (kind node) (kind m)) eqn:Hk; [ | destruct Hin' ].
    apply throws_tables_member with (m := m); try assumption.
    rewrite Forall_forall in Hmembers. exact (Hmembers m Hm _ _ Hin' Hbad).
Qed.

Lemma throws_generateFiles {pluginLoader : PluginLoader} (apiModel : ApiItem)
    (documenterConfig : option DocumenterConfig) (outputFolder : string) (apiItem : ApiItem) :
  In apiItem (pages_of apiModel) -> cannot_be_rendered apiItem = true ->
  always_throws (generateFiles apiModel documenterConfig outputFolder).
Proof.
  intros Hin Hbad w. rewrite generateFiles_steps.
  destruct (load_feature _ w) as [feature w1|e w1]; [ | now exists e, w1 ].
  destruct apiModel as [above node].
  destruct (proj1 (throws_writeApiItemPage
                     (mkHtmlDocumenter (mkApiItem above node) documenterConfig outputFolder)
                     node) above apiItem Hin Hbad (cleared outputFolder w1))
    as (e & w2 & Hthrown).
  rewrite Hthrown. now exists e, w2.
Qed.

Lemma pages_have_headings (container member : ApiItemKind.t) :
  gets_page container member = true -> has_heading member = true.
Proof. destruct container, member; simpl; intros H; try discriminate H; reflexivity. Qed.

(** C7, amended: page generation called on an item whose kind has no
    heading throws before anything is written; rendering a sequence that
    holds a doc node of a kind without rule throws, and so does the page of
    an item whose summary holds one.  Nothing catches a throw: when the
    pages of a run include an item whose kind has no heading, or one whose
    summary, remarks or described members hold such a doc node, page
    generation throws and so does the run, whatever the configuration and
    the plug-ins.  The member loops call page generation only for the kinds
    they list, all of which have a heading: a member of a class or an
    interface whose kind has no heading is passed over without any effect,
    and for such a member of a namespace or package only the description
    cell is rendered, and dropped. *)
Theorem unsupported_kinds_throw (this : HtmlDocumenter) :
  (forall (apiItem : ApiItem) (w : World),
      has_heading (kind (self apiItem)) = false ->
      _writeApiItemPage this apiItem w
      = Thrown ("Unsupported API item kind: " ++ kind_name (kind (self apiItem)))%string w)
  /\ (forall (nodes : list DocNode) (w : World),
      existsb has_unsupported_kind nodes = true ->
      exists e w', _createDocNodes nodes w = Thrown e w')
  /\ (forall (apiItem : ApiItem) (comment : DocComment) (w : World),
      tsdocComment (self apiItem) = Some (Some comment) ->
      existsb has_unsupported_kind (summarySection comment) = true ->
      exists e w', _writeApiItemPage this apiItem w = Thrown e w')
  /\ (forall (A B : Type) (m : M A) (k : A -> M B) (w w' : World) (e : string),
      m w = Thrown e w' -> bind m k w = Thrown e w')
  /\ (forall (rec : ApiItem -> M unit) (parent : ApiItem) (member : ApiNode) (w : World),
      has_heading (kind member) = false ->
      (forall t, class_member rec parent t member w = Returned t w)
      /\ (forall t, interface_member rec parent t member w = Returned t w)
      /\ (forall t, container_member rec parent t member w
                    = bind (_createDescriptionCell (member_item parent member))
                        (fun _ => ret t) w))
  /\ (forall (apiItem root : ApiItem) (w : World),
      In apiItem (pages_of root) -> cannot_be_rendered apiItem = true ->
      exists e w', _writeApiItemPage this root w = Thrown e w')
  /\ (forall (pluginLoader : PluginLoader) (apiModel : ApiItem)
             (documenterConfig : option DocumenterConfig) (outputFolder : string)
             (apiItem : ApiItem) (w : World),
      In apiItem (pages_of apiModel) -> cannot_be_rendered apiItem = true ->
      exists e w', generateFiles apiModel documenterConfig outputFolder w = Thrown e w')
  /\ (forall container member : ApiItemKind.t,
      gets_page container member = true -> has_heading member = true).
Proof.
  split; [ | split; [ | split; [ | split; [ | split; [ | split; [ | split ] ] ] ] ] ].
  - intros apiItem w Hk. rewrite writeApiItemPage_unfold. unfold page.
    apply bind_thrown. now apply page_heading_throws.
  - intros nodes w. apply createDocNodes_throws.
  - intros apiItem comment w Hc Hu. rewrite writeApiItemPage_unfold. unfold page.
    destruct (has_heading (kind (self apiItem))) eqn:Hk.
    + destruct (page_heading_returns (_writeBreadcrumb this [] apiItem) apiItem w Hk)
        as (out & w1 & Hh).
      destruct (page_summary_throws out apiItem comment w1 Hc Hu) as (e & w' & Hs).
      exists e, w'. rewrite (bind_returned _ _ _ _ _ Hh). now apply bind_thrown.
    + eexists _, w. apply bind_thrown. now apply page_heading_throws.
  - intros A B m k w w' e. apply bind_thrown.
  - intros rec parent member w Hk.
    unfold class_member, interface_member, container_member.
    destruct (kind member); try discriminate Hk; repeat split.
  - intros apiItem [above node] w Hin Hbad.
    exact (proj1 (throws_writeApiItemPage this node) above apiItem Hin Hbad w).
  - intros pluginLoader apiModel documenterConfig outputFolder apiItem w Hin Hbad.
    exact (throws_generateFiles apiModel documenterConfig outputFolder apiItem Hin Hbad w).
  - apply pages_have_headings.
Qed.

End Aborts.


(* ===================================================================== *)
(** ** The layout of a page *)
(* ===================================================================== *)

Section PageLayout.
Import HtmlEmitter HtmlDocumenter Vocabulary Coverage.
Context {collaborators : Collaborators}.

Lemma only_appends_ret (output suffix : list HtmlNode) :
  only_appends output (ret (output ++ suffix)).
Proof. intros w out w' [= <- _]. now exists suffix. Qed.

Lemma push_sections_append (output : list HtmlNode) (out : list HtmlNode) :
  (exists suffix, out = output ++ suffix) ->
  forall k heading t, exists suffix, push_section k heading t out = output ++ suffix.
Proof.
  intros (suffix & ->) k heading t. rewrite push_section_app, <- app_assoc. eauto.
Qed.

Lemma remarks_only_append (output : list HtmlNode) (apiItem : ApiItem) :
  only_appends output (_writeRemarksSection output apiItem).
Proof.
  intros w out w'. unfold _writeRemarksSection.
  destruct (tsdocComment (self apiItem)) as [[comment|]|];
    try (intros [= <- _]; exists []; now rewrite app_nil_r).
  destruct (remarksBlock comment);
    [ | intros [= <- _]; exists []; now rewrite app_nil_r ].
  unfold bind, ret. destruct (_createDocNodes l w); [ | discriminate ].
  intros [= <- _]. rewrite <- app_assoc. eauto.
Qed.

Lemma summary_only_appends (output : list HtmlNode) (apiItem : ApiItem) :
  only_appends output (page_summary output apiItem).
Proof.
  intros w out w'. unfold page_summary, _writeBetaWarning, bind, ret.
  assert (H0 : (match releaseTag (self apiItem) with
                | Some ReleaseBeta => output
                | _ => output
                end) = output).
  { destruct (releaseTag (self apiItem)) as [[| | | |]|]; reflexivity. }
  rewrite H0. clear H0.
  destruct (tsdocComment (self apiItem)) as [[comment|]|].
  - destruct (_createDocNodes (summarySection comment) w); [ | discriminate ].
    destruct (declaredItem (self apiItem)) as [declared|];
      [destruct (0 <? String.length (excerpt declared))%nat | ];
      intros [= <- _]; rewrite <- ?app_assoc; eauto.
  - destruct (declaredItem (self apiItem)) as [declared|];
      [destruct (0 <? String.length (excerpt declared))%nat | ];
      intros [= <- _]; rewrite <- ?app_assoc; eauto.
    + exists []. now rewrite app_nil_r.
    + exists []. now rewrite app_nil_r.
  - destruct (declaredItem (self apiItem)) as [declared|];
      [destruct (0 <? String.length (excerpt declared))%nat | ];
      intros [= <- _]; rewrite <- ?app_assoc; eauto.
    + exists []. now rewrite app_nil_r.
    + exists []. now rewrite app_nil_r.
Qed.

Lemma tables_only_append (rec : ApiItem -> M unit) (output : list HtmlNode)
    (apiItem : ApiItem) :
  only_appends output (page_tables rec output apiItem).
Proof.
  assert (Hself : exists suffix, output = output ++ suffix)
    by (exists []; now rewrite app_nil_r).
  intros w out w'. unfold page_tables. cbv zeta.
  destruct (kind (self apiItem));
    try discriminate; try (intros [= <- _]; exact Hself).
  - unfold _writeClassTables, bind, ret.
    destruct (for_of _ _ _ w); [ | discriminate ]. intros [= <- _].
    repeat apply push_sections_append. exact Hself.
  - unfold _writeParameterTables, _writeThrowsSection.
    destruct (parameterList (self apiItem)); [ | discriminate ]. intros [= <- _].
    apply push_sections_append. exact Hself.
  - unfold _writeParameterTables, _writeThrowsSection.
    destruct (parameterList (self apiItem)); [ | discriminate ]. intros [= <- _].
    apply push_sections_append. exact Hself.
  - unfold _writeEnumTables, bind, ret.
    destruct (for_of _ _ _ w); [ | discriminate ]. intros [= <- _].
    apply push_sections_append. exact Hself.
  - unfold _writeParameterTables, _writeThrowsSection.
    destruct (parameterList (self apiItem)); [ | discriminate ]. intros [= <- _].
    apply push_sections_append. exact Hself.
  - unfold _writeInterfaceTables, bind, ret.
    destruct (for_of _ _ _ w); [ | discriminate ]. intros [= <- _].
    repeat apply push_sections_append. exact Hself.
  - unfold _writeParameterTables, _writeThrowsSection.
    destruct (parameterList (self apiItem)); [ | discriminate ]. intros [= <- _].
    apply push_sections_append. exact Hself.
  - unfold _writeParameterTables, _writeThrowsSection.
    destruct (parameterList (self apiItem)); [ | discriminate ]. intros [= <- _].
    apply push_sections_append. exact Hself.
  - unfold _writeModelTable, bind, ret.
    destruct (for_of _ _ _ w); [ | discriminate ]. intros [= <- _].
    apply push_sections_append. exact Hself.
  - unfold _writePackageOrNamespaceTables, bind, ret. cbv zeta.
    match goal with
    | |- match ?loop with _ => _ end = _ -> _ => destruct loop; [ | discriminate ]
    end.
    intros [= <- _]. repeat apply push_sections_append. exact Hself.
  - unfold _writePackageOrNamespaceTables, bind, ret. cbv zeta.
    match goal with
    | |- match ?loop with _ => _ end = _ -> _ => destruct loop; [ | discriminate ]
    end.
    intros [= <- _]. repeat apply push_sections_append. exact Hself.
Qed.

Lemma heading_is_one_h1 (output : list HtmlNode) (apiItem : ApiItem) (w w' : World)
    (out : list HtmlNode) :
  page_heading output apiItem w = Returned out w' ->
  exists text : string, out = output ++ [tag "h1" (Tag3s "page-header" text)].
Proof.
  unfold page_heading, bind, ret, console_log.
  destruct (kind (self apiItem)); try discriminate; intros [= <- _]; eauto.
Qed.

Lemma page_layout (this : HtmlDocumenter)
    (rec : ApiItem -> M unit) (apiItem : ApiItem) (w w' : World) :
  page this rec apiItem w = Returned tt w' ->
  exists (before : list (string * FileContent)) (text : string) (rest : list HtmlNode),
    files w'
    = before
        ++ [ (path_join (_outputFolder this) (_getFilenameForApiItem apiItem),
              Written
                (emit ["styles.css"]
                   [ tag "header" (Tag2b [
                       tag "div" (Tag3b "header-top" [
                         a "" "https://developers.symphony.com/" (Some "header-logo")
                       ]);
                       tag "div" (Tag3b "header-bottom" [])
                     ]);
                     BlockHtmlNode "div" (Some [("class", "main")])
                       (_writeBreadcrumb this [] apiItem
                          ++ tag "h1" (Tag3s "page-header" text) :: rest) ])
                match _documenterConfig this with
                | Some config => newlineKind config
                | None => CrLf
                end) ].
Proof.
  unfold page. cbv zeta. unfold bind at 1.
  destruct (page_heading _ apiItem w) as [out1 w1|] eqn:H1; [ | discriminate ].
  apply heading_is_one_h1 in H1 as (text & ->).
  unfold bind at 1.
  destruct (page_summary _ apiItem w1) as [out2 w2|] eqn:H2; [ | discriminate ].
  apply summary_only_appends in H2 as (s2 & ->).
  unfold bind at 1.
  destruct (page_early_remarks _ apiItem w2) as [[out3 appendRemarks] w3|] eqn:H3;
    [ | discriminate ].
  assert (E3 : exists s3, out3 = (_writeBreadcrumb this [] apiItem
                                    ++ [tag "h1" (Tag3s "page-header" text)]) ++ s3).
  { unfold page_early_remarks, bind, ret in H3.
    destruct (kind (self apiItem));
      try solve [injection H3 as <- _ _; now exists s2];
      (destruct (_writeRemarksSection _ apiItem w2) as [o wr|] eqn:Hr; [ | discriminate H3 ];
       apply remarks_only_append in Hr as (sr & ->);
       injection H3 as <- _ _; exists (s2 ++ sr); now rewrite <- !app_assoc). }
  destruct E3 as (s3 & ->). clear H3.
  unfold bind at 1.
  match goal with
  | |- context [page_tables rec ?o apiItem w3] =>
      destruct (page_tables rec o apiItem w3) as [out4 w4|] eqn:H4; [ | discriminate ]
  end.
  apply tables_only_append in H4 as (s4 & ->).
  unfold bind at 1.
  match goal with
  | |- match ?m w4 with _ => _ end = _ -> _ =>
      destruct (m w4) as [out5 w5|] eqn:H5; [ | discriminate ]
  end.
  assert (E5 : exists s5, out5 = (_writeBreadcrumb this [] apiItem
                                    ++ [tag "h1" (Tag3s "page-header" text)]) ++ s5).
  { destruct appendRemarks.
    - apply remarks_only_append in H5 as (s5 & ->).
      exists ((s3 ++ s4) ++ s5). now rewrite <- !app_assoc.
    - injection H5 as <- _. exists (s3 ++ s4). now rewrite <- !app_assoc. }
  destruct E5 as (s5 & ->). clear H5.
  unfold page_write, writeFile. intros [= <-]. simpl files.
  exists (files w5), text, s5. rewrite <- app_assoc. reflexivity.
Qed.

(** X20: the layout of a page.  When [_writeApiItemPage] returns, the last
    file written is the page of the item: the document with the one
    stylesheet [styles.css], the fixed header, and the main block, which
    starts with the breadcrumb of the item followed by the one [h1]
    heading; whatever summary, tables and remarks add comes after. *)
Theorem page_starts_with_breadcrumb_and_heading (this : HtmlDocumenter)
    (apiItem : ApiItem) (w w' : World) :
  _writeApiItemPage this apiItem w = Returned tt w' ->
  exists (before : list (string * FileContent)) (text : string) (rest : list HtmlNode),
    files w'
    = before
        ++ [ (path_join (_outputFolder this) (_getFilenameForApiItem apiItem),
              Written
                (emit ["styles.css"]
                   [ tag "header" (Tag2b [
                       tag "div" (Tag3b "header-top" [
                         a "" "https://developers.symphony.com/" (Some "header-logo")
                       ]);
                       tag "div" (Tag3b "header-bottom" [])
                     ]);
                     BlockHtmlNode "div" (Some [("class", "main")])
                       (_writeBreadcrumb this [] apiItem
                          ++ tag "h1" (Tag3s "page-header" text) :: rest) ])
                match _documenterConfig this with
                | Some config => newlineKind config
                | None => CrLf
                end) ].
Proof.
  rewrite writeApiItemPage_unfold. apply page_layout.
Qed.

(** X21: the cells of a property row.  The Type cell of a property item
    shows the type text in a [code] of class [type]; when the type text is
    empty it shows the word [type] and has no class.  The Modifiers cell of
    a static item is the [code] of class [modifiers] with the text
    [static]. *)
Theorem property_cells (apiItem : ApiItem) :
  (forall property : ApiPropertyItem,
      propertyItem (self apiItem) = Some property ->
      _createPropertyTypeCell apiItem
      = if (propertyTypeExcerpt property =? "")%string
        then TextHtmlNode "code" None "type"
        else TextHtmlNode "code" (Some [("class", "type")]) (propertyTypeExcerpt property))
  /\ (isStatic (self apiItem) = Some true ->
      _createModifiersCell apiItem
      = TextHtmlNode "code" (Some [("class", "modifiers")]) "static").
Proof.
  split.
  - intros property Hp. unfold _createPropertyTypeCell. rewrite Hp.
    unfold tag, _tag. simpl. unfold truthy_string.
    now destruct (propertyTypeExcerpt property =? "")%string.
  - intros Hs. unfold _createModifiersCell. now rewrite Hs.
Qed.

End PageLayout.

(* ===================================================================== *)
(** ** The page of a function-like item *)
(* ===================================================================== *)

Section FunctionPages.
Import HtmlEmitter HtmlDocumenter Vocabulary Coverage.
Context {collaborators : Collaborators}.

Lemma section_node_tag (type : string) (args : TagArgs) :
  is_section_node (tag type args) = ((type =? "h3") || (type =? "table"))%string.
Proof.
  unfold is_section_node, tag.
  destruct (truthy (arg2 args)); unfold _tag;
    [destruct (arg2 args) | destruct (arg1 args)]; reflexivity.
Qed.

Ltac no_section_nodes :=
  repeat (apply Forall_cons; [first [reflexivity | rewrite section_node_tag; reflexivity] | ]);
  apply Forall_nil.

Ltac appended_without_sections :=
  intros [= <- _]; rewrite <- ?app_assoc;
  first [ eexists; split; [reflexivity | no_section_nodes]
        | exists []; split; [now rewrite app_nil_r | constructor] ].

Lemma flat_map_without_sections {A : Type} (f : A -> list HtmlNode) (l : list A) :
  (forall x, Forall (fun n => is_section_node n = false) (f x)) ->
  Forall (fun n => is_section_node n = false) (flat_map f l).
Proof.
  intros H. induction l as [|x l IH]; simpl; [constructor | ].
  apply Forall_app. now split.
Qed.

Lemma breadcrumb_without_sections (this : HtmlDocumenter) (apiItem : ApiItem) :
  Forall (fun n => is_section_node n = false) (_writeBreadcrumb this [] apiItem).
Proof.
  unfold _writeBreadcrumb. cbv zeta. rewrite fold_breadcrumb.
  apply Forall_app. split; [no_section_nodes | ].
  apply flat_map_without_sections. intros h. no_section_nodes.
Qed.

Lemma summary_appends_without_sections (output : list HtmlNode) (apiItem : ApiItem)
    (w w' : World) (out : list HtmlNode) :
  page_summary output apiItem w = Returned out w' ->
  exists suffix,
    out = output ++ suffix /\ Forall (fun n => is_section_node n = false) suffix.
Proof.
  unfold page_summary, _writeBetaWarning, bind, ret.
  assert (H0 : (match releaseTag (self apiItem) with
                | Some ReleaseBeta => output
                | _ => output
                end) = output).
  { destruct (releaseTag (self apiItem)) as [[| | | |]|]; reflexivity. }
  rewrite H0. clear H0.
  destruct (tsdocComment (self apiItem)) as [[comment|]|];
    [destruct (_createDocNodes (summarySection comment) w); [ | discriminate ] | | ];
    (destruct (declaredItem (self apiItem)) as [declared|];
     [destruct (0 <? String.length (excerpt declared))%nat | ]);
    appended_without_sections.
Qed.

Lemma remarks_append_without_sections (output : list HtmlNode) (apiItem : ApiItem)
    (w w' : World) (out : list HtmlNode) :
  _writeRemarksSection output apiItem w = Returned out w' ->
  exists suffix,
    out = output ++ suffix /\ Forall (fun n => is_section_node n = false) suffix.
Proof.
  unfold _writeRemarksSection.
  destruct (tsdocComment (self apiItem)) as [[comment|]|];
    try appended_without_sections.
  destruct (remarksBlock comment) as [content|]; [ | appended_without_sections ].
  unfold bind, ret. destruct (_createDocNodes content w); [ | discriminate ].
  appended_without_sections.
Qed.

Lemma parameter_tables_append (output : list HtmlNode) (mixin : ApiParameterListMixin) :
  _writeParameterTables output mixin = output ++ _writeParameterTables [] mixin.
Proof. unfold _writeParameterTables. apply push_section_app. Qed.

Lemma function_like_early_remarks (output : list HtmlNode) (apiItem : ApiItem) (w : World) :
  is_function_like (kind (self apiItem)) = true ->
  page_early_remarks output apiItem w = Returned (output, true) w.
Proof.
  intros Hk. unfold page_early_remarks.
  destruct (kind (self apiItem)); try discriminate Hk; reflexivity.
Qed.

Lemma function_like_tables (rec : ApiItem -> M unit) (output : list HtmlNode)
    (apiItem : ApiItem) (mixin : ApiParameterListMixin) (w : World) :
  is_function_like (kind (self apiItem)) = true ->
  parameterList (self apiItem) = Some mixin ->
  page_tables rec output apiItem w = Returned (_writeParameterTables output mixin) w.
Proof.
  intros Hk Hm. unfold page_tables. rewrite Hm.
  destruct (kind (self apiItem)); try discriminate Hk; reflexivity.
Qed.

Lemma function_page_layout (this : HtmlDocumenter) (rec : ApiItem -> M unit)
    (apiItem : ApiItem) (mixin : ApiParameterListMixin) (w w' : World) :
  is_function_like (kind (self apiItem)) = true ->
  parameterList (self apiItem) = Some mixin ->
  page this rec apiItem w = Returned tt w' ->
  exists (before : list (string * FileContent)) (front remarks : list HtmlNode),
    files w'
    = before
        ++ [page_file this apiItem (front ++ _writeParameterTables [] mixin ++ remarks)]
    /\ Forall (fun n => is_section_node n = false) front
    /\ Forall (fun n => is_section_node n = false) remarks.
Proof.
  intros Hk Hm. unfold page. cbv zeta. unfold bind at 1.
  destruct (page_heading _ apiItem w) as [out1 w1|] eqn:H1; [ | discriminate ].
  apply heading_is_one_h1 in H1 as (text & ->).
  unfold bind at 1.
  destruct (page_summary _ apiItem w1) as [out2 w2|] eqn:H2; [ | discriminate ].
  apply summary_appends_without_sections in H2 as (s2 & -> & Hs2).
  unfold bind at 1. rewrite (function_like_early_remarks _ _ _ Hk).
  unfold bind at 1. rewrite (function_like_tables rec _ _ _ _ Hk Hm).
  unfold bind at 1.
  match goal with
  | |- match ?m w2 with _ => _ end = _ -> _ =>
      destruct (m w2) as [out5 w5|] eqn:H5; [ | discriminate ]
  end.
  apply remarks_append_without_sections in H5 as (s5 & -> & Hs5).
  unfold page_write, writeFile. intros [= <-]. simpl files.
  exists (files w5),
    ((_writeBreadcrumb this [] apiItem ++ [tag "h1" (Tag3s "page-header" text)]) ++ s2), s5.
  split; [ | split; [ | exact Hs5 ] ].
  - unfold page_file. rewrite parameter_tables_append, <- !app_assoc. reflexivity.
  - apply Forall_app. split; [ | exact Hs2 ].
    apply Forall_app. split; [apply breadcrumb_without_sections | no_section_nodes].
Qed.

Lemma function_like_is_a_leaf (k : ApiItemKind.t) :
  is_function_like k = true -> has_member_pages k = false.
Proof. destruct k; try discriminate; reflexivity. Qed.

Lemma function_page_is_one_file (this : HtmlDocumenter) (apiItem : ApiItem)
    (mixin : ApiParameterListMixin) (w w' : World) :
  is_function_like (kind (self apiItem)) = true ->
  parameterList (self apiItem) = Some mixin ->
  _writeApiItemPage this apiItem w = Returned tt w' ->
  exists front remarks : list HtmlNode,
    files w'
    = files w
        ++ [page_file this apiItem (front ++ _writeParameterTables [] mixin ++ remarks)]
    /\ Forall (fun n => is_section_node n = false) front
    /\ Forall (fun n => is_section_node n = false) remarks.
Proof.
  intros Hk Hm Hrun.
  pose proof (proj1 (page_generation_lemma this apiItem w)) as Hfiles.
  rewrite Hrun, (no_table_pages _ (function_like_is_a_leaf _ Hk)) in Hfiles.
  destruct Hfiles as (new & Hnew & Hp).
  inversion Hp as [|x0 entry l l' Hentry Hrest]; subst. inversion Hrest; subst.
  rewrite writeApiItemPage_unfold in Hrun.
  destruct (function_page_layout _ _ _ _ _ _ Hk Hm Hrun)
    as (before & front & remarks & Hlayout & Hfront & Hremarks).
  rewrite Hlayout in Hnew. apply app_inj_tail in Hnew as [-> _].
  now exists front, remarks.
Qed.

Lemma summary_returns (output : list HtmlNode) (apiItem : ApiItem) (w : World) :
  existsb has_unsupported_kind (summary_nodes (self apiItem)) = false ->
  exists out w', page_summary output apiItem w = Returned out w'.
Proof.
  unfold summary_nodes, page_summary, bind, ret. intros Hs.
  destruct (tsdocComment (self apiItem)) as [[comment|]|].
  - destruct (createDocNodes_returns _ w Hs) as (r & w1 & ->).
    destruct (declaredItem (self apiItem)) as [declared|];
      [destruct (0 <? String.length (excerpt declared))%nat | ]; eauto.
  - destruct (declaredItem (self apiItem)) as [declared|];
      [destruct (0 <? String.length (excerpt declared))%nat | ]; eauto.
  - destruct (declaredItem (self apiItem)) as [declared|];
      [destruct (0 <? String.length (excerpt declared))%nat | ]; eauto.
Qed.

Lemma remarks_return (output : list HtmlNode) (apiItem : ApiItem) (w : World) :
  existsb has_unsupported_kind (remarks_nodes (self apiItem)) = false ->
  exists out w', _writeRemarksSection output apiItem w = Returned out w'.
Proof.
  unfold remarks_nodes, _writeRemarksSection, bind, ret. intros Hr.
  destruct (tsdocComment (self apiItem)) as [[comment|]|]; eauto.
  destruct (remarksBlock comment) as [content|]; eauto.
  destruct (createDocNodes_returns _ w Hr) as (r & w1 & ->). eauto.
Qed.

Lemma function_like_has_heading (k : ApiItemKind.t) :
  is_function_like k = true -> has_heading k = true.
Proof. destruct k; try discriminate; reflexivity. Qed.

Lemma function_page_returns (this : HtmlDocumenter) (apiItem : ApiItem)
    (mixin : ApiParameterListMixin) (w : World) :
  is_function_like (kind (self apiItem)) = true ->
  parameterList (self apiItem) = Some mixin ->
  existsb has_unsupported_kind
    (summary_nodes (self apiItem) ++ remarks_nodes (self apiItem)) = false ->
  exists w', _writeApiItemPage this apiItem w = Returned tt w'.
Proof.
  intros Hk Hm Hnodes. rewrite existsb_app in Hnodes.
  apply orb_false_iff in Hnodes as [Hs Hr].
  rewrite writeApiItemPage_unfold. unfold page. cbv zeta.
  destruct (page_heading_returns (_writeBreadcrumb this [] apiItem) apiItem w
              (function_like_has_heading _ Hk)) as (out1 & w1 & H1).
  unfold bind at 1. rewrite H1.
  destruct (summary_returns out1 apiItem w1 Hs) as (out2 & w2 & H2).
  unfold bind at 1. rewrite H2.
  unfold bind at 1. rewrite (function_like_early_remarks _ _ _ Hk).
  unfold bind at 1. rewrite (function_like_tables _ _ _ _ _ Hk Hm).
  destruct (remarks_return (_writeParameterTables out2 mixin) apiItem w2 Hr)
    as (out5 & w5 & H5).
  unfold bind at 1. rewrite H5.
  unfold page_write, writeFile. eauto.
Qed.

(** C6, amended: the page of a function-like item with a parameter list is
    one file, whose main block holds, after the breadcrumb, the heading,
    the summary and the signature and before the remarks, what
    [_writeParameterTables] pushes, and no other section heading or table.
    For a parameter list that is not empty that is the Parameters heading
    and the table whose heading row begins with Parameter, Type and whose
    further rows are, in order, one per parameter with two cells, its name
    and its type text; for an empty parameter list it is nothing.  The page
    is written whenever the summary and the remarks hold no doc node of an
    unsupported kind.  [x: number] gives the one row [x | number]. *)
Theorem parameters_table_shape :
  (forall (output : list HtmlNode) (mixin : ApiParameterListMixin),
      parameters mixin <> [] ->
      exists more : list string,
        _writeParameterTables output mixin
        = output
            ++ [ tag "h3" (Tag3s "section-heading" "Parameters");
                 BlockHtmlNode "table" None
                   (block_content (table ("Parameter" :: "Type" :: more))
                      ++ map parameter_row (parameters mixin)) ])
  /\ (forall (output : list HtmlNode) (mixin : ApiParameterListMixin),
      parameters mixin = [] -> _writeParameterTables output mixin = output)
  /\ (forall (this : HtmlDocumenter) (apiItem : ApiItem) (mixin : ApiParameterListMixin)
             (w w' : World),
      is_function_like (kind (self apiItem)) = true ->
      parameterList (self apiItem) = Some mixin ->
      _writeApiItemPage this apiItem w = Returned tt w' ->
      exists front remarks : list HtmlNode,
        files w'
        = files w
            ++ [page_file this apiItem (front ++ _writeParameterTables [] mixin ++ remarks)]
        /\ Forall (fun n => is_section_node n = false) front
        /\ Forall (fun n => is_section_node n = false) remarks)
  /\ (forall (this : HtmlDocumenter) (apiItem : ApiItem) (mixin : ApiParameterListMixin)
             (w : World),
      is_function_like (kind (self apiItem)) = true ->
      parameterList (self apiItem) = Some mixin ->
      existsb has_unsupported_kind
        (summary_nodes (self apiItem) ++ remarks_nodes (self apiItem)) = false ->
      exists w', _writeApiItemPage this apiItem w = Returned tt w')
  /\ (exists thead : HtmlNode,
      _writeParameterTables [] (mkApiParameterListMixin 1 [mkApiParameter "x" "number"])
      = [ TextHtmlNode "h3" (Some [("class", "section-heading")]) "Parameters";
          BlockHtmlNode "table" None
            [ thead;
              BlockHtmlNode "tr" None
                [ TextHtmlNode "td" None "x"; TextHtmlNode "td" None "number" ] ] ]).
Proof.
  split; [ | split; [ | split; [ | split ] ] ].
  - intros output mixin Hp. exists ["Description"]. unfold _writeParameterTables.
    change (table ["Parameter"; "Type"; "Description"])
      with (BlockHtmlNode "table" None
              (block_content (table ["Parameter"; "Type"; "Description"]))).
    rewrite (fold_content_push parameter_row).
    unfold push_section, content_length. simpl block_content.
    destruct (parameters mixin) as [|p ps]; [now elim Hp | ].
    simpl. now rewrite <- app_assoc.
  - intros output mixin Hp. unfold _writeParameterTables. rewrite Hp. reflexivity.
  - apply function_page_is_one_file.
  - apply function_page_returns.
  - eexists. reflexivity.
Qed.

End FunctionPages.

Section FunctionPageExamples.
Import HtmlEmitter HtmlDocumenter Vocabulary Coverage.

(** C6, the claim as stated, fails: [function foo()] is function-like and
    has no parameters, and the page written for it holds the breadcrumb and
    the heading and nothing else: no Parameters heading, no table. *)
Lemma parameters_table_can_be_absent :
  is_function_like (kind (self (Examples.foo_item 1))) = true
  /\ parameterList (self (Examples.foo_item 1)) = Some (mkApiParameterListMixin 1 [])
  /\ (forall (collaborators : Collaborators) (this : HtmlDocumenter) (w : World),
      _writeApiItemPage this (Examples.foo_item 1) w
      = Returned tt
          (mkWorld (console w)
             (files w
                ++ [ page_file this (Examples.foo_item 1)
                       (_writeBreadcrumb this [] (Examples.foo_item 1)
                          ++ [ tag "h1"
                                 (Tag3s "page-header"
                                    (getScopedNameWithinPackage (Examples.foo_item 1)
                                       ++ " function")) ]) ]))
      /\ Forall (fun n => is_section_node n = false)
           (_writeBreadcrumb this [] (Examples.foo_item 1)
              ++ [ tag "h1"
                     (Tag3s "page-header"
                        (getScopedNameWithinPackage (Examples.foo_item 1) ++ " function")) ])).
Proof.
  split; [reflexivity | split; [reflexivity | ] ].
  intros c this w. split.
  - rewrite writeApiItemPage_unfold. cbv [page bind ret]. cbn. reflexivity.
  - apply Forall_app. split; [apply breadcrumb_without_sections | ].
    apply Forall_cons; [rewrite section_node_tag; reflexivity | apply Forall_nil].
Qed.

End FunctionPageExamples.


(* ===================================================================== *)
(** ** The further theorems at concrete inputs *)
(* ===================================================================== *)

Section MoreWitnesses.
Import HtmlEmitter HtmlDocumenter Vocabulary Coverage.

Lemma tag_with_empty_text_loses_the_class_witness :
  "ref" <> "" /\ "Widget" <> ""
  /\ tag "a" (Tag3s "ref" "Widget") = TextHtmlNode "a" (Some [("class", "ref")]) "Widget"
  /\ tag "div" (Tag3b "ref" []) = BlockHtmlNode "div" (Some [("class", "ref")]) [].
Proof.
  assert (H1 : "ref" <> "") by discriminate.
  assert (H2 : "Widget" <> "") by discriminate.
  refine (conj H1 (conj H2 (conj _ _))).
  - exact (proj1 (proj2 tag_with_empty_text_loses_the_class) "a" "ref" "Widget" H1 H2).
  - exact (proj2 (proj2 tag_with_empty_text_loses_the_class) "div" "ref" [] H1).
Defined.

Lemma entry_point_has_the_filename_of_its_parent_witness :
  kind Examples.deep_entryPoint = ApiItemKind.EntryPoint
  /\ kind Examples.deep_package <> ApiItemKind.Model
  /\ @_getFilenameForApiItem Examples.verbatim
       (mkApiItem ([Examples.deep_model] ++ [Examples.deep_package]) Examples.deep_entryPoint)
     = @_getFilenameForApiItem Examples.verbatim
         (mkApiItem [Examples.deep_model] Examples.deep_package).
Proof.
  assert (Hp : kind Examples.deep_package <> ApiItemKind.Model) by discriminate.
  refine (conj eq_refl (conj Hp _)).
  exact (@entry_point_has_the_filename_of_its_parent Examples.verbatim
           [Examples.deep_model] Examples.deep_package Examples.deep_entryPoint eq_refl Hp).
Defined.

Lemma filename_is_blind_to_the_kind_witness :
  adds_segment (kind Examples.merged_class) = true
  /\ adds_segment (kind Examples.merged_namespace) = true
  /\ displayName Examples.merged_class = displayName Examples.merged_namespace
  /\ parameterList Examples.merged_class = parameterList Examples.merged_namespace
  /\ @_getFilenameForApiItem Examples.verbatim Examples.merged_class_item
     = @_getFilenameForApiItem Examples.verbatim Examples.merged_namespace_item.
Proof.
  refine (conj eq_refl (conj eq_refl (conj eq_refl (conj eq_refl _)))).
  exact (@filename_is_blind_to_the_kind Examples.verbatim
           [Examples.merged_model; Examples.merged_package; Examples.merged_entryPoint]
           Examples.merged_class Examples.merged_namespace eq_refl eq_refl eq_refl eq_refl).
Defined.

Lemma breadcrumb_ends_at_the_page_witness :
  shown_level Examples.deep_method_item = true
  /\ kind Examples.deep_model = ApiItemKind.Model
  /\ (exists before : list HtmlNode,
        @_writeBreadcrumb Examples.verbatim MoreExamples.deep_documenter []
          Examples.deep_method_item
        = before ++ [ tag "span" (Tag3s "breadcrumb" " / ");
                      a "area" "./widgets.Shapes.Circle.area.html" (Some "breadcrumb") ])
  /\ @_writeBreadcrumb Examples.verbatim MoreExamples.deep_documenter []
       MoreExamples.deep_model_item
     = [a "Home" "./index.html" (Some "breadcrumb")].
Proof.
  pose (T := @breadcrumb_ends_at_the_page Examples.verbatim MoreExamples.deep_documenter []).
  refine (conj eq_refl (conj eq_refl (conj _ _))).
  - exact (proj1 (proj2 T) Examples.deep_method_item eq_refl).
  - exact (proj2 (proj2 T) Examples.deep_model eq_refl).
Defined.

Lemma url_link_renders_to_an_anchor_witness :
  "https://example.org" <> ""
  /\ _createDocNodes [DocLinkTag None (Some "https://example.org")] Examples.empty_world
     = Returned [a "https://example.org" "https://example.org" None] Examples.empty_world
  /\ or_else (Some "the site") "https://example.org" = "the site".
Proof.
  assert (Hu : "https://example.org" <> "") by discriminate.
  assert (Ht : "the site" <> "") by discriminate.
  pose (T := url_link_renders_to_an_anchor None "https://example.org" Hu).
  refine (conj Hu (conj _ _)).
  - exact (proj1 T Examples.empty_world).
  - exact (proj2 (proj2 (proj2 T)) "the site" Ht).
Defined.

Lemma first_unsupported_node_is_the_error_witness :
  _createDocNodes [DocLinkTag None None] Examples.empty_world
  = Returned [a "Missing Link" "missing-link" None] (warned Examples.empty_world)
  /\ _createDocNodes ([DocLinkTag None None] ++ DocOther "FencedCode" :: [DocPlainText "x"])
       Examples.empty_world
     = Thrown "Unsupported DocNode kind: FencedCode" (warned Examples.empty_world).
Proof.
  refine (conj eq_refl _).
  exact (first_unsupported_node_is_the_error [DocLinkTag None None] [DocPlainText "x"]
           "FencedCode" Examples.empty_world (warned Examples.empty_world)
           [a "Missing Link" "missing-link" None] eq_refl).
Defined.

Lemma class_tables_shape_witness :
  exists (out : list HtmlNode) (w' : World) (e c p m : HtmlNode),
    @_writeClassTables Examples.verbatim MoreExamples.no_page [] MoreExamples.widget_class_item
      Examples.empty_world
    = Returned out w'
    /\ grown ["Property"; "Modifiers"; "Type"; "Description"] 1 e
    /\ grown ["Constructor"; "Modifiers"; "Description"] 1 c
    /\ grown ["Property"; "Modifiers"; "Type"; "Description"] 1 p
    /\ grown ["Method"; "Modifiers"; "Description"] 2 m
    /\ out = [] ++ section "Events" e ++ section "Constructors" c
                ++ section "Properties" p ++ section "Methods" m.
Proof.
  let r := eval vm_compute in
      (@_writeClassTables Examples.verbatim MoreExamples.no_page []
         MoreExamples.widget_class_item Examples.empty_world) in
  lazymatch r with
  | Returned ?out ?w' =>
      destruct (@class_tables_shape Examples.verbatim MoreExamples.no_page [] out
                  MoreExamples.widget_class_item Examples.empty_world w' eq_refl)
        as (e & c & p & m & H);
      exists out, w', e, c, p, m; split; [reflexivity | exact H]
  end.
Defined.

Lemma interface_tables_shape_witness :
  exists (out : list HtmlNode) (w' : World) (e p m : HtmlNode),
    @_writeInterfaceTables Examples.verbatim MoreExamples.no_page []
      MoreExamples.shape_interface_item Examples.empty_world
    = Returned out w'
    /\ grown ["Property"; "Type"; "Description"] 0 e
    /\ grown ["Property"; "Type"; "Description"] 1 p
    /\ grown ["Method"; "Description"] 2 m
    /\ out = [] ++ [] ++ section "Properties" p ++ section "Methods" m.
Proof.
  let r := eval vm_compute in
      (@_writeInterfaceTables Examples.verbatim MoreExamples.no_page []
         MoreExamples.shape_interface_item Examples.empty_world) in
  lazymatch r with
  | Returned ?out ?w' =>
      destruct (@interface_tables_shape Examples.verbatim MoreExamples.no_page [] out
                  MoreExamples.shape_interface_item Examples.empty_world w' eq_refl)
        as (e & p & m & H);
      exists out, w', e, p, m; split; [reflexivity | exact H]
  end.
Defined.

Lemma container_tables_shape_witness :
  exists (out : list HtmlNode) (w' : World) (n : HtmlNode),
    @_writePackageOrNamespaceTables Examples.verbatim MoreExamples.no_page []
      MoreExamples.deep_package_item Examples.empty_world
    = Returned out w'
    /\ grown ["Namespace"; "Description"] 1 n
    /\ out = section "Namespaces" n.
Proof.
  let r := eval vm_compute in
      (@_writePackageOrNamespaceTables Examples.verbatim MoreExamples.no_page []
         MoreExamples.deep_package_item Examples.empty_world) in
  lazymatch r with
  | Returned ?out ?w' =>
      destruct (@container_tables_shape Examples.verbatim MoreExamples.no_page [] out
                  MoreExamples.deep_package_item Examples.empty_world w' eq_refl)
        as (c & e & f & i & n & v & t & Hc & He & Hf & Hi & Hn & Hv & Ht & H);
      exists out, w', n; split; [reflexivity | split; [exact Hn | exact H] ]
  end.
Defined.

Lemma enum_table_shape_witness :
  exists (out : list HtmlNode) (w' : World) (t : HtmlNode),
    @_writeEnumTables Examples.verbatim [] MoreExamples.color_enum_item Examples.empty_world
    = Returned out w'
    /\ files w' = []
    /\ grown ["Member"; "Value"; "Description"] 2 t
    /\ out = section "Enumeration Members" t.
Proof.
  let r := eval vm_compute in
      (@_writeEnumTables Examples.verbatim [] MoreExamples.color_enum_item
         Examples.empty_world) in
  lazymatch r with
  | Returned ?out ?w' =>
      destruct (@enum_table_shape Examples.verbatim [] out MoreExamples.color_enum_item
                  Examples.empty_world w' eq_refl)
        as (Hinit & Hfiles & t & Hg & H);
      exists out, w', t;
      split; [reflexivity | split; [exact Hfiles | split; [exact Hg | exact H] ] ]
  end.
Defined.

Lemma model_table_shape_witness :
  exists (out : list HtmlNode) (w' : World) (t : HtmlNode),
    @_writeModelTable Examples.verbatim MoreExamples.no_page [] MoreExamples.deep_model_item
      Examples.empty_world
    = Returned out w'
    /\ grown ["Package"; "Description"] 1 t
    /\ out = section "Packages" t.
Proof.
  let r := eval vm_compute in
      (@_writeModelTable Examples.verbatim MoreExamples.no_page []
         MoreExamples.deep_model_item Examples.empty_world) in
  lazymatch r with
  | Returned ?out ?w' =>
      destruct (@model_table_shape Examples.verbatim MoreExamples.no_page [] out
                  MoreExamples.deep_model_item Examples.empty_world w' eq_refl)
        as (t & Hg & H);
      exists out, w', t; split; [reflexivity | split; [exact Hg | exact H] ]
  end.
Defined.

Lemma leaf_page_writes_one_file_witness :
  has_member_pages (kind (self (Examples.foo_item 1))) = false
  /\ exists content : string,
       files (world_of (@_writeApiItemPage Examples.verbatim Examples.dict_documenter
                          (Examples.foo_item 1) Examples.empty_world))
       = [("out/@scope/widgets.foo.html", Written content CrLf)].
Proof.
  refine (conj eq_refl _).
  exact (@leaf_page_writes_one_file Examples.verbatim Examples.dict_documenter
           (Examples.foo_item 1) Examples.empty_world eq_refl).
Defined.

Lemma run_replaces_the_output_folder_witness :
  @generateFiles Examples.verbatim MoreExamples.broken_plugin MoreExamples.deep_model_item
    (Some (mkDocumenterConfig Lf)) "out" (mkWorld [] [("out/stale.html", Written "" Lf)])
  = Thrown "Error loading plugin" (mkWorld [] [("out/stale.html", Written "" Lf)])
  /\ exists (w' : World) (new before : list (string * FileContent)) (content : string),
       @generateFiles Examples.verbatim MoreExamples.no_plugins MoreExamples.deep_model_item
         None "out" (mkWorld [] [("out/stale.html", Written "" Lf)])
       = Returned tt w'
       /\ files w' = ("out/styles.css", CopiedFrom "../html/styles.css") :: new
       /\ new = before ++ [("out/index.html", Written content CrLf)].
Proof.
  refine (conj _ _).
  - exact (proj1 (@run_replaces_the_output_folder Examples.verbatim MoreExamples.broken_plugin
                    MoreExamples.deep_model_item (Some (mkDocumenterConfig Lf)) "out"
                    (mkWorld [] [("out/stale.html", Written "" Lf)]))
             "Error loading plugin" (mkWorld [] [("out/stale.html", Written "" Lf)]) eq_refl).
  - let r := eval vm_compute in
        (@generateFiles Examples.verbatim MoreExamples.no_plugins MoreExamples.deep_model_item
           None "out" (mkWorld [] [("out/stale.html", Written "" Lf)])) in
    lazymatch r with
    | Returned _ ?w' =>
        destruct (proj2 (@run_replaces_the_output_folder Examples.verbatim
                           MoreExamples.no_plugins MoreExamples.deep_model_item None "out"
                           (mkWorld [] [("out/stale.html", Written "" Lf)])) w' eq_refl)
          as (feature & w1 & w2 & new & Hload & Hf & Hp & Hfin & Hnone & Hlast);
        destruct (Hnone eq_refl) as [_ Hw];
        destruct (Hlast eq_refl) as (before & content & Hb);
        exists w', new, before, content;
        refine (conj eq_refl (conj _ Hb));
        rewrite Hw; exact Hf
    end.
Defined.

Lemma command_line_pages_use_CrLf_witness :
  @onExecute Examples.verbatim MoreExamples.no_plugins MoreExamples.missing_input
    (mkHtmlAction "") (mkWorld [] [("out/stale.html", Written "" Lf)])
  = Thrown "The input folder does not exist: ./input"
      (mkWorld [] [("out/stale.html", Written "" Lf)])
  /\ exists (w' : World) (new : list (string * FileContent)),
       @onExecute Examples.verbatim MoreExamples.broken_plugin MoreExamples.deep_command_line
         (mkHtmlAction "") (mkWorld [] [("out/stale.html", Written "" Lf)])
       = Returned tt w'
       /\ files w' = ("out/styles.css", CopiedFrom "../html/styles.css") :: new
       /\ Forall (fun entry => exists content, snd entry = Written content CrLf) new.
Proof.
  refine (conj _ _).
  - exact (proj1 (@command_line_pages_use_CrLf Examples.verbatim MoreExamples.missing_input
                    (mkHtmlAction "") (mkWorld [] [("out/stale.html", Written "" Lf)]))
             MoreExamples.no_plugins "The input folder does not exist: ./input"
             (mkWorld [] [("out/stale.html", Written "" Lf)]) eq_refl).
  - let r := eval vm_compute in
        (@onExecute Examples.verbatim MoreExamples.broken_plugin MoreExamples.deep_command_line
           (mkHtmlAction "") (mkWorld [] [("out/stale.html", Written "" Lf)])) in
    lazymatch r with
    | Returned _ ?w' =>
        destruct (proj2 (proj2 (@command_line_pages_use_CrLf Examples.verbatim
                                  MoreExamples.deep_command_line (mkHtmlAction "")
                                  (mkWorld [] [("out/stale.html", Written "" Lf)])))
                    MoreExamples.broken_plugin w' eq_refl)
          as (apiModel & this' & w1 & new & Hb & Hf & Hp & Hcrlf);
        injection Hb as <- <- <-;
        exists w', new; refine (conj eq_refl (conj Hf Hcrlf))
    end.
Defined.

Lemma parameters_table_shape_witness :
  parameters (mkApiParameterListMixin 1 [mkApiParameter "x" "number"]) <> []
  /\ (exists more : list string,
        _writeParameterTables [] (mkApiParameterListMixin 1 [mkApiParameter "x" "number"])
        = [ tag "h3" (Tag3s "section-heading" "Parameters");
            BlockHtmlNode "table" None
              (block_content (table ("Parameter" :: "Type" :: more))
                 ++ [parameter_row (mkApiParameter "x" "number")]) ])
  /\ _writeParameterTables [] (mkApiParameterListMixin 1 []) = []
  /\ is_function_like (kind (self Examples.deep_method_item)) = true
  /\ (exists (w' : World) (front remarks : list HtmlNode),
        @_writeApiItemPage Examples.verbatim MoreExamples.deep_documenter
          Examples.deep_method_item Examples.empty_world
        = Returned tt w'
        /\ files w'
           = [ @page_file Examples.verbatim MoreExamples.deep_documenter
                 Examples.deep_method_item
                 (front
                    ++ _writeParameterTables []
                         (mkApiParameterListMixin 1 [mkApiParameter "x" "number"])
                    ++ remarks) ]
        /\ Forall (fun n => is_section_node n = false) front
        /\ Forall (fun n => is_section_node n = false) remarks).
Proof.
  pose (T := @parameters_table_shape Examples.verbatim).
  assert (Hp : parameters (mkApiParameterListMixin 1 [mkApiParameter "x" "number"]) <> [])
    by discriminate.
  refine (conj Hp (conj _ (conj _ (conj eq_refl _)))).
  - exact (proj1 T [] (mkApiParameterListMixin 1 [mkApiParameter "x" "number"]) Hp).
  - exact (proj1 (proj2 T) [] (mkApiParameterListMixin 1 []) eq_refl).
  - destruct (proj1 (proj2 (proj2 (proj2 T))) MoreExamples.deep_documenter
                Examples.deep_method_item
                (mkApiParameterListMixin 1 [mkApiParameter "x" "number"])
                Examples.empty_world eq_refl eq_refl eq_refl) as (w' & Hreturns).
    destruct (proj1 (proj2 (proj2 T)) MoreExamples.deep_documenter
                Examples.deep_method_item
                (mkApiParameterListMixin 1 [mkApiParameter "x" "number"])
                Examples.empty_world w' eq_refl eq_refl Hreturns)
      as (front & remarks & Hfiles & Hfront & Hremarks).
    exists w', front, remarks.
    exact (conj Hreturns (conj Hfiles (conj Hfront Hremarks))).
Defined.

Lemma unsupported_kinds_throw_witness :
  has_heading (kind (self Examples.index_signature_item)) = false
  /\ @_writeApiItemPage Examples.verbatim Examples.dict_documenter
        Examples.index_signature_item Examples.empty_world
      = Thrown "Unsupported API item kind: IndexSignature" Examples.empty_world
  /\ existsb has_unsupported_kind [DocPlainText "See:"; DocOther "FencedCode"] = true
  /\ (exists e w',
        _createDocNodes [DocPlainText "See:"; DocOther "FencedCode"] Examples.empty_world
        = Thrown e w')
  /\ (exists e w',
        @_writeApiItemPage Examples.verbatim Examples.dict_documenter
          Examples.fenced_class_item Examples.empty_world
        = Thrown e w')
  /\ (forall t,
        @interface_member Examples.verbatim (fun _ => ret tt)
          (mkApiItem [Examples.dict_model; Examples.dict_package; Examples.dict_entryPoint]
             Examples.dict_interface)
          t Examples.index_signature Examples.empty_world
        = Returned t Examples.empty_world)
  /\ In MoreExamples.fenced_class_in_model (pages_of MoreExamples.fenced_model_item)
  /\ cannot_be_rendered MoreExamples.fenced_class_in_model = true
  /\ (exists e w',
        @_writeApiItemPage Examples.verbatim MoreExamples.deep_documenter
          MoreExamples.fenced_model_item Examples.empty_world
        = Thrown e w')
  /\ (exists e w',
        @generateFiles Examples.verbatim MoreExamples.no_plugins MoreExamples.fenced_model_item
          None "out" Examples.empty_world
        = Thrown e w').
Proof.
  pose (T := @unsupported_kinds_throw Examples.verbatim Examples.dict_documenter).
  assert (Hin : In MoreExamples.fenced_class_in_model
                  (pages_of MoreExamples.fenced_model_item)) by (left; reflexivity).
  refine (conj eq_refl (conj _ (conj eq_refl (conj _ (conj _ (conj _
            (conj Hin (conj eq_refl (conj _ _))))))))).
  - exact (proj1 T Examples.index_signature_item Examples.empty_world eq_refl).
  - exact (proj1 (proj2 T) [DocPlainText "See:"; DocOther "FencedCode"]
             Examples.empty_world eq_refl).
  - exact (proj1 (proj2 (proj2 T)) Examples.fenced_class_item
             (mkDocComment [DocPlainText "See:"; DocOther "FencedCode"] None)
             Examples.empty_world eq_refl eq_refl).
  - exact (proj1 (proj2 (proj1 (proj2 (proj2 (proj2 (proj2 T))))
             (fun _ => ret tt)
             (mkApiItem [Examples.dict_model; Examples.dict_package; Examples.dict_entryPoint]
                Examples.dict_interface)
             Examples.index_signature Examples.empty_world eq_refl))).
  - exact (proj1 (proj2 (proj2 (proj2 (proj2 (proj2
                    (@unsupported_kinds_throw Examples.verbatim
                       MoreExamples.deep_documenter))))))
             MoreExamples.fenced_class_in_model MoreExamples.fenced_model_item
             Examples.empty_world Hin eq_refl).
  - exact (proj1 (proj2 (proj2 (proj2 (proj2 (proj2 (proj2 T))))))
             MoreExamples.no_plugins MoreExamples.fenced_model_item None "out"
             MoreExamples.fenced_class_in_model Examples.empty_world Hin eq_refl).
Defined.

Lemma page_starts_with_breadcrumb_and_heading_witness :
  exists (w' : World) (before : list (string * FileContent)) (text : string)
         (rest : list HtmlNode),
    @_writeApiItemPage Examples.verbatim Examples.dict_documenter Examples.empty_class_item
      Examples.empty_world
    = Returned tt w'
    /\ files w'
       = before
           ++ [ ("out/.Widget.html",
                 Written
                   (@emit Examples.verbatim ["styles.css"]
                      [ tag "header" (Tag2b [
                          tag "div" (Tag3b "header-top" [
                            a "" "https://developers.symphony.com/" (Some "header-logo")
                          ]);
                          tag "div" (Tag3b "header-bottom" [])
                        ]);
                        BlockHtmlNode "div" (Some [("class", "main")])
                          (@_writeBreadcrumb Examples.verbatim Examples.dict_documenter []
                             Examples.empty_class_item
                             ++ tag "h1" (Tag3s "page-header" text) :: rest) ])
                   CrLf) ].
Proof.
  let r := eval vm_compute in
      (@_writeApiItemPage Examples.verbatim Examples.dict_documenter
         Examples.empty_class_item Examples.empty_world) in
  lazymatch r with
  | Returned _ ?w' =>
      destruct (@page_starts_with_breadcrumb_and_heading Examples.verbatim
                  Examples.dict_documenter Examples.empty_class_item Examples.empty_world
                  w' eq_refl)
        as (before & text & rest & H);
      exists w', before, text, rest; split; [reflexivity | exact H]
  end.
Defined.

Lemma property_cells_witness :
  propertyItem (MoreExamples.property "size" "" false ApiItemKind.Property)
  = Some (mkApiPropertyItem false "")
  /\ _createPropertyTypeCell
       (mkApiItem [] (MoreExamples.property "size" "" false ApiItemKind.Property))
     = TextHtmlNode "code" None "type"
  /\ propertyItem (MoreExamples.property "size" "number" false ApiItemKind.Property)
     = Some (mkApiPropertyItem false "number")
  /\ _createPropertyTypeCell
       (mkApiItem [] (MoreExamples.property "size" "number" false ApiItemKind.Property))
     = TextHtmlNode "code" (Some [("class", "type")]) "number".
Proof.
  refine (conj eq_refl (conj _ (conj eq_refl _))).
  - exact (proj1 (property_cells
                    (mkApiItem [] (MoreExamples.property "size" "" false ApiItemKind.Property)))
             (mkApiPropertyItem false "") eq_refl).
  - exact (proj1 (property_cells
                    (mkApiItem []
                       (MoreExamples.property "size" "number" false ApiItemKind.Property)))
             (mkApiPropertyItem false "number") eq_refl).
Defined.

End MoreWitnesses.
